(** * micro-temp: the unified logger package ([internal/pkg/logger])

    A shallow embedding of the logger package: levels, the sensitive-field
    sanitizer, context field extraction, the zap-backed loggers, the output
    manager, the factory, the global registry and the Connect interceptor.

    Conventions.
    - Go strings are byte strings ([string]). Bytes above 127 belong to no
      character class and are not word characters (as in Go's [regexp],
      whose [\b], [\d], [\s] and bracket classes used here are ASCII only).
      Letter case is modelled for ASCII: [ToLower] and the [(?i)] patterns
      are those of Go on strings of ASCII bytes ([Bytes.isASCII]); on other
      strings Go consults the Unicode tables of its library, which are not
      embedded here, and the statements about letter case assume ASCII
      names.
    - Go's [int], [int8], [int64] values are [Z].
    - Go maps are [gmap]s.
    - Effects (records written to sinks, stderr, flushes, process exit) are
      events appended to the [trace] of a [World]. *)

From Stdlib Require Import ZArith Ascii String List Bool Lia.
From stdpp Require Import gmap strings list fin_maps.

Import ListNotations.
Local Open Scope string_scope.
Local Open Scope list_scope.
Local Open Scope Z_scope.

Set Warnings "-register-all".

(* ===================================================================== *)
(** * Byte strings *)
(* ===================================================================== *)

Module Bytes.

Definition code (c : ascii) : N := N_of_ascii c.

Definition between (lo hi c : ascii) : bool :=
  ((code lo <=? code c) && (code c <=? code hi))%N.

Definition isChar (x c : ascii) : bool := Ascii.eqb x c.

Definition isUpper : ascii -> bool := between "A" "Z".
Definition isLower : ascii -> bool := between "a" "z".
Definition isDigit : ascii -> bool := between "0" "9".

(** [\w] of Go's regexp: [[0-9A-Za-z_]]. *)
Definition isWord (c : ascii) : bool :=
  isDigit c || isUpper c || isLower c || isChar "_" c.

(** [\s] of Go's regexp: [[\t\n\f\r ]]. *)
Definition isSpace (c : ascii) : bool :=
  isChar (ascii_of_nat 9) c || isChar (ascii_of_nat 10) c || isChar (ascii_of_nat 12) c
  || isChar (ascii_of_nat 13) c || isChar " " c.

Definition lowerByte (c : ascii) : ascii :=
  if isUpper c then ascii_of_N (code c + 32) else c.

Definition upperByte (c : ascii) : ascii :=
  if isLower c then ascii_of_N (code c - 32) else c.

Definition chars (s : string) : list ascii := list_ascii_of_string s.
Definition str (l : list ascii) : string := string_of_list_ascii l.

(** A string all of whose bytes are below [utf8.RuneSelf] (128). *)
Definition isASCII (s : string) : bool :=
  forallb (fun c => (code c <? 128)%N) (chars s).

(** [strings.ToLower] on a string of ASCII bytes: the library function
    lower-cases the bytes [A]-[Z] when no byte is 128 or more, and maps
    [unicode.ToLower] over the runes otherwise. The second case needs the
    library's Unicode tables and is not modelled: for a string that is not
    [isASCII] the value below is not the library's. *)
Definition ToLower (s : string) : string := str (map lowerByte (chars s)).

(** [strings.Join(values, sep)]. *)
Fixpoint Join (values : list string) (sep : string) : string :=
  match values with
  | [] => ""
  | [v] => v
  | v :: vs => v +:+ sep +:+ Join vs sep
  end.

Definition newline : string := String (ascii_of_nat 10) EmptyString.

End Bytes.

(* ===================================================================== *)
(** * The fragment of Go's [regexp] the package uses *)
(* ===================================================================== *)

(** Every pattern of the package is a sequence of: greedy bounded
    repetitions of a one-character class ([\d{4}], [[-\s]?],
    [[A-Za-z0-9_-]{24,}], a literal), the word boundary [\b], and capture
    groups around such sequences. A pattern is a list of instructions, a
    group being its opening and closing marker. Matching is leftmost-first
    with greedy repetitions, found by backtracking, as Go's [regexp]
    guarantees for this syntax. *)
Module Regexp.
Import Bytes.

Inductive inst : Type :=
| Rep (cls : ascii -> bool) (lo : nat) (hi : option nat)
| WordBoundary
| Open (n : nat)
| Close (n : nat).

Definition regexp := list inst.

(** Captures: group number, start offset, end offset. *)
Definition captures := list (nat * (nat * nat)).

Definition openGroup (n pos : nat) (caps : captures) : captures :=
  (n, (pos, pos)) :: caps.

Fixpoint closeGroup (n pos : nat) (caps : captures) : captures :=
  match caps with
  | [] => []
  | (m, (a, b)) :: rest =>
      if Nat.eqb m n then (m, (a, pos)) :: rest
      else (m, (a, b)) :: closeGroup n pos rest
  end.

Fixpoint group (n : nat) (caps : captures) : option (nat * nat) :=
  match caps with
  | [] => None
  | (m, ab) :: rest => if Nat.eqb m n then Some ab else group n rest
  end.

Definition wordBefore (prev : option ascii) : bool :=
  match prev with Some c => isWord c | None => false end.

Definition wordAfter (rest : list ascii) : bool :=
  match rest with c :: _ => isWord c | [] => false end.

(** [\b]: a word character on exactly one side. *)
Definition atWordBoundary (prev : option ascii) (rest : list ascii) : bool :=
  xorb (wordBefore prev) (wordAfter rest).

(** Number of leading characters of [rest] in [cls], at most [hi]. *)
Fixpoint span (cls : ascii -> bool) (hi : option nat) (rest : list ascii) : nat :=
  match hi with
  | Some O => O
  | _ =>
      match rest with
      | c :: rest' =>
          if cls c then S (span cls (option_map Nat.pred hi) rest') else O
      | [] => O
      end
  end.

(** The character before the position reached after consuming [k]
    characters of [rest]. *)
Definition prevAfter (prev : option ascii) (rest : list ascii) (k : nat)
  : option ascii :=
  match k with
  | O => prev
  | S k' => match nth_error rest k' with Some c => Some c | None => prev end
  end.

(** Greedy choice with backtracking: try [k] characters, then fewer, down
    to [lo]. *)
Fixpoint tryFrom {R : Type} (k lo : nat) (cont : nat -> option R) : option R :=
  match cont k with
  | Some r => Some r
  | None =>
      match k with
      | O => None
      | S k' => if (lo <=? k')%nat then tryFrom k' lo cont else None
      end
  end.

(** [run p prev pos rest caps]: match [p] at offset [pos], where [rest] is
    the subject from [pos] on and [prev] the character before it. Returns
    the end offset and the captures of the first match a backtracking
    search finds. *)
Fixpoint run (p : regexp) (prev : option ascii) (pos : nat)
    (rest : list ascii) (caps : captures) : option (nat * captures) :=
  match p with
  | [] => Some (pos, caps)
  | WordBoundary :: p' =>
      if atWordBoundary prev rest then run p' prev pos rest caps else None
  | Open n :: p' => run p' prev pos rest (openGroup n pos caps)
  | Close n :: p' => run p' prev pos rest (closeGroup n pos caps)
  | Rep cls lo hi :: p' =>
      let longest := span cls hi rest in
      if (longest <? lo)%nat then None
      else
        tryFrom longest lo
          (fun k => run p' (prevAfter prev rest k) (pos + k)%nat (skipn k rest) caps)
  end.

(** [re.MatchString(s)]: is there a match starting anywhere in [s]. *)
Fixpoint matchFrom (p : regexp) (prev : option ascii) (pos : nat)
    (rest : list ascii) : bool :=
  match run p prev pos rest [] with
  | Some _ => true
  | None =>
      match rest with
      | [] => false
      | c :: rest' => matchFrom p (Some c) (S pos) rest'
      end
  end.

Definition MatchString (p : regexp) (s : string) : bool :=
  matchFrom p None O (chars s).

(** Replacement templates: literal text and [$n] references. *)
Inductive piece : Type :=
| Lit (s : string)
| Ref (n : nat).

Definition template := list piece.

Definition slice (subject : list ascii) (a b : nat) : list ascii :=
  firstn (b - a) (skipn a subject).

Definition expandPiece (subject : list ascii) (caps : captures) (t : piece)
  : list ascii :=
  match t with
  | Lit s => chars s
  | Ref n =>
      match group n caps with
      | Some (a, b) => slice subject a b
      | None => []
      end
  end.

Definition expand (subject : list ascii) (caps : captures) (t : template)
  : list ascii :=
  concat (map (expandPiece subject caps) t).

(** The loop of [ReplaceAllString]: find the leftmost match at or after the
    current offset, copy the text before it, append the expanded template,
    and go on after the match. [skip] counts the characters of the current
    match still to pass. The patterns replaced in this package consume at
    least eight characters ([minLen], lemma [run_consumes]), so a match is
    never empty; the branch for an empty match copies the character. *)
Fixpoint replaceFrom (p : regexp) (t : template) (subject : list ascii)
    (prev : option ascii) (pos : nat) (rest : list ascii) (skip : nat)
  : list ascii :=
  match rest with
  | [] => []
  | c :: rest' =>
      match skip with
      | S k => replaceFrom p t subject (Some c) (S pos) rest' k
      | O =>
          match run p prev pos rest [] with
          | Some (e, caps) =>
              if (pos <? e)%nat then
                expand subject caps t
                  ++ replaceFrom p t subject (Some c) (S pos) rest' (e - pos - 1)
              else c :: replaceFrom p t subject (Some c) (S pos) rest' O
          | None => c :: replaceFrom p t subject (Some c) (S pos) rest' O
          end
      end
  end.

Definition ReplaceAllString (p : regexp) (src : string) (t : template) : string :=
  str (replaceFrom p t (chars src) None O (chars src) O).

(** Does some repetition of [p] accept the character [c]. *)
Definition classesOf (p : regexp) (c : ascii) : bool :=
  existsb (fun i => match i with Rep cls _ _ => cls c | _ => false end) p.

(** The least number of characters a match of [p] consumes. *)
Fixpoint minLen (p : regexp) : nat :=
  match p with
  | [] => O
  | Rep _ lo _ :: p' => (lo + minLen p')%nat
  | _ :: p' => minLen p'
  end.

(** Number of asterisks in a text, and in the literal text of a template. *)
Definition stars (l : list ascii) : nat := length (filter (fun c => c = "*"%char) l).

Definition litStars (t : template) : nat :=
  list_sum (map (fun x => match x with Lit s => stars (chars s) | Ref _ => O end) t).

(** Pattern notation helpers. *)
Definition one (cls : ascii -> bool) : inst := Rep cls 1 (Some 1%nat).
Definition exactly (n : nat) (cls : ascii -> bool) : inst := Rep cls n (Some n).
Definition optional (cls : ascii -> bool) : inst := Rep cls 0 (Some 1%nat).
Definition star (cls : ascii -> bool) : inst := Rep cls 0 None.
Definition plus (cls : ascii -> bool) : inst := Rep cls 1 None.
Definition atLeast (n : nat) (cls : ascii -> bool) : inst := Rep cls n None.
Definition range (lo hi : nat) (cls : ascii -> bool) : inst := Rep cls lo (Some hi).

(** A literal under [(?i)]: each letter in either case. This is the
    pattern's meaning on a subject of ASCII bytes; Go folds by Unicode
    simple folding, under which [k] and [s] also match the runes U+212A and
    U+017F, which such a subject does not contain. *)
Definition foldCase (c : ascii) : ascii -> bool :=
  fun x => isChar (lowerByte c) x || isChar (upperByte c) x.

Definition literalFold (s : string) : regexp := map (fun c => one (foldCase c)) (chars s).

End Regexp.

(* ===================================================================== *)
(** * Levels ([types.go]) *)
(* ===================================================================== *)

(** [type Level int8]. *)
Definition Level := Z.

Definition DebugLevel : Level := -1.
Definition InfoLevel : Level := 0.
Definition WarnLevel : Level := 1.
Definition ErrorLevel : Level := 2.
Definition FatalLevel : Level := 3.

Definition definedLevels : list Level :=
  [DebugLevel; InfoLevel; WarnLevel; ErrorLevel; FatalLevel].

Definition levelNames : list string := ["debug"; "info"; "warn"; "error"; "fatal"].

(** [func (l Level) String() string]. *)
Definition Level_String (l : Level) : string :=
  if Z.eqb l DebugLevel then "debug"
  else if Z.eqb l InfoLevel then "info"
  else if Z.eqb l WarnLevel then "warn"
  else if Z.eqb l ErrorLevel then "error"
  else if Z.eqb l FatalLevel then "fatal"
  else "unknown".

(** [func ParseLevel(s string) Level]. *)
Definition ParseLevel (s : string) : Level :=
  if String.eqb s "debug" then DebugLevel
  else if String.eqb s "info" then InfoLevel
  else if String.eqb s "warn" then WarnLevel
  else if String.eqb s "error" then ErrorLevel
  else if String.eqb s "fatal" then FatalLevel
  else InfoLevel.

(* ===================================================================== *)
(** * Fields ([zap.Field]) *)
(* ===================================================================== *)

(** The value carried by a [zap.Field], by constructor used in the
    package: [zap.String], [zap.Int], [zap.Int64], [zap.Bool],
    [zap.Duration] (nanoseconds), [zap.Time], [zap.Error] and [zap.Any]
    of a header map. *)
Inductive FieldValue : Type :=
| VString (s : string)
| VInt (n : Z)
| VInt64 (n : Z)
| VBool (b : bool)
| VDuration (ns : Z)
| VTime (t : Z)
| VError (msg : string)
| VHeaders (headers : gmap string string).

Record Field : Type := mkField { Key : string; Value : FieldValue }.

#[global] Instance FieldValue_eq_dec : EqDecision FieldValue.
Proof. solve_decision. Defined.

#[global] Instance Field_eq_dec : EqDecision Field.
Proof. solve_decision. Defined.

Module zapf.
Definition String (key val : string) : Field := mkField key (VString val).
Definition Int (key : string) (n : Z) : Field := mkField key (VInt n).
Definition Int64 (key : string) (n : Z) : Field := mkField key (VInt64 n).
Definition Bool (key : string) (b : bool) : Field := mkField key (VBool b).
Definition Duration (key : string) (ns : Z) : Field := mkField key (VDuration ns).
Definition Time (key : string) (t : Z) : Field := mkField key (VTime t).
Definition Error (msg : string) : Field := mkField "error" (VError msg).
Definition Headers (key : string) (h : gmap string string) : Field :=
  mkField key (VHeaders h).
End zapf.

(* ===================================================================== *)
(** * Sensitive data ([types.go], second part) *)
(* ===================================================================== *)

Module Sanitizer.
Import Bytes Regexp.

(** [sensitiveFieldPatterns]. *)
Definition sensitiveFieldPatterns : list regexp :=
  [ literalFold "password";
    literalFold "passwd";
    literalFold "secret";
    literalFold "token";
    literalFold "key";
    literalFold "auth";
    literalFold "credential";
    literalFold "session" ].

Definition REDACTED : string := "[REDACTED]".

(** [AddSensitiveField] and [RemoveSensitiveField] on the package map
    [customSensitiveFields]. *)
Definition AddSensitiveField (fieldName : string)
    (customSensitiveFields : gmap string bool) : gmap string bool :=
  <[ToLower fieldName := true]> customSensitiveFields.

Definition RemoveSensitiveField (fieldName : string)
    (customSensitiveFields : gmap string bool) : gmap string bool :=
  delete (ToLower fieldName) customSensitiveFields.

(** [isSensitiveField]. Reading a Go map at a missing key gives [false]. *)
Definition isSensitiveField (customSensitiveFields : gmap string bool)
    (key : string) : bool :=
  let lowerKey := ToLower key in
  if default false (customSensitiveFields !! lowerKey) then true
  else existsb (fun pattern => MatchString pattern lowerKey) sensitiveFieldPatterns.

(** The body of the loop of [SanitizeFields]: what is appended for one
    field. *)
Definition sanitizeField (customSensitiveFields : gmap string bool)
    (field : Field) : Field :=
  if isSensitiveField customSensitiveFields (Key field)
  then zapf.String (Key field) REDACTED
  else field.

(** [SanitizeFields]: the loop appends one field per input field. *)
Fixpoint SanitizeFields (customSensitiveFields : gmap string bool)
    (fields : list Field) : list Field :=
  match fields with
  | [] => []
  | field :: rest =>
      sanitizeField customSensitiveFields field
      :: SanitizeFields customSensitiveFields rest
  end.

(** Character classes of the value patterns. *)
Definition alnum (c : ascii) : bool := isUpper c || isLower c || isDigit c.
Definition sep (c : ascii) : bool := isChar "-" c || isSpace c.
Definition userChar (c : ascii) : bool :=
  alnum c || isChar "." c || isChar "_" c || isChar "%" c || isChar "+" c
  || isChar "-" c.
Definition hostChar (c : ascii) : bool := alnum c || isChar "." c || isChar "-" c.
Definition tldChar (c : ascii) : bool := isUpper c || isChar "|" c || isLower c.
Definition tokenChar (c : ascii) : bool := alnum c || isChar "_" c || isChar "-" c.
Definition digitOrX (c : ascii) : bool := isDigit c || isChar "X" c || isChar "x" c.

(** [\b(\d{4})[-\s]?\d{4}[-\s]?\d{4}[-\s]?(\d{4})\b] *)
Definition cardPattern : regexp :=
  [ WordBoundary; Open 1; exactly 4 isDigit; Close 1; optional sep;
    exactly 4 isDigit; optional sep; exactly 4 isDigit; optional sep;
    Open 2; exactly 4 isDigit; Close 2; WordBoundary ].
(** ["$1-****-****-$2"] *)
Definition cardMask : template := [Ref 1; Lit "-****-****-"; Ref 2].

(** [\b(\d{3})\d{12}(\d{2})\b] *)
Definition id17Pattern : regexp :=
  [ WordBoundary; Open 1; exactly 3 isDigit; Close 1; exactly 12 isDigit;
    Open 2; exactly 2 isDigit; Close 2; WordBoundary ].
(** [\b(\d{3})\d{11}(\d[\dXx])\b] *)
Definition id16Pattern : regexp :=
  [ WordBoundary; Open 1; exactly 3 isDigit; Close 1; exactly 11 isDigit;
    Open 2; one isDigit; one digitOrX; Close 2; WordBoundary ].
(** ["$1***********$2"] *)
Definition idMask : template := [Ref 1; Lit "***********"; Ref 2].

(** [\b([A-Za-z0-9._%+-]{1,2})[A-Za-z0-9._%+-]*(@[A-Za-z0-9.-]+\.[A-Z|a-z]{2,})\b] *)
Definition emailPattern : regexp :=
  [ WordBoundary; Open 1; range 1 2 userChar; Close 1; star userChar;
    Open 2; one (isChar "@"); plus hostChar; one (isChar ".");
    atLeast 2 tldChar; Close 2; WordBoundary ].
(** ["$1****$2"] *)
Definition emailMask : template := [Ref 1; Lit "****"; Ref 2].

(** [\b(1[3-9]\d)(\d{4})(\d{4})\b] *)
Definition phonePattern : regexp :=
  [ WordBoundary; Open 1; one (isChar "1"); one (between "3" "9"); one isDigit;
    Close 1; Open 2; exactly 4 isDigit; Close 2; Open 3; exactly 4 isDigit;
    Close 3; WordBoundary ].
(** ["$1****$3"] *)
Definition phoneMask : template := [Ref 1; Lit "****"; Ref 3].

(** [\b([A-Za-z0-9_-]{8})[A-Za-z0-9_-]{24,}\b] *)
Definition tokenPattern : regexp :=
  [ WordBoundary; Open 1; exactly 8 tokenChar; Close 1; atLeast 24 tokenChar;
    WordBoundary ].
(** ["$1****"] *)
Definition tokenMask : template := [Ref 1; Lit "****"].

(** The replacements of [sanitizeString], in the order applied. *)
Definition maskingSteps : list (regexp * template) :=
  [ (cardPattern, cardMask); (id17Pattern, idMask); (id16Pattern, idMask);
    (emailPattern, emailMask); (phonePattern, phoneMask);
    (tokenPattern, tokenMask) ].

(** [sanitizeString]. *)
Definition sanitizeString (input : string) : string :=
  let result := input in
  let result := ReplaceAllString cardPattern result cardMask in
  let result := ReplaceAllString id17Pattern result idMask in
  let result := ReplaceAllString id16Pattern result idMask in
  let result := ReplaceAllString emailPattern result emailMask in
  let result := ReplaceAllString phonePattern result phoneMask in
  let result := ReplaceAllString tokenPattern result tokenMask in
  result.

(** Does one of the patterns of [sanitizeString] match somewhere in [s]. *)
Definition matchesAny (s : string) : bool :=
  existsb (fun step => MatchString (fst step) s) maskingSteps.

End Sanitizer.

(* ===================================================================== *)
(** * Configuration structs ([types.go], [output.go], [middleware.go]) *)
(* ===================================================================== *)

Module ConsoleOutputConfig.
Record t : Type := mk { Enabled : bool }.
End ConsoleOutputConfig.

Module FileOutputConfig.
Record t : Type := mk {
  Enabled : bool; Path : string; MaxSize : Z; MaxBackups : Z; MaxAge : Z;
  Compress : bool }.
(** The zero value of the struct. *)
Definition zero : t := mk false "" 0 0 0 false.
End FileOutputConfig.

Module RemoteOutputConfig.
Record t : Type := mk {
  Enabled : bool; Endpoint : string; Protocol : string; BatchSize : Z;
  Timeout : Z; TLS : bool }.
Definition zero : t := mk false "" "" 0 0 false.
End RemoteOutputConfig.

Module OutputConfig.
Record t : Type := mk {
  Console : ConsoleOutputConfig.t;
  File : FileOutputConfig.t;
  Remote : RemoteOutputConfig.t }.
Definition zero : t :=
  mk (ConsoleOutputConfig.mk false) FileOutputConfig.zero RemoteOutputConfig.zero.
End OutputConfig.

Module TracingConfig.
Record t : Type := mk { Enabled : bool }.
End TracingConfig.

Module LoggerConfig.
Record t : Type := mk {
  Level : Z;
  Format : string;
  ServiceName : string;
  Version : string;
  Environment : string;
  Output : OutputConfig.t;
  Tracing : TracingConfig.t }.
Definition zero : t := mk 0 "" "" "" "" OutputConfig.zero (TracingConfig.mk false).
End LoggerConfig.

Module InternalFileOutputConfig.
Record t : Type := mk {
  Filename : string; MaxSizeMB : Z; MaxBackups : Z; MaxAgeDays : Z;
  Compress : bool }.
End InternalFileOutputConfig.

Module InternalRemoteOutputConfig.
Record t : Type := mk {
  Type_ : string; Endpoint : string; Protocol : string; Timeout : Z;
  TLS : bool; BatchSize : Z }.
End InternalRemoteOutputConfig.

Module MiddlewareConfig.
Record t : Type := mk {
  LogRequests : bool;
  LogResponses : bool;
  LogHeaders : bool;
  SensitiveFields : list string;
  MaxBodySize : Z;
  SlowThreshold : Z }.
End MiddlewareConfig.

(* ===================================================================== *)
(** * The zap engine, as far as the package relies on it *)
(* ===================================================================== *)

(** zap is a library outside the repository. The model keeps what the
    package observes: a core writes an entry to a sink when the entry's
    level is enabled; a tee writes to each of its cores in order;
    [IncreaseLevel] wraps the core in a filter and is refused when it would
    enable a level the core does not enable; [With] extends the fields
    written with every entry; [Fatal] ends the process after writing; a
    sampler, which the production configuration puts around the core,
    counts the enabled entries offered to it and drops some of them. The
    message zap prints on its error output when [IncreaseLevel] is refused
    is not modelled. *)
Module zapcore.

Definition Level := Z.
Definition DebugLevel : Level := -1.
Definition InfoLevel : Level := 0.
Definition WarnLevel : Level := 1.
Definition ErrorLevel : Level := 2.
Definition DPanicLevel : Level := 3.
Definition PanicLevel : Level := 4.
Definition FatalLevel : Level := 5.

Definition allLevels : list Level :=
  [FatalLevel; PanicLevel; DPanicLevel; ErrorLevel; WarnLevel; InfoLevel; DebugLevel].

Inductive Encoder : Type := JSONEncoder | ConsoleEncoder.

Inductive WriteSyncer : Type :=
| Stdout
| Lumberjack (config : InternalFileOutputConfig.t).

(** The decision of a sampler: whether it lets through an entry of the
    given level and message that is logged at the given moment. The
    sampler of zap keeps, per level and hash of the message, the first
    hundred entries of a second and every hundredth after them; the
    decision so depends on the time of the call and on the entries counted
    before it, which the model does not track. The moment is the number of
    events that have happened. *)
Definition Sampling : Type := nat -> Level -> string -> bool.

Inductive Core : Type :=
| ioCore (enc : Encoder) (out : WriteSyncer) (enab : Level)
| multiCore (cores : list Core)
| levelFilterCore (core : Core) (level : Level)
| samplerCore (keeps : Sampling) (core : Core).

Definition NewCore := ioCore.
Definition NewTee := multiCore.
(** [NewSamplerWithOptions(core, time.Second, 100, 100)]. *)
Definition NewSamplerWithOptions := samplerCore.

Fixpoint Enabled (c : Core) (l : Level) : bool :=
  match c with
  | ioCore _ _ enab => enab <=? l
  | multiCore cores => existsb (fun c' => Enabled c' l) cores
  | levelFilterCore _ level => level <=? l
  | samplerCore _ core => Enabled core l
  end.

(** The sinks an entry of level [l] offered to [c] is written to when no
    sampler drops it. *)
Fixpoint sinks (c : Core) (l : Level) : list (Encoder * WriteSyncer) :=
  match c with
  | ioCore enc out enab => if enab <=? l then [(enc, out)] else []
  | multiCore cores => flat_map (fun c' => sinks c' l) cores
  | levelFilterCore core level => if level <=? l then sinks core l else []
  | samplerCore _ core => sinks core l
  end.

(** The sinks an entry of level [l] and message [msg], offered to [c] at
    the moment [now], is written to: [Check] of a sampler passes an enabled
    entry on to its core only if it keeps it. *)
Fixpoint kept (c : Core) (now : nat) (l : Level) (msg : string)
  : list (Encoder * WriteSyncer) :=
  match c with
  | ioCore enc out enab => if enab <=? l then [(enc, out)] else []
  | multiCore cores => flat_map (fun c' => kept c' now l msg) cores
  | levelFilterCore core level => if level <=? l then kept core now l msg else []
  | samplerCore keeps core =>
      if Enabled core l && keeps now l msg then kept core now l msg else []
  end.

(** Does a sampler in [c] count the entry and drop it. *)
Fixpoint dropped (c : Core) (now : nat) (l : Level) (msg : string) : bool :=
  match c with
  | ioCore _ _ _ => false
  | multiCore cores => existsb (fun c' => dropped c' now l msg) cores
  | levelFilterCore core level => (level <=? l) && dropped core now l msg
  | samplerCore keeps core =>
      Enabled core l && (negb (keeps now l msg) || dropped core now l msg)
  end.

(** [NewIncreaseLevelCore]: refused when some level is enabled by
    [level] and not by [core]. *)
Definition NewIncreaseLevelCore (core : Core) (level : Level) : option Core :=
  if existsb (fun l => (level <=? l) && negb (Enabled core l)) allLevels
  then None
  else Some (levelFilterCore core level).

End zapcore.

(** What the process does to the outside, in order. [Dropped] is an entry
    a sampler counted and dropped: nothing is written, but the decisions
    the sampler takes later depend on it. *)
Inductive Event : Type :=
| Wrote (enc : zapcore.Encoder) (out : zapcore.WriteSyncer) (level : zapcore.Level)
    (msg : string) (fields : list Field)
| Dropped (level : zapcore.Level) (msg : string)
| Synced (core : zapcore.Core)
| Stderr (text : string)
| MkdirAllFor (filename : string)
| Exit (code : Z).

Definition World := list Event.

(** What the outside answers. [getStackTrace] is the text the function of
    that name builds from the call stack of the call at hand; the model
    has one text for an environment and does not tell call stacks apart,
    so it says nothing on how the traces of two different calls compare. *)
Record Env : Type := mkEnvWith {
  Getenv : gmap string string;              (* os.Getenv, unset reads as "" *)
  zapBuildError : option string;            (* error of zap.Config.Build *)
  mkdirAllError : string -> option string;  (* error of os.MkdirAll(filepath.Dir(name)) *)
  syncError : option string;                (* error of zap.Logger.Sync *)
  getStackTrace : string;                   (* text built by getStackTrace() *)
  samplerKeeps : zapcore.Sampling           (* decisions of the production sampler *)
}.

(** An environment in which the sampler drops nothing. *)
Definition mkEnv (getenv : gmap string string) (zapBuildError : option string)
    (mkdirAllError : string -> option string) (syncError : option string)
    (stackTrace : string) : Env :=
  mkEnvWith getenv zapBuildError mkdirAllError syncError stackTrace (fun _ _ _ => true).

Definition os_Getenv (env : Env) (name : string) : string :=
  default "" (Getenv env !! name).

Module zap.

Record Logger : Type := mkLogger {
  core : zapcore.Core;
  context : list Field }.

(** [zap.New(core, options...)]; the options used by the package affect
    caller and stack annotations of the entry, not its fields. *)
Definition New (c : zapcore.Core) : Logger := mkLogger c [].

Definition With (l : Logger) (fields : list Field) : Logger :=
  mkLogger (core l) (context l ++ fields).

(** [l.WithOptions(zap.IncreaseLevel(lvl))]. *)
Definition WithIncreaseLevel (l : Logger) (lvl : zapcore.Level) : Logger :=
  match zapcore.NewIncreaseLevelCore (core l) lvl with
  | Some c => mkLogger c (context l)
  | None => l
  end.

(** The events of writing one entry to each of the given sinks. *)
Definition writeTo (sinks : list (zapcore.Encoder * zapcore.WriteSyncer)) (l : Logger)
    (lvl : zapcore.Level) (msg : string) (fields : list Field) : list Event :=
  map (fun s => Wrote (fst s) (snd s) lvl msg (context l ++ fields)) sinks.

(** An entry that no sampler drops. *)
Definition write (l : Logger) (lvl : zapcore.Level) (msg : string)
    (fields : list Field) : list Event :=
  writeTo (zapcore.sinks (core l) lvl) l lvl msg fields.

(** One entry logged in the world [w]: written to the sinks that its level
    and the samplers let it reach. *)
Definition log (l : Logger) (lvl : zapcore.Level) (msg : string)
    (fields : list Field) (w : World) : World :=
  w ++ writeTo (zapcore.kept (core l) (length w) lvl msg) l lvl msg fields
    ++ (if zapcore.dropped (core l) (length w) lvl msg then [Dropped lvl msg] else []).

Definition Debug (l : Logger) (msg : string) (fields : list Field) (w : World) : World :=
  log l zapcore.DebugLevel msg fields w.
Definition Info (l : Logger) (msg : string) (fields : list Field) (w : World) : World :=
  log l zapcore.InfoLevel msg fields w.
Definition Warn (l : Logger) (msg : string) (fields : list Field) (w : World) : World :=
  log l zapcore.WarnLevel msg fields w.
Definition Error (l : Logger) (msg : string) (fields : list Field) (w : World) : World :=
  log l zapcore.ErrorLevel msg fields w.
(** [Fatal] writes and then calls [os.Exit(1)]. The process ends with its
    first entry of this level, and a sampler lets the first entry of a
    level through, so no sampler drops it. *)
Definition Fatal (l : Logger) (msg : string) (fields : list Field) (w : World) : World :=
  w ++ write l zapcore.FatalLevel msg fields ++ [Exit 1].

Definition Sync (env : Env) (l : Logger) (w : World) : option string * World :=
  (syncError env, w ++ [Synced (core l)]).

End zap.

(** The records a world holds, as (level, message, fields). *)
Definition recordOf (e : Event) : option (zapcore.Level * string * list Field) :=
  match e with
  | Wrote _ _ lvl msg fields => Some (lvl, msg, fields)
  | _ => None
  end.

Definition records (w : World) : list (zapcore.Level * string * list Field) :=
  omap recordOf w.

(* ===================================================================== *)
(** * Request contexts *)
(* ===================================================================== *)

(** A [context.Context] as the package reads it: the values stored under
    string keys (a value is a string or something else) and the
    OpenTelemetry span context, if a span was attached. *)
Inductive CtxValue : Type :=
| CtxString (s : string)
| CtxOther.

Record SpanContext : Type := mkSpanContext {
  TraceID : N;        (* 16 bytes *)
  SpanID : N;         (* 8 bytes *)
  TraceFlagsSampled : bool }.

Record Context : Type := mkContext {
  ctxValues : gmap string CtxValue;
  ctxSpan : option SpanContext }.

Definition context_Background : Context := mkContext ∅ None.

Definition context_WithValue (parent : Context) (key : string) (val : CtxValue) : Context :=
  mkContext (<[key := val]> (ctxValues parent)) (ctxSpan parent).

Module trace.

Definition hexDigit (d : N) : ascii :=
  if (d <? 10)%N then ascii_of_N (48 + d) else ascii_of_N (87 + d).

(** The lowercase hexadecimal text of [x] on [digits] digits. *)
Fixpoint hex (digits : nat) (x : N) : list ascii :=
  match digits with
  | O => []
  | S d => hex d (x / 16)%N ++ [hexDigit (x mod 16)%N]
  end.

Definition TraceID_String (id : N) : string := Bytes.str (hex 32 id).
Definition SpanID_String (id : N) : string := Bytes.str (hex 16 id).

Definition HasTraceID (sc : SpanContext) : bool := negb (TraceID sc =? 0)%N.
Definition HasSpanID (sc : SpanContext) : bool := negb (SpanID sc =? 0)%N.
Definition IsValid (sc : SpanContext) : bool := HasTraceID sc && HasSpanID sc.
Definition IsSampled (sc : SpanContext) : bool := TraceFlagsSampled sc.

(** [trace.SpanFromContext(ctx).SpanContext()]: without a span the
    no-op span's empty span context. *)
Definition SpanContextFromContext (ctx : Context) : SpanContext :=
  default (mkSpanContext 0 0 false) (ctxSpan ctx).

End trace.

(* ===================================================================== *)
(** * Context field extraction ([tracing.go]) *)
(* ===================================================================== *)

Record TracingExtractor : Type := mkTracingExtractor { enabled : bool }.

Definition NewTracingExtractor (enabled : bool) : TracingExtractor :=
  mkTracingExtractor enabled.

(** [ExtractTraceFields]. *)
Definition ExtractTraceFields (t : TracingExtractor) (ctx : Context) : list Field :=
  if negb (enabled t) then []
  else
    let spanContext := trace.SpanContextFromContext ctx in
    if trace.IsValid spanContext then
      (if trace.HasTraceID spanContext
       then [zapf.String "trace_id" (trace.TraceID_String (TraceID spanContext))]
       else [])
      ++ (if trace.HasSpanID spanContext
          then [zapf.String "span_id" (trace.SpanID_String (SpanID spanContext))]
          else [])
      ++ (if trace.IsSampled spanContext
          then [zapf.Bool "trace_sampled" true]
          else [])
    else [].

(** [getContextValue]: the first key holding a non-empty string. *)
Fixpoint getContextValue (ctx : Context) (keys : list string) : string :=
  match keys with
  | [] => ""
  | key :: rest =>
      match ctxValues ctx !! key with
      | Some (CtxString str) =>
          if negb (String.eqb str "") then str else getContextValue ctx rest
      | _ => getContextValue ctx rest
      end
  end.

Definition fieldIfSet (key value : string) : list Field :=
  if negb (String.eqb value "") then [zapf.String key value] else [].

(** [extractBusinessContextFields]. *)
Definition extractBusinessContextFields (ctx : Context) : list Field :=
  fieldIfSet "request_id" (getContextValue ctx ["request_id"; "requestID"; "x-request-id"])
  ++ fieldIfSet "user_id" (getContextValue ctx ["user_id"; "userID"; "user"])
  ++ fieldIfSet "session_id" (getContextValue ctx ["session_id"; "sessionID"; "session"])
  ++ fieldIfSet "tenant_id" (getContextValue ctx ["tenant_id"; "tenantID"; "tenant"])
  ++ fieldIfSet "client_ip" (getContextValue ctx ["client_ip"; "clientIP"; "ip"; "remote_addr"])
  ++ fieldIfSet "user_agent" (getContextValue ctx ["user_agent"; "userAgent"; "User-Agent"]).

(** [ExtractAllContextFields]. *)
Definition ExtractAllContextFields (t : TracingExtractor) (ctx : Context) : list Field :=
  ExtractTraceFields t ctx ++ extractBusinessContextFields ctx.

(** [getRequestIDFromContext], [getUserIDFromContext] of the core logger. *)
Definition getRequestIDFromContext (ctx : Context) : string :=
  match ctxValues ctx !! "request_id" with
  | Some (CtxString requestID) => requestID
  | _ => ""
  end.

Definition getUserIDFromContext (ctx : Context) : string :=
  match ctxValues ctx !! "user_id" with
  | Some (CtxString userID) => userID
  | _ => ""
  end.

(** [extractContextFields] of the core logger. *)
Definition extractContextFields (ctx : Context) : list Field :=
  fieldIfSet "request_id" (getRequestIDFromContext ctx)
  ++ fieldIfSet "user_id" (getUserIDFromContext ctx).

(* ===================================================================== *)
(** * The loggers ([tracing.go] second part, [output.go], [global.go]) *)
(* ===================================================================== *)

(** [levelToZapLevel]. *)
Definition levelToZapLevel (level : Level) : zapcore.Level :=
  if Z.eqb level DebugLevel then zapcore.DebugLevel
  else if Z.eqb level InfoLevel then zapcore.InfoLevel
  else if Z.eqb level WarnLevel then zapcore.WarnLevel
  else if Z.eqb level ErrorLevel then zapcore.ErrorLevel
  else if Z.eqb level FatalLevel then zapcore.FatalLevel
  else zapcore.InfoLevel.

(** The fields of the structs [zapLogger] and [zapLoggerInternal], which
    are the same. [sugar] is always [zap.Sugar()] and is left out. *)
Record wrapper : Type := mkWrapper {
  zap_ : zap.Logger;
  level : Level;
  service : string;
  baseFields : list Field }.

(** [CreateZapEncoder]. *)
Definition CreateZapEncoder (format : string) : zapcore.Encoder :=
  if String.eqb format "json" then zapcore.JSONEncoder else zapcore.ConsoleEncoder.

(** The base fields both constructors compute from the configuration. *)
Definition serviceFields (config : LoggerConfig.t) : list Field :=
  (if negb (String.eqb (LoggerConfig.ServiceName config) "")
   then [zapf.String "service" (LoggerConfig.ServiceName config)] else [])
  ++ (if negb (String.eqb (LoggerConfig.Version config) "")
      then [zapf.String "version" (LoggerConfig.Version config)] else [])
  ++ (if negb (String.eqb (LoggerConfig.Environment config) "")
      then [zapf.String "environment" (LoggerConfig.Environment config)] else []).

(** A conditional logger: the logger it writes to and its level, or the
    no-op one. *)
Inductive ConditionalLogger (L : Type) : Type :=
| conditionalLogger (logger : L) (level : Level)
| noopConditionalLogger.
Arguments conditionalLogger {L} logger level.
Arguments noopConditionalLogger {L}.

(** ** [zapLogger], the core logger *)
Module zapLogger.

(** [enhanceFields] returns its argument. *)
Definition enhanceFields (l : wrapper) (fields : list Field) : list Field := fields.

Definition Debug (l : wrapper) (msg : string) (fields : list Field) (w : World) : World :=
  zap.Debug (zap_ l) msg (enhanceFields l fields) w.

Definition Info (l : wrapper) (msg : string) (fields : list Field) (w : World) : World :=
  zap.Info (zap_ l) msg (enhanceFields l fields) w.

Definition Warn (l : wrapper) (msg : string) (fields : list Field) (w : World) : World :=
  zap.Warn (zap_ l) msg (enhanceFields l fields) w.

Definition Error (env : Env) (l : wrapper) (msg : string) (fields : list Field)
    (w : World) : World :=
  let fieldsWithStack := fields ++ [zapf.String "stack_trace" (getStackTrace env)] in
  zap.Error (zap_ l) msg (enhanceFields l fieldsWithStack) w.

Definition Fatal (env : Env) (l : wrapper) (msg : string) (fields : list Field)
    (w : World) : World :=
  let fieldsWithStack := fields ++ [zapf.String "stack_trace" (getStackTrace env)] in
  zap.Fatal (zap_ l) msg (enhanceFields l fieldsWithStack) w.

Definition DebugContext (l : wrapper) (ctx : Context) (msg : string)
    (fields : list Field) (w : World) : World :=
  let contextFields := extractContextFields ctx in
  let allFields := contextFields ++ fields in
  Debug l msg allFields w.

Definition InfoContext (l : wrapper) (ctx : Context) (msg : string)
    (fields : list Field) (w : World) : World :=
  let contextFields := extractContextFields ctx in
  let allFields := contextFields ++ fields in
  Info l msg allFields w.

Definition WarnContext (l : wrapper) (ctx : Context) (msg : string)
    (fields : list Field) (w : World) : World :=
  let contextFields := extractContextFields ctx in
  let allFields := contextFields ++ fields in
  Warn l msg allFields w.

Definition ErrorContext (env : Env) (l : wrapper) (ctx : Context) (msg : string)
    (fields : list Field) (w : World) : World :=
  let contextFields := extractContextFields ctx in
  let allFields := contextFields ++ fields in
  Error env l msg allFields w.

Definition WithFields (l : wrapper) (fields : list Field) : wrapper :=
  mkWrapper (zap.With (zap_ l) fields) (level l) (service l) (baseFields l).

Definition WithContext (l : wrapper) (ctx : Context) : wrapper :=
  let contextFields := extractContextFields ctx in
  WithFields l contextFields.

Definition WithService (l : wrapper) (service : string) : wrapper :=
  mkWrapper (zap.With (zap_ l) [zapf.String "service" service]) (level l) service
    (baseFields l).

Definition IfDebug (l : wrapper) : ConditionalLogger wrapper :=
  if level l <=? DebugLevel then conditionalLogger l DebugLevel
  else noopConditionalLogger.

Definition IfInfo (l : wrapper) : ConditionalLogger wrapper :=
  if level l <=? InfoLevel then conditionalLogger l InfoLevel
  else noopConditionalLogger.

(** [SetLevel] updates the receiver in place; the updated receiver is
    returned. *)
Definition SetLevel (l : wrapper) (level : Level) : wrapper :=
  mkWrapper (zap.WithIncreaseLevel (zap_ l) (levelToZapLevel level)) level
    (service l) (baseFields l).

Definition Sync (env : Env) (l : wrapper) (w : World) : option string * World :=
  zap.Sync env (zap_ l) w.

End zapLogger.

(** ** [zapLoggerInternal], the multi-output logger *)
Module zapLoggerInternal.

Definition Debug (l : wrapper) (msg : string) (fields : list Field) (w : World) : World :=
  zap.Debug (zap_ l) msg fields w.

Definition Info (l : wrapper) (msg : string) (fields : list Field) (w : World) : World :=
  zap.Info (zap_ l) msg fields w.

Definition Warn (l : wrapper) (msg : string) (fields : list Field) (w : World) : World :=
  zap.Warn (zap_ l) msg fields w.

Definition Error (l : wrapper) (msg : string) (fields : list Field) (w : World) : World :=
  zap.Error (zap_ l) msg fields w.

Definition Fatal (l : wrapper) (msg : string) (fields : list Field) (w : World) : World :=
  zap.Fatal (zap_ l) msg fields w.

(** The context variants call the plain ones and do not read [ctx]. *)
Definition DebugContext (l : wrapper) (ctx : Context) (msg : string)
    (fields : list Field) (w : World) : World :=
  Debug l msg fields w.

Definition InfoContext (l : wrapper) (ctx : Context) (msg : string)
    (fields : list Field) (w : World) : World :=
  Info l msg fields w.

Definition WarnContext (l : wrapper) (ctx : Context) (msg : string)
    (fields : list Field) (w : World) : World :=
  Warn l msg fields w.

Definition ErrorContext (l : wrapper) (ctx : Context) (msg : string)
    (fields : list Field) (w : World) : World :=
  Error l msg fields w.

Definition WithFields (l : wrapper) (fields : list Field) : wrapper :=
  mkWrapper (zap.With (zap_ l) fields) (level l) (service l) (baseFields l).

(** [WithContext] returns the receiver. *)
Definition WithContext (l : wrapper) (ctx : Context) : wrapper := l.

Definition WithService (l : wrapper) (service : string) : wrapper :=
  mkWrapper (zap.With (zap_ l) [zapf.String "service" service]) (level l) service
    (baseFields l).

Definition IfDebug (l : wrapper) : ConditionalLogger wrapper :=
  if level l <=? DebugLevel then conditionalLogger l DebugLevel
  else noopConditionalLogger.

Definition IfInfo (l : wrapper) : ConditionalLogger wrapper :=
  if level l <=? InfoLevel then conditionalLogger l InfoLevel
  else noopConditionalLogger.

(** [SetLevel] assigns the [level] field only. *)
Definition SetLevel (l : wrapper) (level : Level) : wrapper :=
  mkWrapper (zap_ l) level (service l) (baseFields l).

Definition Sync (env : Env) (l : wrapper) (w : World) : option string * World :=
  zap.Sync env (zap_ l) w.

End zapLoggerInternal.

(** The two loggers built on zap. [NewLogger] returns the first,
    [CreateLoggerWithOutputs] the second. *)
Inductive CoreLogger : Type :=
| zapLogger_ (l : wrapper)
| zapLoggerInternal_ (l : wrapper).

(** Method dispatch on a core logger. *)
Module CoreLogger_.

Definition Debug (env : Env) (c : CoreLogger) :=
  match c with
  | zapLogger_ l => zapLogger.Debug l
  | zapLoggerInternal_ l => zapLoggerInternal.Debug l
  end.

Definition Info (env : Env) (c : CoreLogger) :=
  match c with
  | zapLogger_ l => zapLogger.Info l
  | zapLoggerInternal_ l => zapLoggerInternal.Info l
  end.

Definition Warn (env : Env) (c : CoreLogger) :=
  match c with
  | zapLogger_ l => zapLogger.Warn l
  | zapLoggerInternal_ l => zapLoggerInternal.Warn l
  end.

Definition Error (env : Env) (c : CoreLogger) :=
  match c with
  | zapLogger_ l => zapLogger.Error env l
  | zapLoggerInternal_ l => zapLoggerInternal.Error l
  end.

Definition Fatal (env : Env) (c : CoreLogger) :=
  match c with
  | zapLogger_ l => zapLogger.Fatal env l
  | zapLoggerInternal_ l => zapLoggerInternal.Fatal l
  end.

Definition DebugContext (env : Env) (c : CoreLogger) :=
  match c with
  | zapLogger_ l => zapLogger.DebugContext l
  | zapLoggerInternal_ l => zapLoggerInternal.DebugContext l
  end.

Definition InfoContext (env : Env) (c : CoreLogger) :=
  match c with
  | zapLogger_ l => zapLogger.InfoContext l
  | zapLoggerInternal_ l => zapLoggerInternal.InfoContext l
  end.

Definition WarnContext (env : Env) (c : CoreLogger) :=
  match c with
  | zapLogger_ l => zapLogger.WarnContext l
  | zapLoggerInternal_ l => zapLoggerInternal.WarnContext l
  end.

Definition ErrorContext (env : Env) (c : CoreLogger) :=
  match c with
  | zapLogger_ l => zapLogger.ErrorContext env l
  | zapLoggerInternal_ l => zapLoggerInternal.ErrorContext l
  end.

Definition WithFields (c : CoreLogger) (fields : list Field) : CoreLogger :=
  match c with
  | zapLogger_ l => zapLogger_ (zapLogger.WithFields l fields)
  | zapLoggerInternal_ l => zapLoggerInternal_ (zapLoggerInternal.WithFields l fields)
  end.

Definition WithContext (c : CoreLogger) (ctx : Context) : CoreLogger :=
  match c with
  | zapLogger_ l => zapLogger_ (zapLogger.WithContext l ctx)
  | zapLoggerInternal_ l => zapLoggerInternal_ (zapLoggerInternal.WithContext l ctx)
  end.

Definition WithService (c : CoreLogger) (service : string) : CoreLogger :=
  match c with
  | zapLogger_ l => zapLogger_ (zapLogger.WithService l service)
  | zapLoggerInternal_ l => zapLoggerInternal_ (zapLoggerInternal.WithService l service)
  end.

Definition SetLevel (c : CoreLogger) (level : Level) : CoreLogger :=
  match c with
  | zapLogger_ l => zapLogger_ (zapLogger.SetLevel l level)
  | zapLoggerInternal_ l => zapLoggerInternal_ (zapLoggerInternal.SetLevel l level)
  end.

Definition Sync (env : Env) (c : CoreLogger) :=
  match c with
  | zapLogger_ l => zapLogger.Sync env l
  | zapLoggerInternal_ l => zapLoggerInternal.Sync env l
  end.

Definition fields (c : CoreLogger) : wrapper :=
  match c with zapLogger_ l => l | zapLoggerInternal_ l => l end.

End CoreLogger_.

(** ** [tracedLogger], the wrapper that reads the context *)

(** [CreateTracedLogger] is the only place a [tracedLogger] is built from
    another logger, and it wraps the result of [NewLogger] or
    [CreateLoggerWithOutputs]; the wrapper owns the logger it wraps. *)
Record traced : Type := mkTraced {
  logger : CoreLogger;
  extractor : TracingExtractor }.

Module tracedLogger.

(** [mergeWithContextFields]. *)
Definition mergeWithContextFields (t : traced) (ctx : Context) (fields : list Field)
  : list Field :=
  let contextFields := ExtractAllContextFields (extractor t) ctx in
  if (length contextFields =? 0)%nat then fields
  else contextFields ++ fields.

Definition Debug (env : Env) (t : traced) (msg : string) (fields : list Field) :=
  CoreLogger_.Debug env (logger t) msg fields.
Definition Info (env : Env) (t : traced) (msg : string) (fields : list Field) :=
  CoreLogger_.Info env (logger t) msg fields.
Definition Warn (env : Env) (t : traced) (msg : string) (fields : list Field) :=
  CoreLogger_.Warn env (logger t) msg fields.
Definition Error (env : Env) (t : traced) (msg : string) (fields : list Field) :=
  CoreLogger_.Error env (logger t) msg fields.
Definition Fatal (env : Env) (t : traced) (msg : string) (fields : list Field) :=
  CoreLogger_.Fatal env (logger t) msg fields.

Definition DebugContext (env : Env) (t : traced) (ctx : Context) (msg : string)
    (fields : list Field) :=
  let allFields := mergeWithContextFields t ctx fields in
  CoreLogger_.Debug env (logger t) msg allFields.

Definition InfoContext (env : Env) (t : traced) (ctx : Context) (msg : string)
    (fields : list Field) :=
  let allFields := mergeWithContextFields t ctx fields in
  CoreLogger_.Info env (logger t) msg allFields.

Definition WarnContext (env : Env) (t : traced) (ctx : Context) (msg : string)
    (fields : list Field) :=
  let allFields := mergeWithContextFields t ctx fields in
  CoreLogger_.Warn env (logger t) msg allFields.

Definition ErrorContext (env : Env) (t : traced) (ctx : Context) (msg : string)
    (fields : list Field) :=
  let allFields := mergeWithContextFields t ctx fields in
  CoreLogger_.Error env (logger t) msg allFields.

Definition WithFields (t : traced) (fields : list Field) : traced :=
  mkTraced (CoreLogger_.WithFields (logger t) fields) (extractor t).

Definition WithContext (t : traced) (ctx : Context) : traced :=
  let contextFields := ExtractAllContextFields (extractor t) ctx in
  mkTraced (CoreLogger_.WithFields (logger t) contextFields) (extractor t).

Definition WithService (t : traced) (service : string) : traced :=
  mkTraced (CoreLogger_.WithService (logger t) service) (extractor t).

Definition SetLevel (t : traced) (level : Level) : traced :=
  mkTraced (CoreLogger_.SetLevel (logger t) level) (extractor t).

Definition Sync (env : Env) (t : traced) := CoreLogger_.Sync env (logger t).

End tracedLogger.

(** ** The [Logger] interface *)

(** A value of the interface is one of the four implementations of the
    package; [fallbackLogger] has no fields. *)
Inductive Logger : Type :=
| coreLogger (c : CoreLogger)
| tracedLogger_ (t : traced)
| fallbackLogger.

(** What a method returning a [Logger] gives back: the receiver itself or
    a newly allocated logger. *)
Inductive Derived : Type :=
| Receiver
| Fresh (l : Logger).

Module Logger_.

Definition Debug (env : Env) (l : Logger) (msg : string) (fields : list Field)
    (w : World) : World :=
  match l with
  | coreLogger c => CoreLogger_.Debug env c msg fields w
  | tracedLogger_ t => tracedLogger.Debug env t msg fields w
  | fallbackLogger => w
  end.

Definition Info (env : Env) (l : Logger) (msg : string) (fields : list Field)
    (w : World) : World :=
  match l with
  | coreLogger c => CoreLogger_.Info env c msg fields w
  | tracedLogger_ t => tracedLogger.Info env t msg fields w
  | fallbackLogger => w
  end.

Definition Warn (env : Env) (l : Logger) (msg : string) (fields : list Field)
    (w : World) : World :=
  match l with
  | coreLogger c => CoreLogger_.Warn env c msg fields w
  | tracedLogger_ t => tracedLogger.Warn env t msg fields w
  | fallbackLogger => w
  end.

Definition Error (env : Env) (l : Logger) (msg : string) (fields : list Field)
    (w : World) : World :=
  match l with
  | coreLogger c => CoreLogger_.Error env c msg fields w
  | tracedLogger_ t => tracedLogger.Error env t msg fields w
  | fallbackLogger => w
  end.

Definition Fatal (env : Env) (l : Logger) (msg : string) (fields : list Field)
    (w : World) : World :=
  match l with
  | coreLogger c => CoreLogger_.Fatal env c msg fields w
  | tracedLogger_ t => tracedLogger.Fatal env t msg fields w
  | fallbackLogger => w
  end.

Definition DebugContext (env : Env) (l : Logger) (ctx : Context) (msg : string)
    (fields : list Field) (w : World) : World :=
  match l with
  | coreLogger c => CoreLogger_.DebugContext env c ctx msg fields w
  | tracedLogger_ t => tracedLogger.DebugContext env t ctx msg fields w
  | fallbackLogger => w
  end.

Definition InfoContext (env : Env) (l : Logger) (ctx : Context) (msg : string)
    (fields : list Field) (w : World) : World :=
  match l with
  | coreLogger c => CoreLogger_.InfoContext env c ctx msg fields w
  | tracedLogger_ t => tracedLogger.InfoContext env t ctx msg fields w
  | fallbackLogger => w
  end.

Definition WarnContext (env : Env) (l : Logger) (ctx : Context) (msg : string)
    (fields : list Field) (w : World) : World :=
  match l with
  | coreLogger c => CoreLogger_.WarnContext env c ctx msg fields w
  | tracedLogger_ t => tracedLogger.WarnContext env t ctx msg fields w
  | fallbackLogger => w
  end.

Definition ErrorContext (env : Env) (l : Logger) (ctx : Context) (msg : string)
    (fields : list Field) (w : World) : World :=
  match l with
  | coreLogger c => CoreLogger_.ErrorContext env c ctx msg fields w
  | tracedLogger_ t => tracedLogger.ErrorContext env t ctx msg fields w
  | fallbackLogger => w
  end.

Definition WithFields (l : Logger) (fields : list Field) : Derived :=
  match l with
  | coreLogger c => Fresh (coreLogger (CoreLogger_.WithFields c fields))
  | tracedLogger_ t => Fresh (tracedLogger_ (tracedLogger.WithFields t fields))
  | fallbackLogger => Receiver
  end.

(** [zapLoggerInternal.WithContext] returns its receiver. *)
Definition WithContext (l : Logger) (ctx : Context) : Derived :=
  match l with
  | coreLogger (zapLogger_ z) => Fresh (coreLogger (zapLogger_ (zapLogger.WithContext z ctx)))
  | coreLogger (zapLoggerInternal_ _) => Receiver
  | tracedLogger_ t => Fresh (tracedLogger_ (tracedLogger.WithContext t ctx))
  | fallbackLogger => Receiver
  end.

Definition WithService (l : Logger) (service : string) : Derived :=
  match l with
  | coreLogger c => Fresh (coreLogger (CoreLogger_.WithService c service))
  | tracedLogger_ t => Fresh (tracedLogger_ (tracedLogger.WithService t service))
  | fallbackLogger => Receiver
  end.

(** The receiver after [SetLevel]. *)
Definition SetLevel (l : Logger) (level : Level) : Logger :=
  match l with
  | coreLogger c => coreLogger (CoreLogger_.SetLevel c level)
  | tracedLogger_ t => tracedLogger_ (tracedLogger.SetLevel t level)
  | fallbackLogger => fallbackLogger
  end.

Definition Sync (env : Env) (l : Logger) (w : World) : option string * World :=
  match l with
  | coreLogger c => CoreLogger_.Sync env c w
  | tracedLogger_ t => tracedLogger.Sync env t w
  | fallbackLogger => (None, w)
  end.

End Logger_.

(* ===================================================================== *)
(** * Construction ([tracing.go], [output.go]) *)
(* ===================================================================== *)

Definition result (A : Type) : Type := (A + string)%type.
Definition Ok {A : Type} (a : A) : result A := inl a.
Definition Err {A : Type} (e : string) : result A := inr e.

(** [NewLogger]: [buildZapConfig(config).Build()] gives a logger writing to
    stdout at the configured level. For the format ["json"] the
    configuration is [zap.NewProductionConfig()]: JSON encoding and, from
    its [Sampling] setting, a sampler around the core. For any other format
    it is [zap.NewDevelopmentConfig()]: console encoding and no sampler. *)
Definition buildZapCore (env : Env) (config : LoggerConfig.t) : zapcore.Core :=
  let level := levelToZapLevel (LoggerConfig.Level config) in
  if String.eqb (LoggerConfig.Format config) "json"
  then zapcore.NewSamplerWithOptions (samplerKeeps env)
         (zapcore.NewCore zapcore.JSONEncoder zapcore.Stdout level)
  else zapcore.NewCore zapcore.ConsoleEncoder zapcore.Stdout level.

Definition NewLogger (env : Env) (config : LoggerConfig.t) : result CoreLogger :=
  match zapBuildError env with
  | Some err => Err ("failed to build zap logger: " +:+ err)
  | None =>
      let zapInst := zap.New (buildZapCore env config) in
      let baseFields := serviceFields config in
      Ok (zapLogger_
            (mkWrapper (zap.With zapInst baseFields) (LoggerConfig.Level config)
               (LoggerConfig.ServiceName config) baseFields))
  end.

(** [NewLoggerFromEnv] of [tracing.go]. *)
Definition NewLoggerFromEnv (env : Env) : result CoreLogger :=
  let level := os_Getenv env "LOG_LEVEL" in
  let level := if String.eqb level "" then "info" else level in
  let format := os_Getenv env "LOG_FORMAT" in
  let format := if String.eqb format "" then "console" else format in
  let serviceName := os_Getenv env "SERVICE_NAME" in
  let serviceName := if String.eqb serviceName "" then "unknown-service" else serviceName in
  NewLogger env
    (LoggerConfig.mk (ParseLevel level) format serviceName
       (os_Getenv env "SERVICE_VERSION") (os_Getenv env "ENVIRONMENT")
       OutputConfig.zero (TracingConfig.mk false)).

(** ** The output manager *)

Record OutputManager : Type := mkOutputManager { cores : list zapcore.Core }.

Definition NewOutputManager : OutputManager := mkOutputManager [].

Definition AddConsoleOutput (om : OutputManager) (level : zapcore.Level)
    (encoder : zapcore.Encoder) : OutputManager :=
  mkOutputManager (cores om ++ [zapcore.NewCore encoder zapcore.Stdout level]).

Definition AddFileOutput (env : Env) (om : OutputManager)
    (config : InternalFileOutputConfig.t) (level : zapcore.Level)
    (encoder : zapcore.Encoder) (w : World) : OutputManager * option string * World :=
  let w := w ++ [MkdirAllFor (InternalFileOutputConfig.Filename config)] in
  match mkdirAllError env (InternalFileOutputConfig.Filename config) with
  | Some err => (om, Some ("failed to create log directory: " +:+ err), w)
  | None =>
      (mkOutputManager
         (cores om ++ [zapcore.NewCore encoder (zapcore.Lumberjack config) level]),
       None, w)
  end.

Definition AddRemoteOutput (om : OutputManager)
    (config : InternalRemoteOutputConfig.t) (level : zapcore.Level)
    (encoder : zapcore.Encoder) : OutputManager * option string :=
  (om, Some "remote output not implemented yet").

Definition CreateTeeCore (om : OutputManager) : zapcore.Core :=
  match cores om with
  | [] => zapcore.NewCore (CreateZapEncoder "console") zapcore.Stdout zapcore.InfoLevel
  | [c] => c
  | cs => zapcore.NewTee cs
  end.

Definition shouldAddConsoleOutput (config : LoggerConfig.t) : bool :=
  if String.eqb (LoggerConfig.Format config) "console"
     || String.eqb (LoggerConfig.Format config) ""
  then true
  else ConsoleOutputConfig.Enabled (OutputConfig.Console (LoggerConfig.Output config)).

Definition shouldAddFileOutput (config : LoggerConfig.t) : bool :=
  FileOutputConfig.Enabled (OutputConfig.File (LoggerConfig.Output config))
  && negb (String.eqb (FileOutputConfig.Path (OutputConfig.File (LoggerConfig.Output config))) "").

Definition shouldAddRemoteOutput (config : LoggerConfig.t) : bool :=
  RemoteOutputConfig.Enabled (OutputConfig.Remote (LoggerConfig.Output config))
  && negb (String.eqb (RemoteOutputConfig.Endpoint (OutputConfig.Remote (LoggerConfig.Output config))) "").

Definition createFileOutputConfig (config : LoggerConfig.t) : InternalFileOutputConfig.t :=
  let fileConfig := OutputConfig.File (LoggerConfig.Output config) in
  InternalFileOutputConfig.mk (FileOutputConfig.Path fileConfig)
    (FileOutputConfig.MaxSize fileConfig) (FileOutputConfig.MaxBackups fileConfig)
    (FileOutputConfig.MaxAge fileConfig) (FileOutputConfig.Compress fileConfig).

Definition createRemoteOutputConfig (config : LoggerConfig.t) : InternalRemoteOutputConfig.t :=
  let remoteConfig := OutputConfig.Remote (LoggerConfig.Output config) in
  InternalRemoteOutputConfig.mk (RemoteOutputConfig.Protocol remoteConfig)
    (RemoteOutputConfig.Endpoint remoteConfig) (RemoteOutputConfig.Protocol remoteConfig)
    (RemoteOutputConfig.Timeout remoteConfig) (RemoteOutputConfig.TLS remoteConfig)
    (RemoteOutputConfig.BatchSize remoteConfig).

(** The stage of [CreateLoggerWithOutputs] after the sinks are added. *)
Definition wrapOutputs (config : LoggerConfig.t) (outputManager : OutputManager)
  : CoreLogger :=
  let core := CreateTeeCore outputManager in
  let zapInst := zap.New core in
  let baseFields := serviceFields config in
  let zapInst :=
    if (0 <? length baseFields)%nat then zap.With zapInst baseFields else zapInst in
  zapLoggerInternal_
    (mkWrapper zapInst (LoggerConfig.Level config) (LoggerConfig.ServiceName config)
       baseFields).

(** [CreateLoggerWithOutputs]. *)
Definition CreateLoggerWithOutputs (env : Env) (config : LoggerConfig.t) (w : World)
  : result CoreLogger * World :=
  let outputManager := NewOutputManager in
  let level := levelToZapLevel (LoggerConfig.Level config) in
  let outputManager :=
    if shouldAddConsoleOutput config
    then AddConsoleOutput outputManager level (CreateZapEncoder (LoggerConfig.Format config))
    else outputManager in
  let '(outputManager, fileErr, w) :=
    if shouldAddFileOutput config
    then AddFileOutput env outputManager (createFileOutputConfig config) level
           (CreateZapEncoder "json") w
    else (outputManager, None, w) in
  match fileErr with
  | Some err => (Err ("failed to add file output: " +:+ err), w)
  | None =>
      let '(outputManager, w) :=
        if shouldAddRemoteOutput config then
          match AddRemoteOutput outputManager (createRemoteOutputConfig config) level
                  (CreateZapEncoder "json") with
          | (om, Some err) =>
              (om, w ++ [Stderr ("Warning: failed to add remote output: " +:+ err
                                 +:+ Bytes.newline)])
          | (om, None) => (om, w)
          end
        else (outputManager, w) in
      (Ok (wrapOutputs config outputManager), w)
  end.

(** [hasMultipleOutputs]. *)
Definition hasMultipleOutputs (config : LoggerConfig.t) : bool :=
  let outputCount := 0 in
  let outputCount :=
    if ConsoleOutputConfig.Enabled (OutputConfig.Console (LoggerConfig.Output config))
       || String.eqb (LoggerConfig.Format config) "console"
       || String.eqb (LoggerConfig.Format config) ""
    then outputCount + 1 else outputCount in
  let outputCount :=
    if shouldAddFileOutput config then outputCount + 1 else outputCount in
  let outputCount :=
    if shouldAddRemoteOutput config then outputCount + 1 else outputCount in
  1 <? outputCount.

(** [CreateTracedLogger]. *)
Definition CreateTracedLogger (env : Env) (config : LoggerConfig.t) (w : World)
  : result Logger * World :=
  let '(r, w) :=
    if hasMultipleOutputs config then CreateLoggerWithOutputs env config w
    else (NewLogger env config, w) in
  match r with
  | inr err => (Err err, w)
  | inl logger =>
      (Ok (tracedLogger_
             (mkTraced logger
                (NewTracingExtractor (TracingConfig.Enabled (LoggerConfig.Tracing config))))),
       w)
  end.

(* ===================================================================== *)
(** * The factory ([factory.go]) *)
(* ===================================================================== *)

Record LoggerFactory : Type := mkLoggerFactory { defaultConfig : LoggerConfig.t }.

(** [DefaultLoggerConfig]. *)
Definition DefaultLoggerConfig : LoggerConfig.t :=
  LoggerConfig.mk InfoLevel "console" "unknown-service" "1.0.0" "development"
    (OutputConfig.mk (ConsoleOutputConfig.mk true)
       (FileOutputConfig.mk false "" 0 0 0 false)
       (RemoteOutputConfig.mk false "" "" 0 0 false))
    (TracingConfig.mk false).

Definition NewLoggerFactory : LoggerFactory := mkLoggerFactory DefaultLoggerConfig.

(** [mergeWithDefaults]: each field of the result is the default's unless
    the input's test passes; the assignments are independent. *)
Definition mergeWithDefaults (f : LoggerFactory) (config : LoggerConfig.t) : LoggerConfig.t :=
  let result := defaultConfig f in
  LoggerConfig.mk
    (if negb (LoggerConfig.Level config =? 0)
     then LoggerConfig.Level config else LoggerConfig.Level result)
    (if negb (String.eqb (LoggerConfig.Format config) "")
     then LoggerConfig.Format config else LoggerConfig.Format result)
    (if negb (String.eqb (LoggerConfig.ServiceName config) "")
     then LoggerConfig.ServiceName config else LoggerConfig.ServiceName result)
    (if negb (String.eqb (LoggerConfig.Version config) "")
     then LoggerConfig.Version config else LoggerConfig.Version result)
    (if negb (String.eqb (LoggerConfig.Environment config) "")
     then LoggerConfig.Environment config else LoggerConfig.Environment result)
    (OutputConfig.mk
       (if ConsoleOutputConfig.Enabled (OutputConfig.Console (LoggerConfig.Output config))
        then OutputConfig.Console (LoggerConfig.Output config)
        else OutputConfig.Console (LoggerConfig.Output result))
       (if FileOutputConfig.Enabled (OutputConfig.File (LoggerConfig.Output config))
        then OutputConfig.File (LoggerConfig.Output config)
        else OutputConfig.File (LoggerConfig.Output result))
       (if RemoteOutputConfig.Enabled (OutputConfig.Remote (LoggerConfig.Output config))
        then OutputConfig.Remote (LoggerConfig.Output config)
        else OutputConfig.Remote (LoggerConfig.Output result)))
    (if TracingConfig.Enabled (LoggerConfig.Tracing config)
     then LoggerConfig.Tracing config else LoggerConfig.Tracing result).

Definition asLogger (r : result CoreLogger) : result Logger :=
  match r with
  | inl c => Ok (coreLogger c)
  | inr err => Err err
  end.

(** [LoggerFactory.CreateLogger]. *)
Definition CreateLogger (env : Env) (f : LoggerFactory) (config : LoggerConfig.t)
    (w : World) : result Logger * World :=
  let mergedConfig := mergeWithDefaults f config in
  if TracingConfig.Enabled (LoggerConfig.Tracing mergedConfig)
  then CreateTracedLogger env mergedConfig w
  else if hasMultipleOutputs mergedConfig
  then let '(r, w) := CreateLoggerWithOutputs env mergedConfig w in (asLogger r, w)
  else (asLogger (NewLogger env mergedConfig), w).

(** The configuration [CreateFileLogger] hands to [CreateLogger]. *)
Definition fileLoggerConfig (filePath : string) : LoggerConfig.t :=
  LoggerConfig.mk 0 "" "" "" ""
    (OutputConfig.mk (ConsoleOutputConfig.mk false)
       (FileOutputConfig.mk true filePath 0 0 0 false)
       RemoteOutputConfig.zero)
    (TracingConfig.mk false).

Definition CreateFileLogger (env : Env) (f : LoggerFactory) (filePath : string)
    (w : World) : result Logger * World :=
  CreateLogger env f (fileLoggerConfig filePath) w.

Definition CreateSimpleLogger (env : Env) (f : LoggerFactory) (level : Level)
    (format : string) (w : World) : result Logger * World :=
  CreateLogger env f
    (LoggerConfig.mk level format "" "" "" OutputConfig.zero (TracingConfig.mk false)) w.

Definition CreateServiceLogger (env : Env) (f : LoggerFactory)
    (serviceName version environment : string) (w : World) : result Logger * World :=
  CreateLogger env f
    (LoggerConfig.mk 0 "" serviceName version environment OutputConfig.zero
       (TracingConfig.mk false)) w.

Definition CreateTracedServiceLogger (env : Env) (f : LoggerFactory)
    (serviceName version environment : string) (w : World) : result Logger * World :=
  CreateLogger env f
    (LoggerConfig.mk 0 "" serviceName version environment OutputConfig.zero
       (TracingConfig.mk true)) w.

(* ===================================================================== *)
(** * The global registry ([global.go]) *)
(* ===================================================================== *)

(** Loggers live in a heap and the interface values the registry holds are
    pointers into it, [None] being [nil]. *)
Abbreviation Loc := nat (only parsing).

Record Process : Type := mkProcess {
  heap : list Logger;
  globalLogger : option Loc;
  globalInitOnce : bool;        (* has the [sync.Once] run *)
  world : World }.

Definition alloc (l : Logger) (σ : Process) : Loc * Process :=
  (length (heap σ),
   mkProcess (heap σ ++ [l]) (globalLogger σ) (globalInitOnce σ) (world σ)).

Definition setGlobal (g : option Loc) (σ : Process) : Process :=
  mkProcess (heap σ) g (globalInitOnce σ) (world σ).

(** [logger.Sync()] through a pointer, the result dropped. *)
Definition syncAt (env : Env) (p : Loc) (σ : Process) : Process :=
  match heap σ !! p with
  | Some l =>
      mkProcess (heap σ) (globalLogger σ) (globalInitOnce σ)
        (snd (Logger_.Sync env l (world σ)))
  | None => σ
  end.

(** [initDefaultGlobalLogger]. *)
Definition initDefaultGlobalLogger (env : Env) (σ : Process) : Process :=
  let logger :=
    match NewLoggerFromEnv env with
    | inl c => coreLogger c
    | inr _ => fallbackLogger
    end in
  let '(p, σ) := alloc logger σ in
  setGlobal (Some p) σ.

(** [globalInitOnce.Do(f)]. *)
Definition Once_Do (f : Process -> Process) (σ : Process) : Process :=
  if globalInitOnce σ then σ
  else
    let σ := f σ in
    mkProcess (heap σ) (globalLogger σ) true (world σ).

(** [GetGlobalLogger]. *)
Definition GetGlobalLogger (env : Env) (σ : Process) : option Loc * Process :=
  match globalLogger σ with
  | Some logger => (Some logger, σ)
  | None =>
      let σ := Once_Do (initDefaultGlobalLogger env) σ in
      (globalLogger σ, σ)
  end.

(** [SetGlobalLogger]. *)
Definition SetGlobalLogger (env : Env) (logger : option Loc) (σ : Process) : Process :=
  let σ :=
    match globalLogger σ with
    | Some old => syncAt env old σ
    | None => σ
    end in
  setGlobal logger σ.

(** [ReplaceGlobalLogger]: the new state and the restore closure. *)
Definition ReplaceGlobalLogger (env : Env) (logger : option Loc) (σ : Process)
  : (Process -> Process) * Process :=
  let oldLogger := globalLogger σ in
  (fun σ' => SetGlobalLogger env oldLogger σ', setGlobal logger σ).

(** [ResetGlobalLogger]. *)
Definition ResetGlobalLogger (env : Env) (σ : Process) : Process :=
  let σ :=
    match globalLogger σ with
    | Some old => syncAt env old σ
    | None => σ
    end in
  mkProcess (heap σ) None false (world σ).

(** Calling through a pointer a method that returns a [Logger]. *)
Definition derive (p : Loc) (d : Logger -> Derived) (σ : Process) : Loc * Process :=
  match heap σ !! p with
  | Some l =>
      match d l with
      | Receiver => (p, σ)
      | Fresh l' => alloc l' σ
      end
  | None => (p, σ)
  end.

Definition WithFieldsAt (p : Loc) (fields : list Field) :=
  derive p (fun l => Logger_.WithFields l fields).
Definition WithContextAt (p : Loc) (ctx : Context) :=
  derive p (fun l => Logger_.WithContext l ctx).
Definition WithServiceAt (p : Loc) (service : string) :=
  derive p (fun l => Logger_.WithService l service).

(** Calling through a pointer a logging method. *)
Definition logAt (p : Loc) (m : Logger -> World -> World) (σ : Process) : Process :=
  match heap σ !! p with
  | Some l => mkProcess (heap σ) (globalLogger σ) (globalInitOnce σ) (m l (world σ))
  | None => σ
  end.

(* ===================================================================== *)
(** * The Connect interceptor ([middleware.go]) *)
(* ===================================================================== *)

Module Connect.

(** A request or response as the interceptor reads it: the procedure,
    the headers and the [%T] text of the message ([None] for [nil]). *)
Record AnyRequest : Type := mkRequest {
  Procedure : string;
  reqHeader : gmap string (list string);
  reqAny : option string }.

Record AnyResponse : Type := mkResponse {
  respHeader : gmap string (list string);
  respAny : option string }.

(** An error: its [Error()] text and, for a [*connect.Error], its code
    and message. *)
Record error : Type := mkError {
  errText : string;
  connectError : option (string * string) }.

End Connect.

(** [time.Duration.Milliseconds]: integer division of the nanoseconds,
    rounding toward zero. *)
Definition Milliseconds (d : Z) : Z := Z.quot d 1000000.

(** [strings.Contains]. *)
Fixpoint hasPrefix (s prefix : list ascii) : bool :=
  match prefix, s with
  | [], _ => true
  | p :: prefix', c :: s' => Ascii.eqb p c && hasPrefix s' prefix'
  | _ :: _, [] => false
  end.

Fixpoint containsFrom (s sub : list ascii) : bool :=
  hasPrefix s sub ||
  match s with
  | [] => false
  | _ :: s' => containsFrom s' sub
  end.

Definition strings_Contains (s substr : string) : bool :=
  containsFrom (Bytes.chars s) (Bytes.chars substr).

Module ConnectLoggingInterceptor.
Import Connect.

Record t : Type := mk {
  logger : Logger;
  config : MiddlewareConfig.t }.

(** [NewConnectLoggingInterceptor]. *)
Definition New (logger : Logger) (config : MiddlewareConfig.t) : t :=
  let maxBodySize :=
    if MiddlewareConfig.MaxBodySize config <=? 0 then 4096
    else MiddlewareConfig.MaxBodySize config in
  let slowThreshold :=
    if MiddlewareConfig.SlowThreshold config <=? 0 then 1000
    else MiddlewareConfig.SlowThreshold config in
  mk logger
    (MiddlewareConfig.mk (MiddlewareConfig.LogRequests config)
       (MiddlewareConfig.LogResponses config) (MiddlewareConfig.LogHeaders config)
       (MiddlewareConfig.SensitiveFields config) maxBodySize slowThreshold).

Definition commonSensitive : list string :=
  [ "authorization"; "cookie"; "x-api-key"; "x-auth-token";
    "authentication"; "x-access-token"; "bearer"; "password" ].

(** The interceptor's own [isSensitiveField]. *)
Definition isSensitiveField (i : t) (fieldName : string) : bool :=
  let lowerField := Bytes.ToLower fieldName in
  if existsb (fun sensitive => String.eqb (Bytes.ToLower sensitive) lowerField)
       (MiddlewareConfig.SensitiveFields (config i))
  then true
  else existsb
         (fun sensitive =>
            String.eqb lowerField sensitive || strings_Contains lowerField sensitive)
         commonSensitive.

Definition headerFields (i : t) (key : string) (header : gmap string (list string))
  : list Field :=
  if MiddlewareConfig.LogHeaders (config i) then
    let headers : gmap string string :=
      map_imap
        (fun key values =>
           Some (if negb (isSensitiveField i key) then Bytes.Join values ","
                 else Sanitizer.REDACTED))
        header in
    if (0 <? size headers)%nat then [zapf.Headers key headers] else []
  else [].

(** [extractRequestFields]. *)
Definition extractRequestFields (i : t) (req : AnyRequest) : list Field :=
  headerFields i "request_headers" (reqHeader req)
  ++ match reqAny req with
     | Some ty => [zapf.String "request_type" ty]
     | None => []
     end.

(** [extractResponseFields]. *)
Definition extractResponseFields (i : t) (resp : AnyResponse) : list Field :=
  headerFields i "response_headers" (respHeader resp)
  ++ match respAny resp with
     | Some ty => [zapf.String "response_type" ty]
     | None => []
     end.

(** The fields of the start record of [WrapUnary]. *)
Definition startFields (i : t) (req : AnyRequest) (startTime : Z) : list Field :=
  let baseFields :=
    [ zapf.String "method" "unary"; zapf.String "procedure" (Procedure req);
      zapf.Time "start_time" startTime ] in
  if MiddlewareConfig.LogRequests (config i)
  then baseFields ++ extractRequestFields i req else baseFields.

(** The handler being wrapped: it may write to the world. *)
Definition UnaryFunc : Type :=
  Context -> AnyRequest -> World -> (option AnyResponse * option error) * World.

(** [WrapUnary(next)], called with [ctx] and [req]; [startTime] is what
    [time.Now()] returns and [duration] what [time.Since(startTime)]
    returns after the call, in nanoseconds. *)
Definition WrapUnary (env : Env) (i : t) (next : UnaryFunc) (startTime duration : Z)
    (ctx : Context) (req : AnyRequest) (w : World)
  : (option AnyResponse * option error) * World :=
  let procedure := Procedure req in
  let baseFields := startFields i req startTime in
  let w := Logger_.InfoContext env (logger i) ctx "RPC request started" baseFields w in
  let '((resp, err), w) := next ctx req w in
  let responseFields :=
    [ zapf.String "procedure" procedure; zapf.Duration "duration" duration;
      zapf.Int64 "duration_ms" (Milliseconds duration) ] in
  let responseFields :=
    match resp with
    | Some r =>
        if MiddlewareConfig.LogResponses (config i)
        then responseFields ++ extractResponseFields i r else responseFields
    | None => responseFields
    end in
  match err with
  | Some e =>
      let errorFields :=
        responseFields ++ [zapf.Error (errText e); zapf.String "status" "error"] in
      let errorFields :=
        match connectError e with
        | Some (code, message) =>
            errorFields ++ [ zapf.String "error_code" code;
                             zapf.String "error_message" message ]
        | None => errorFields
        end in
      ((resp, err),
       Logger_.ErrorContext env (logger i) ctx "RPC request failed" errorFields w)
  | None =>
      let successFields := responseFields ++ [zapf.String "status" "success"] in
      let slow := MiddlewareConfig.SlowThreshold (config i) <? Milliseconds duration in
      let logLevel := if slow then "warn" else "info" in
      let logMsg :=
        if slow then "RPC request completed (slow)" else "RPC request completed" in
      let successFields :=
        if slow then successFields ++ [zapf.Bool "slow_request" true]
        else successFields in
      if String.eqb logLevel "warn"
      then ((resp, err), Logger_.WarnContext env (logger i) ctx logMsg successFields w)
      else ((resp, err), Logger_.InfoContext env (logger i) ctx logMsg successFields w)
  end.

(** [DefaultMiddlewareConfig]. *)
Definition DefaultMiddlewareConfig : MiddlewareConfig.t :=
  MiddlewareConfig.mk true true false
    ["password"; "token"; "key"; "secret"; "auth"] 4096 1000.

End ConnectLoggingInterceptor.

(* ===================================================================== *)
(** * Conditional loggers, derived loggers, generated ids *)
(* ===================================================================== *)

(** The conditional logger of a core logger holds that logger. *)
Definition CoreLogger_IfDebug (c : CoreLogger) : ConditionalLogger Logger :=
  match c with
  | zapLogger_ l =>
      match zapLogger.IfDebug l with
      | conditionalLogger l' lv => conditionalLogger (coreLogger (zapLogger_ l')) lv
      | noopConditionalLogger => noopConditionalLogger
      end
  | zapLoggerInternal_ l =>
      match zapLoggerInternal.IfDebug l with
      | conditionalLogger l' lv => conditionalLogger (coreLogger (zapLoggerInternal_ l')) lv
      | noopConditionalLogger => noopConditionalLogger
      end
  end.

Definition CoreLogger_IfInfo (c : CoreLogger) : ConditionalLogger Logger :=
  match c with
  | zapLogger_ l =>
      match zapLogger.IfInfo l with
      | conditionalLogger l' lv => conditionalLogger (coreLogger (zapLogger_ l')) lv
      | noopConditionalLogger => noopConditionalLogger
      end
  | zapLoggerInternal_ l =>
      match zapLoggerInternal.IfInfo l with
      | conditionalLogger l' lv => conditionalLogger (coreLogger (zapLoggerInternal_ l')) lv
      | noopConditionalLogger => noopConditionalLogger
      end
  end.

(** [IfDebug] and [IfInfo] of the interface; the traced logger hands out
    the conditional logger of the logger it wraps. *)
Definition Logger_IfDebug (l : Logger) : ConditionalLogger Logger :=
  match l with
  | coreLogger c => CoreLogger_IfDebug c
  | tracedLogger_ t => CoreLogger_IfDebug (logger t)
  | fallbackLogger => noopConditionalLogger
  end.

Definition Logger_IfInfo (l : Logger) : ConditionalLogger Logger :=
  match l with
  | coreLogger c => CoreLogger_IfInfo c
  | tracedLogger_ t => CoreLogger_IfInfo (logger t)
  | fallbackLogger => noopConditionalLogger
  end.

(** [conditionalLogger.Log] and [noopConditionalLogger.Log]. *)
Definition ConditionalLogger_Log (env : Env) (c : ConditionalLogger Logger)
    (msg : string) (fields : list Field) (w : World) : World :=
  match c with
  | conditionalLogger l lv =>
      if Z.eqb lv DebugLevel then Logger_.Debug env l msg fields w
      else if Z.eqb lv InfoLevel then Logger_.Info env l msg fields w
      else w
  | noopConditionalLogger => w
  end.

(** The logger a call returning [Derived] on [l] gives. *)
Definition derived (l : Logger) (d : Derived) : Logger :=
  match d with
  | Receiver => l
  | Fresh l' => l'
  end.

(** [WithTraceContext]. *)
Definition WithTraceContext (ctx : Context) (l : Logger) : Derived :=
  let extractor := NewTracingExtractor true in
  let fields := ExtractAllContextFields extractor ctx in
  if (length fields =? 0)%nat then Receiver
  else Logger_.WithFields l fields.

(** [generateRandomHex]: every byte is [charset[len(charset)/2]]. *)
Definition generateRandomHex (length : nat) : string :=
  let charset := "0123456789abcdef" in
  Bytes.str
    (repeat (nth (String.length charset / 2) (Bytes.chars charset) "000"%char) length).

Definition GenerateTraceID : string := generateRandomHex 32.
Definition GenerateSpanID : string := generateRandomHex 16.

(* ===================================================================== *)
(** * Presets and compatibility constructors ([factory.go]) *)
(* ===================================================================== *)

(** [ProductionLoggerConfig]; [fmt.Sprintf("logs/%s.log", serviceName)]. *)
Definition ProductionLoggerConfig (env : Env) (serviceName : string) : LoggerConfig.t :=
  LoggerConfig.mk InfoLevel "json" serviceName (os_Getenv env "SERVICE_VERSION")
    "production"
    (OutputConfig.mk (ConsoleOutputConfig.mk true)
       (FileOutputConfig.mk true ("logs/" +:+ serviceName +:+ ".log") 100 3 7 true)
       RemoteOutputConfig.zero)
    (TracingConfig.mk true).

(** [DevelopmentLoggerConfig]. *)
Definition DevelopmentLoggerConfig (serviceName : string) : LoggerConfig.t :=
  LoggerConfig.mk DebugLevel "console" serviceName "dev" "development"
    (OutputConfig.mk (ConsoleOutputConfig.mk true) FileOutputConfig.zero
       RemoteOutputConfig.zero)
    (TracingConfig.mk false).

(** [TestLoggerConfig]. *)
Definition TestLoggerConfig (serviceName : string) : LoggerConfig.t :=
  LoggerConfig.mk WarnLevel "json" serviceName "test" "test"
    (OutputConfig.mk (ConsoleOutputConfig.mk true) FileOutputConfig.zero
       RemoteOutputConfig.zero)
    (TracingConfig.mk false).

(** The switch on the environment name shared by [InitGlobalLogger] and
    [MustCreateServiceLogger]. *)
Definition presetFor (env : Env) (serviceName environment : string) : LoggerConfig.t :=
  if String.eqb environment "production" || String.eqb environment "prod"
  then ProductionLoggerConfig env serviceName
  else if String.eqb environment "development" || String.eqb environment "dev"
  then DevelopmentLoggerConfig serviceName
  else if String.eqb environment "test" || String.eqb environment "testing"
  then TestLoggerConfig serviceName
  else
    let config := DevelopmentLoggerConfig serviceName in
    LoggerConfig.mk (LoggerConfig.Level config) (LoggerConfig.Format config)
      (LoggerConfig.ServiceName config) (LoggerConfig.Version config) environment
      (LoggerConfig.Output config) (LoggerConfig.Tracing config).

(** The package-level factory [defaultFactory]. *)
Definition defaultFactory : LoggerFactory := NewLoggerFactory.

(** [NewLoggerCompat]. *)
Definition NewLoggerCompat (env : Env) (level format : string) (w : World)
  : result Logger * World :=
  CreateLogger env defaultFactory
    (LoggerConfig.mk (ParseLevel level) format "" "" "" OutputConfig.zero
       (TracingConfig.mk false)) w.

(** [NewLoggerFromEnvCompat]. *)
Definition NewLoggerFromEnvCompat (env : Env) (w : World) : result Logger * World :=
  let level := os_Getenv env "LOG_LEVEL" in
  let level := if String.eqb level "" then "info" else level in
  let format := os_Getenv env "LOG_FORMAT" in
  let format := if String.eqb format "" then "console" else format in
  let serviceName := os_Getenv env "SERVICE_NAME" in
  let version := os_Getenv env "SERVICE_VERSION" in
  let environment := os_Getenv env "ENVIRONMENT" in
  CreateLogger env defaultFactory
    (LoggerConfig.mk (ParseLevel level) format serviceName version environment
       OutputConfig.zero
       (TracingConfig.mk (String.eqb (os_Getenv env "TRACING_ENABLED") "true"))) w.

(* ===================================================================== *)
(** * More of the global registry ([global.go]) *)
(* ===================================================================== *)

Definition setWorld (w : World) (σ : Process) : Process :=
  mkProcess (heap σ) (globalLogger σ) (globalInitOnce σ) w.

(** [SetTestGlobalLogger]: the restore closure and the new state. *)
Definition SetTestGlobalLogger (env : Env) (logger : option nat) (σ : Process)
  : (Process -> Process) * Process :=
  let '(oldLogger, σ) := GetGlobalLogger env σ in
  (fun σ' => SetGlobalLogger env oldLogger σ', SetGlobalLogger env logger σ).

(** [Cleanup]. *)
Definition Cleanup (env : Env) (σ : Process) : option string * Process :=
  match globalLogger σ with
  | Some p =>
      match heap σ !! p with
      | Some l =>
          let '(err, w) := Logger_.Sync env l (world σ) in (err, setWorld w σ)
      | None => (None, σ)
      end
  | None => (None, σ)
  end.

(** The package-level [Info]: [GetGlobalLogger().Info(msg, fields...)].
    Calling a method on the nil interface panics, which is [None]. *)
Definition GlobalInfo (env : Env) (msg : string) (fields : list Field) (σ : Process)
  : option Process :=
  let '(logger, σ) := GetGlobalLogger env σ in
  match logger with
  | Some p => Some (logAt p (fun l => Logger_.Info env l msg fields) σ)
  | None => None
  end.

(** The registry together with the package variable [globalConfig]. *)
Record Program : Type := mkProgram {
  registry : Process;
  globalConfig : LoggerConfig.t }.

(** [SetGlobalLoggerConfig]. *)
Definition SetGlobalLoggerConfig (env : Env) (config : LoggerConfig.t) (π : Program)
  : option string * Program :=
  let '(r, w) := CreateLogger env defaultFactory config (world (registry π)) in
  match r with
  | inr err => (Some err, mkProgram (setWorld w (registry π)) (globalConfig π))
  | inl logger =>
      let '(p, σ) := alloc logger (setWorld w (registry π)) in
      (None, mkProgram (SetGlobalLogger env (Some p) σ) config)
  end.

(** [GetGlobalLoggerConfig] and [GetGlobalLogLevel]. *)
Definition GetGlobalLoggerConfig (π : Program) : LoggerConfig.t := globalConfig π.
Definition GetGlobalLogLevel (π : Program) : Level := LoggerConfig.Level (globalConfig π).

(** [InitGlobalLogger]. *)
Definition InitGlobalLogger (env : Env) (serviceName environment : string) (π : Program)
  : option string * Program :=
  SetGlobalLoggerConfig env (presetFor env serviceName environment) π.

(* ===================================================================== *)
(** * Interceptor options and streaming ([middleware.go]) *)
(* ===================================================================== *)

(** An [InterceptorOption] updates the configuration it is applied to. *)
Definition InterceptorOption : Type := MiddlewareConfig.t -> MiddlewareConfig.t.

Definition WithRequestLogging (enabled : bool) : InterceptorOption :=
  fun config =>
    MiddlewareConfig.mk enabled (MiddlewareConfig.LogResponses config)
      (MiddlewareConfig.LogHeaders config) (MiddlewareConfig.SensitiveFields config)
      (MiddlewareConfig.MaxBodySize config) (MiddlewareConfig.SlowThreshold config).

Definition WithResponseLogging (enabled : bool) : InterceptorOption :=
  fun config =>
    MiddlewareConfig.mk (MiddlewareConfig.LogRequests config) enabled
      (MiddlewareConfig.LogHeaders config) (MiddlewareConfig.SensitiveFields config)
      (MiddlewareConfig.MaxBodySize config) (MiddlewareConfig.SlowThreshold config).

Definition WithHeaderLogging (enabled : bool) : InterceptorOption :=
  fun config =>
    MiddlewareConfig.mk (MiddlewareConfig.LogRequests config)
      (MiddlewareConfig.LogResponses config) enabled
      (MiddlewareConfig.SensitiveFields config)
      (MiddlewareConfig.MaxBodySize config) (MiddlewareConfig.SlowThreshold config).

Definition WithSensitiveFields (fields : list string) : InterceptorOption :=
  fun config =>
    MiddlewareConfig.mk (MiddlewareConfig.LogRequests config)
      (MiddlewareConfig.LogResponses config) (MiddlewareConfig.LogHeaders config) fields
      (MiddlewareConfig.MaxBodySize config) (MiddlewareConfig.SlowThreshold config).

Definition WithMaxBodySize (size : Z) : InterceptorOption :=
  fun config =>
    MiddlewareConfig.mk (MiddlewareConfig.LogRequests config)
      (MiddlewareConfig.LogResponses config) (MiddlewareConfig.LogHeaders config)
      (MiddlewareConfig.SensitiveFields config) size
      (MiddlewareConfig.SlowThreshold config).

Definition WithSlowThreshold (ms : Z) : InterceptorOption :=
  fun config =>
    MiddlewareConfig.mk (MiddlewareConfig.LogRequests config)
      (MiddlewareConfig.LogResponses config) (MiddlewareConfig.LogHeaders config)
      (MiddlewareConfig.SensitiveFields config) (MiddlewareConfig.MaxBodySize config) ms.

(** [NewConnectLoggingInterceptorWithOptions]. *)
Definition NewConnectLoggingInterceptorWithOptions (logger : Logger)
    (options : list InterceptorOption) : ConnectLoggingInterceptor.t :=
  let config := MiddlewareConfig.mk true true false [] 4096 1000 in
  let config := fold_left (fun config option => option config) options config in
  ConnectLoggingInterceptor.New logger config.

(** The handler of a stream: it may write to the world and returns its
    error. *)
Definition StreamingHandlerFunc : Type :=
  Context -> World -> option Connect.error * World.

(** [WrapStreamingHandler(next)], called with [ctx] on a connection of the
    given procedure; [startTime] and [duration] as for [WrapUnary]. *)
Definition WrapStreamingHandler (env : Env) (i : ConnectLoggingInterceptor.t)
    (next : StreamingHandlerFunc) (startTime duration : Z) (ctx : Context)
    (procedure : string) (w : World) : option Connect.error * World :=
  let baseFields :=
    [ zapf.String "method" "streaming_handler"; zapf.String "procedure" procedure;
      zapf.Time "start_time" startTime ] in
  let w :=
    Logger_.InfoContext env (ConnectLoggingInterceptor.logger i) ctx
      "Streaming handler started" baseFields w in
  let '(err, w) := next ctx w in
  let responseFields :=
    [ zapf.String "procedure" procedure; zapf.Duration "duration" duration ] in
  match err with
  | Some e =>
      let responseFields :=
        responseFields ++ [zapf.Error (Connect.errText e); zapf.String "status" "error"] in
      (err, Logger_.ErrorContext env (ConnectLoggingInterceptor.logger i) ctx
              "Streaming handler failed" responseFields w)
  | None =>
      let responseFields := responseFields ++ [zapf.String "status" "success"] in
      (err, Logger_.InfoContext env (ConnectLoggingInterceptor.logger i) ctx
              "Streaming handler completed" responseFields w)
  end.

(* ===================================================================== *)
(** * Notions used in the statements *)
(* ===================================================================== *)

(** The zap logger a [Logger] writes through; the fallback has none. *)
Definition engineOf (l : Logger) : option zap.Logger :=
  match l with
  | coreLogger c => Some (zap_ (CoreLogger_.fields c))
  | tracedLogger_ t => Some (zap_ (CoreLogger_.fields (logger t)))
  | fallbackLogger => None
  end.

(** Does the logger read the context in its [*Context] methods. *)
Definition readsContext (l : Logger) : bool :=
  match l with
  | coreLogger (zapLogger_ _) => true
  | coreLogger (zapLoggerInternal_ _) => false
  | tracedLogger_ _ => true
  | fallbackLogger => false
  end.

(** The fields a logger that reads the context extracts from it. *)
Definition contextFieldsOf (l : Logger) (ctx : Context) : list Field :=
  match l with
  | coreLogger (zapLogger_ _) => extractContextFields ctx
  | tracedLogger_ t => ExtractAllContextFields (extractor t) ctx
  | _ => []
  end.

(** The stack trace field [zapLogger] adds to [Error] records. *)
Definition stackFieldsOf (env : Env) (l : Logger) : list Field :=
  match l with
  | coreLogger (zapLogger_ _) | tracedLogger_ (mkTraced (zapLogger_ _) _) =>
      [zapf.String "stack_trace" (getStackTrace env)]
  | _ => []
  end.

(** The world after a zap logger has logged one entry; without an engine
    nothing happens. *)
Definition emit (z : option zap.Logger) (lvl : zapcore.Level) (msg : string)
    (fields : list Field) (w : World) : World :=
  match z with
  | Some z => zap.log z lvl msg fields w
  | None => w
  end.

(** Does an entry of level [lvl] logged through [l] reach a sink when no
    sampler drops it. *)
Definition writesAt (l : Logger) (lvl : zapcore.Level) : bool :=
  match engineOf l with
  | Some z =>
      match zapcore.sinks (zap.core z) lvl with
      | [] => false
      | _ :: _ => true
      end
  | None => false
  end.

(** Does a sampler of the engine of [l] drop an entry of level [lvl] and
    message [msg] logged in the world [w]. *)
Definition sampledOut (l : Logger) (lvl : zapcore.Level) (msg : string) (w : World)
  : bool :=
  match engineOf l with
  | Some z => zapcore.dropped (zap.core z) (length w) lvl msg
  | None => false
  end.

(** A configuration with the remote output switched off. *)
Definition withoutRemote (config : LoggerConfig.t) : LoggerConfig.t :=
  LoggerConfig.mk (LoggerConfig.Level config) (LoggerConfig.Format config)
    (LoggerConfig.ServiceName config) (LoggerConfig.Version config)
    (LoggerConfig.Environment config)
    (OutputConfig.mk (OutputConfig.Console (LoggerConfig.Output config))
       (OutputConfig.File (LoggerConfig.Output config))
       (RemoteOutputConfig.mk false
          (RemoteOutputConfig.Endpoint (OutputConfig.Remote (LoggerConfig.Output config)))
          (RemoteOutputConfig.Protocol (OutputConfig.Remote (LoggerConfig.Output config)))
          (RemoteOutputConfig.BatchSize (OutputConfig.Remote (LoggerConfig.Output config)))
          (RemoteOutputConfig.Timeout (OutputConfig.Remote (LoggerConfig.Output config)))
          (RemoteOutputConfig.TLS (OutputConfig.Remote (LoggerConfig.Output config)))))
    (LoggerConfig.Tracing config).

(** The warning [CreateLoggerWithOutputs] prints for the remote output. *)
Definition remoteWarning : Event :=
  Stderr ("Warning: failed to add remote output: remote output not implemented yet"
          +:+ Bytes.newline).

(** The words of [sensitiveFieldPatterns]. *)
Definition sensitiveWords : list string :=
  ["password"; "passwd"; "secret"; "token"; "key"; "auth"; "credential"; "session"].

(** A replacement step whose pattern accepts no asterisk and no empty
    text and whose template writes an asterisk. *)
Definition wellFormedStep (step : Regexp.regexp * Regexp.template) : Prop :=
  Regexp.classesOf (fst step) "*" = false
  /\ (0 < Regexp.minLen (fst step))%nat /\ (0 < Regexp.litStars (snd step))%nat.

(** Replacement steps applied one after the other. *)
Definition applySteps (steps : list (Regexp.regexp * Regexp.template)) (s : string)
  : string :=
  fold_left (fun r step => Regexp.ReplaceAllString (fst step) r (snd step)) steps s.

(* ===================================================================== *)
(** * Notions used in the further statements *)
(* ===================================================================== *)

(** The keys [ExtractAllContextFields] can emit, in the order it emits
    them. *)
Definition contextKeys : list string :=
  [ "trace_id"; "span_id"; "trace_sampled"; "request_id"; "user_id"; "session_id";
    "tenant_id"; "client_ip"; "user_agent" ].

(** The fields of a logger's engine. *)
Definition engineFields (l : Logger) : list Field :=
  default [] (zap.context <$> engineOf l).

(* ===================================================================== *)
(** * Levels: parsing and printing *)
(* ===================================================================== *)

Lemma levelNames_are_the_names : levelNames = map Level_String definedLevels.
Proof. reflexivity. Qed.

Lemma ParseLevel_unnamed (s : string) : ~ In s levelNames -> ParseLevel s = InfoLevel.
Proof.
  intros Hs. unfold ParseLevel.
  repeat match goal with
         | |- context [String.eqb s ?n] =>
             destruct (String.eqb_spec s n) as [->|_]; [exfalso; apply Hs; simpl; tauto|]
         end.
  reflexivity.
Qed.

(** C6. Parsing the name of a defined level gives the level back, and a
    string that names no defined level parses to [InfoLevel]; [ParseLevel]
    is a total function, so it never fails. *)
Theorem ParseLevel_String_roundtrip :
  (forall l : Level, In l definedLevels -> ParseLevel (Level_String l) = l)
  /\ (forall s : string, ~ In s levelNames -> ParseLevel s = InfoLevel).
Proof.
  split.
  - intros l Hl. simpl in Hl.
    destruct Hl as [<-|[<-|[<-|[<-|[<-|[]]]]]]; reflexivity.
  - apply ParseLevel_unnamed.
Qed.

Lemma ParseLevel_String_roundtrip_witness :
  ParseLevel (Level_String WarnLevel) = WarnLevel
  /\ ParseLevel "verbose" = InfoLevel.
Proof.
  destruct ParseLevel_String_roundtrip as [Hdefined Hother].
  split.
  - apply Hdefined. simpl. tauto.
  - apply Hother. simpl. intros H.
    repeat (destruct H as [H|H]; [discriminate H|]). exact H.
Defined.

(** A level outside the five defined ones prints as ["unknown"] and so
    parses to [InfoLevel]. *)
Lemma Level_String_undefined (l : Level) :
  ~ In l definedLevels -> Level_String l = "unknown".
Proof.
  intros Hl. unfold Level_String.
  repeat match goal with
         | |- context [Z.eqb l ?n] =>
             destruct (Z.eqb_spec l n) as [->|_]; [exfalso; apply Hl; simpl; tauto|]
         end.
  reflexivity.
Qed.

(* ===================================================================== *)
(** * Lower case and literal patterns *)
(* ===================================================================== *)

Section CaseFolding.

Import Bytes Regexp.

Lemma str_chars (s : string) : str (chars s) = s.
Proof. apply string_of_list_ascii_of_string. Qed.

Lemma chars_str (l : list ascii) : chars (str l) = l.
Proof. apply list_ascii_of_string_of_list_ascii. Qed.


Lemma lowerByte_not_upper (c : ascii) : isUpper (lowerByte c) = false.
Proof. destruct c as [[] [] [] [] [] [] [] []]; reflexivity. Qed.

Lemma lowerByte_idem (c : ascii) : lowerByte (lowerByte c) = lowerByte c.
Proof. unfold lowerByte at 1. now rewrite lowerByte_not_upper. Qed.

Lemma ToLower_idem (s : string) : ToLower (ToLower s) = ToLower s.
Proof.
  unfold ToLower. rewrite chars_str, map_map. f_equal.
  apply map_ext. intros c. apply lowerByte_idem.
Qed.

Lemma ToLower_not_upper (s : string) :
  Forall (fun c => isUpper c = false) (chars (ToLower s)).
Proof.
  unfold ToLower. rewrite chars_str. apply Forall_map.
  induction (chars s); constructor; [apply lowerByte_not_upper | assumption].
Qed.

(** Under [(?i)] a lower-case letter accepts, among characters that are
    not upper-case, itself only. *)
Lemma foldCase_lower (c x : ascii) :
  isUpper c = false -> isUpper x = false -> foldCase c x = Ascii.eqb c x.
Proof.
  intros Hc Hx. unfold foldCase, isChar, lowerByte. rewrite Hc.
  destruct (Ascii.eqb c x) eqn:E; [reflexivity|]. cbn [orb].
  unfold upperByte. destruct (isLower c) eqn:Hl; [|exact E].
  apply Ascii.eqb_neq. intros <-. clear E. revert Hl Hx.
  destruct c as [[] [] [] [] [] [] [] []]; vm_compute; congruence.
Qed.

Lemma span_zero cls (rest : list ascii) : span cls (Some 0%nat) rest = 0%nat.
Proof. now destruct rest. Qed.

(** A class that must match once. *)
Lemma run_one cls (p : regexp) prev pos rest caps :
  run (one cls :: p) prev pos rest caps
  = match rest with
    | c :: rest' => if cls c then run p (Some c) (S pos) rest' caps else None
    | [] => None
    end.
Proof.
  unfold one. cbn [run]. destruct rest as [|c rest]; [reflexivity|].
  cbn [span option_map Nat.pred]. destruct (cls c); [|reflexivity].
  rewrite span_zero. cbn. rewrite Nat.add_1_r.
  change (skipn 0 rest) with rest.
  now destruct (run p (Some c) (S pos) rest caps).
Qed.

Lemma run_literalFold (w rest : list ascii) :
  Forall (fun c => isUpper c = false) w ->
  Forall (fun c => isUpper c = false) rest ->
  forall prev pos caps,
    run (map (fun c => one (foldCase c)) w) prev pos rest caps
    = if hasPrefix rest w then Some ((pos + length w)%nat, caps) else None.
Proof.
  intros Hw. revert rest. induction Hw as [|c w Hc _ IH]; intros rest Hrest prev pos caps.
  - destruct rest; cbn; now rewrite Nat.add_0_r.
  - cbn [map]. rewrite run_one. destruct Hrest as [|x rest Hx Hrest]; [reflexivity|].
    cbn [hasPrefix]. rewrite (foldCase_lower c x Hc Hx).
    destruct (Ascii.eqb c x); [|reflexivity].
    rewrite IH by assumption. cbn [andb length].
    destruct (hasPrefix rest w); [|reflexivity].
    f_equal. f_equal. lia.
Qed.

Lemma matchFrom_literalFold (w rest : list ascii) :
  Forall (fun c => isUpper c = false) w ->
  Forall (fun c => isUpper c = false) rest ->
  forall prev pos,
    matchFrom (map (fun c => one (foldCase c)) w) prev pos rest = containsFrom rest w.
Proof.
  intros Hw Hrest. induction Hrest as [|x rest Hx Hrest IH]; intros prev pos.
  - cbn [matchFrom containsFrom]. rewrite run_literalFold by (assumption || constructor).
    destruct (hasPrefix [] w); reflexivity.
  - cbn [matchFrom containsFrom].
    rewrite run_literalFold by (assumption || now constructor).
    destruct (hasPrefix (x :: rest) w); [reflexivity|]. apply IH.
Qed.

End CaseFolding.

(* ===================================================================== *)
(** * The field sanitizer *)
(* ===================================================================== *)

Section SanitizeFields.

Variable customSensitiveFields : gmap string bool.

Local Abbreviation sensitive := (Sanitizer.isSensitiveField customSensitiveFields).
Local Abbreviation sanitize := (Sanitizer.SanitizeFields customSensitiveFields).

Local Abbreviation sanitizeField := (Sanitizer.sanitizeField customSensitiveFields).

Lemma SanitizeFields_map (fields : list Field) :
  sanitize fields = map sanitizeField fields.
Proof. induction fields as [|f fs IH]; simpl; [reflexivity|]. now rewrite IH. Qed.



Lemma sanitizeField_Key (field : Field) : Key (sanitizeField field) = Key field.
Proof. unfold Sanitizer.sanitizeField. now destruct (sensitive (Key field)). Qed.

(** The test on the key: the lower-cased key is in the custom set or one
    of the patterns matches it. *)
Lemma isSensitiveField_iff (key : string) :
  sensitive key = true <->
  customSensitiveFields !! Bytes.ToLower key = Some true
  \/ exists pattern, In pattern Sanitizer.sensitiveFieldPatterns
                     /\ Regexp.MatchString pattern (Bytes.ToLower key) = true.
Proof.
  unfold Sanitizer.isSensitiveField.
  destruct (customSensitiveFields !! Bytes.ToLower key) as [[|]|] eqn:Hc;
    cbn [default from_option id].
  - split; [intros _; now left | reflexivity].
  - rewrite existsb_exists. split; [intros H; now right|].
    intros [H|H]; [discriminate H | exact H].
  - rewrite existsb_exists. split; [intros H; now right|].
    intros [H|H]; [discriminate H | exact H].
Qed.

End SanitizeFields.

Lemma sensitiveFieldPatterns_words :
  Sanitizer.sensitiveFieldPatterns = map Regexp.literalFold sensitiveWords.
Proof. reflexivity. Qed.

(** The model's test: the lower-case form of the key is in the custom set
    or contains one of the eight words. For a key of ASCII bytes this is
    the test of the code, which so does not depend on the case of the
    key. *)
Lemma isSensitiveField_contains (custom : gmap string bool) (key : string) :
  Sanitizer.isSensitiveField custom key
  = default false (custom !! Bytes.ToLower key)
    || existsb (strings_Contains (Bytes.ToLower key)) sensitiveWords.
Proof.
  unfold Sanitizer.isSensitiveField.
  destruct (default false (custom !! Bytes.ToLower key)); [reflexivity|].
  cbn [orb]. rewrite sensitiveFieldPatterns_words.
  assert (Hw : Forall (fun w => Forall (fun c => Bytes.isUpper c = false) (Bytes.chars w))
                 sensitiveWords).
  { repeat constructor. }
  induction Hw as [|w ws Hw _ IH]; [reflexivity|].
  cbn [map existsb]. rewrite IH. f_equal.
  unfold Regexp.MatchString, Regexp.literalFold, strings_Contains.
  apply matchFrom_literalFold; [exact Hw | apply ToLower_not_upper].
Qed.

Lemma isSensitiveField_case_insensitive (custom : gmap string bool) (k1 k2 : string) :
  Bytes.ToLower k1 = Bytes.ToLower k2 ->
  Sanitizer.isSensitiveField custom k1 = Sanitizer.isSensitiveField custom k2.
Proof. intros H. unfold Sanitizer.isSensitiveField. now rewrite H. Qed.

(** A name added to the custom set makes every key with the same
    lower-case form sensitive. *)
Lemma AddSensitiveField_sensitive (custom : gmap string bool) (name key : string) :
  Bytes.ToLower key = Bytes.ToLower name ->
  Sanitizer.isSensitiveField (Sanitizer.AddSensitiveField name custom) key = true.
Proof.
  intros H. unfold Sanitizer.isSensitiveField, Sanitizer.AddSensitiveField.
  rewrite H, lookup_insert_eq. reflexivity.
Qed.



Example SanitizeFields_example :
  Sanitizer.SanitizeFields (Sanitizer.AddSensitiveField "SSN" ∅)
    [zapf.String "user" "bob"; zapf.String "Password" "hunter2"; zapf.Int "ssn" 7;
     zapf.Bool "Session_Open" true]
  = [zapf.String "user" "bob"; zapf.String "Password" "[REDACTED]";
     zapf.String "ssn" "[REDACTED]"; zapf.String "Session_Open" "[REDACTED]"].
Proof. vm_compute. reflexivity. Qed.

(* ===================================================================== *)
(** * The factory's merge step *)
(* ===================================================================== *)

Lemma mergeWithDefaults_console (f : LoggerFactory) (config : LoggerConfig.t) :
  ConsoleOutputConfig.Enabled
    (OutputConfig.Console (LoggerConfig.Output (mergeWithDefaults f config)))
  = ConsoleOutputConfig.Enabled (OutputConfig.Console (LoggerConfig.Output config))
    || ConsoleOutputConfig.Enabled
         (OutputConfig.Console (LoggerConfig.Output (defaultConfig f))).
Proof.
  unfold mergeWithDefaults. simpl.
  destruct (ConsoleOutputConfig.Enabled
              (OutputConfig.Console (LoggerConfig.Output config))) eqn:E;
    [exact E | reflexivity].
Qed.

(** C10. Whatever configuration is given, the configuration the factory
    merges from it has console output enabled, so [CreateLogger] builds
    from a configuration with console output enabled; this holds for the
    configuration of [CreateFileLogger], which asks for the console to be
    disabled, and that logger is then built with a console sink. *)
Theorem merged_config_console_enabled :
  (forall config : LoggerConfig.t,
     ConsoleOutputConfig.Enabled
       (OutputConfig.Console
          (LoggerConfig.Output (mergeWithDefaults NewLoggerFactory config))) = true
     /\ shouldAddConsoleOutput (mergeWithDefaults NewLoggerFactory config) = true)
  /\ (forall filePath : string,
        ConsoleOutputConfig.Enabled
          (OutputConfig.Console (LoggerConfig.Output (fileLoggerConfig filePath))) = false
        /\ ConsoleOutputConfig.Enabled
             (OutputConfig.Console
                (LoggerConfig.Output
                   (mergeWithDefaults NewLoggerFactory (fileLoggerConfig filePath)))) = true).
Proof.
  assert (Hc : forall config,
             ConsoleOutputConfig.Enabled
               (OutputConfig.Console
                  (LoggerConfig.Output (mergeWithDefaults NewLoggerFactory config))) = true).
  { intros config. rewrite mergeWithDefaults_console. apply orb_true_r. }
  split.
  - intros config. split; [apply Hc|].
    unfold shouldAddConsoleOutput. rewrite Hc.
    now destruct (_ || _).
  - intros filePath. split; [reflexivity | apply Hc].
Qed.

(** A file logger asked for with a non-empty path has two sinks, the
    console first. *)
Example CreateFileLogger_has_console :
  forall env w,
    mkdirAllError env "logs/app.log" = None ->
    exists l w',
      CreateFileLogger env NewLoggerFactory "logs/app.log" w
      = (Ok (coreLogger (zapLoggerInternal_ l)), w')
      /\ map snd (zapcore.sinks (zap.core (zap_ l)) zapcore.InfoLevel)
         = [ zapcore.Stdout;
             zapcore.Lumberjack
               (InternalFileOutputConfig.mk "logs/app.log" 0 0 0 false) ].
Proof.
  intros env w Hmk.
  unfold CreateFileLogger, CreateLogger, CreateLoggerWithOutputs, AddFileOutput.
  set (c := mergeWithDefaults _ _). vm_compute in c. subst c.
  cbn. rewrite Hmk. cbn.
  eexists _, _. split; reflexivity.
Qed.

(* ===================================================================== *)
(** * The global registry *)
(* ===================================================================== *)

Lemma syncAt_heap env p σ : heap (syncAt env p σ) = heap σ.
Proof. unfold syncAt. now destruct (heap σ !! p). Qed.

Lemma syncAt_globalLogger env p σ : globalLogger (syncAt env p σ) = globalLogger σ.
Proof. unfold syncAt. now destruct (heap σ !! p). Qed.

Lemma SetGlobalLogger_globalLogger env logger σ :
  globalLogger (SetGlobalLogger env logger σ) = logger.
Proof. reflexivity. Qed.

Lemma SetGlobalLogger_heap env logger σ :
  heap (SetGlobalLogger env logger σ) = heap σ.
Proof.
  unfold SetGlobalLogger, setGlobal. simpl.
  destruct (globalLogger σ); [apply syncAt_heap | reflexivity].
Qed.

Lemma GetGlobalLogger_set env σ l :
  globalLogger σ = Some l -> GetGlobalLogger env σ = (Some l, σ).
Proof. intros H. unfold GetGlobalLogger. now rewrite H. Qed.

(** C5. When [old] is the global logger, after [ReplaceGlobalLogger new]
    the global logger is [new] (if it is not nil), and calling the returned
    restore function, right away or in any later state, makes
    [GetGlobalLogger] return the pointer [old], the heap of loggers being
    left as it was. *)
Theorem ReplaceGlobalLogger_restore (env : Env) (σ : Process) (old : Loc)
    (new : option Loc) :
  globalLogger σ = Some old ->
  let restore := fst (ReplaceGlobalLogger env new σ) in
  let σ1 := snd (ReplaceGlobalLogger env new σ) in
  globalLogger σ1 = new
  /\ fst (GetGlobalLogger env (restore σ1)) = Some old
  /\ heap (restore σ1) = heap σ
  /\ forall σ2, fst (GetGlobalLogger env (restore σ2)) = Some old
                /\ heap (restore σ2) = heap σ2.
Proof.
  intros Hold. unfold ReplaceGlobalLogger. cbn [fst snd]. rewrite Hold.
  assert (Hget : forall σ2,
             fst (GetGlobalLogger env (SetGlobalLogger env (Some old) σ2)) = Some old).
  { intros σ2. now rewrite (GetGlobalLogger_set env _ old). }
  split; [reflexivity|].
  split; [apply Hget|].
  split; [now rewrite SetGlobalLogger_heap|].
  intros σ2. split; [apply Hget | apply SetGlobalLogger_heap].
Qed.

Lemma ReplaceGlobalLogger_restore_witness :
  let σ := mkProcess [fallbackLogger; fallbackLogger] (Some 0%nat) true [] in
  let env := mkEnv ∅ None (fun _ => None) None "" in
  fst (GetGlobalLogger env
         (fst (ReplaceGlobalLogger env (Some 1%nat) σ)
            (snd (ReplaceGlobalLogger env (Some 1%nat) σ)))) = Some 0%nat.
Proof.
  intros σ env.
  exact (proj1 (proj2 (ReplaceGlobalLogger_restore env σ 0%nat (Some 1%nat) eq_refl))).
Defined.

Lemma NewLoggerFromEnv_fails (env : Env) (err : string) :
  zapBuildError env = Some err ->
  NewLoggerFromEnv env = Err ("failed to build zap logger: " +:+ err).
Proof. intros H. unfold NewLoggerFromEnv, NewLogger. now rewrite H. Qed.

Lemma lookup_alloc (l : Logger) (σ : Process) :
  heap (snd (alloc l σ)) !! fst (alloc l σ) = Some l.
Proof.
  unfold alloc. cbn [fst snd heap].
  rewrite lookup_app_r by lia. now rewrite Nat.sub_diag.
Qed.

(** On the lazy path the registry is never left empty. *)
Lemma GetGlobalLogger_lazy_not_nil (env : Env) (σ : Process) :
  globalLogger σ = None -> globalInitOnce σ = false ->
  fst (GetGlobalLogger env σ) = Some (length (heap σ))
  /\ globalInitOnce (snd (GetGlobalLogger env σ)) = true.
Proof.
  intros Hg Ho. unfold GetGlobalLogger, Once_Do. rewrite Hg, Ho. split; reflexivity.
Qed.

(** C9. In a process whose global logger was never set, when building the
    logger from the environment fails, [GetGlobalLogger] returns a non-nil
    pointer, which it has installed as the global logger and which points
    to a [fallbackLogger]; on that logger every logging method leaves the
    world as it is, [Sync] returns nil, and [WithFields], [WithService] and
    [WithContext] return the same pointer without allocating. *)
Theorem GetGlobalLogger_installs_fallback (env : Env) (σ : Process) (err : string) :
  globalLogger σ = None ->
  globalInitOnce σ = false ->
  NewLoggerFromEnv env = Err err ->
  exists p : Loc,
    let σ' := snd (GetGlobalLogger env σ) in
    fst (GetGlobalLogger env σ) = Some p
    /\ globalLogger σ' = Some p
    /\ heap σ' !! p = Some fallbackLogger
    /\ fst (GetGlobalLogger env σ') = Some p
    /\ (forall msg fields w,
          Logger_.Debug env fallbackLogger msg fields w = w
          /\ Logger_.Info env fallbackLogger msg fields w = w
          /\ Logger_.Warn env fallbackLogger msg fields w = w
          /\ Logger_.Error env fallbackLogger msg fields w = w
          /\ Logger_.Fatal env fallbackLogger msg fields w = w)
    /\ (forall ctx msg fields w,
          Logger_.DebugContext env fallbackLogger ctx msg fields w = w
          /\ Logger_.InfoContext env fallbackLogger ctx msg fields w = w
          /\ Logger_.WarnContext env fallbackLogger ctx msg fields w = w
          /\ Logger_.ErrorContext env fallbackLogger ctx msg fields w = w)
    /\ (forall m : Logger -> World -> World,
          (forall w, m fallbackLogger w = w) -> logAt p m σ' = σ')
    /\ (forall w, Logger_.Sync env fallbackLogger w = (None, w))
    /\ (forall fields, WithFieldsAt p fields σ' = (p, σ'))
    /\ (forall service, WithServiceAt p service σ' = (p, σ'))
    /\ (forall ctx, WithContextAt p ctx σ' = (p, σ')).
Proof.
  intros Hg Ho Hfail. exists (length (heap σ)).
  assert (Hget : GetGlobalLogger env σ
                 = (Some (length (heap σ)),
                    mkProcess (heap σ ++ [fallbackLogger]) (Some (length (heap σ)))
                      true (world σ))).
  { unfold GetGlobalLogger, Once_Do, initDefaultGlobalLogger.
    rewrite Hg, Ho, Hfail. reflexivity. }
  rewrite Hget. cbn [fst snd].
  assert (Hlook : (heap σ ++ [fallbackLogger]) !! length (heap σ) = Some fallbackLogger).
  { rewrite lookup_app_r by lia. now rewrite Nat.sub_diag. }
  repeat split; try reflexivity; try exact Hlook.
  - intros m Hm. unfold logAt. cbn [heap]. rewrite Hlook. cbn. now rewrite Hm.
  - intros fields. unfold WithFieldsAt, derive. cbn [heap]. now rewrite Hlook.
  - intros service. unfold WithServiceAt, derive. cbn [heap]. now rewrite Hlook.
  - intros ctx. unfold WithContextAt, derive. cbn [heap]. now rewrite Hlook.
Qed.

Lemma GetGlobalLogger_installs_fallback_witness :
  exists p : Loc,
    let env := mkEnv ∅ (Some "no sink") (fun _ => None) None "" in
    let σ := mkProcess [] None false [] in
    fst (GetGlobalLogger env σ) = Some p
    /\ heap (snd (GetGlobalLogger env σ)) !! p = Some fallbackLogger.
Proof.
  destruct (GetGlobalLogger_installs_fallback
              (mkEnv ∅ (Some "no sink") (fun _ => None) None "")
              (mkProcess [] None false [])
              "failed to build zap logger: no sink"
              eq_refl eq_refl eq_refl) as [p (H1 & _ & H3 & _)].
  exists p. split; [exact H1 | exact H3].
Defined.

(* ===================================================================== *)
(** * The remote output *)
(* ===================================================================== *)

Lemma AddRemoteOutput_not_implemented om config level encoder :
  AddRemoteOutput om config level encoder
  = (om, Some "remote output not implemented yet").
Proof. reflexivity. Qed.

Lemma withoutRemote_off (config : LoggerConfig.t) :
  shouldAddRemoteOutput (withoutRemote config) = false.
Proof. reflexivity. Qed.

(** C8. [AddRemoteOutput] returns the error "remote output not implemented
    yet" and leaves the manager's sinks as they are. When the remote output
    is asked for, [CreateLoggerWithOutputs] prints the warning on stderr
    and returns a logger from the remaining sinks: the console sink if the
    format is "console" or empty or the console is enabled, then the file
    sink if a file with a path is enabled, both at the configured level,
    or the console at Info when there is neither; the logger carries the
    service fields. It fails only when the directory of the file sink
    cannot be made, before the remote output is tried. The result is that
    of the same configuration without the remote output, the warning
    apart. *)
Theorem remote_output_is_not_fatal (env : Env) (config : LoggerConfig.t) (w : World) :
  (forall om rc level encoder,
     snd (AddRemoteOutput om rc level encoder) = Some "remote output not implemented yet"
     /\ cores (fst (AddRemoteOutput om rc level encoder)) = cores om)
  /\ (shouldAddRemoteOutput config = true ->
      match CreateLoggerWithOutputs env (withoutRemote config) w with
      | (inl l, w') =>
          CreateLoggerWithOutputs env config w = (Ok l, w' ++ [remoteWarning])
      | (inr err, w') =>
          CreateLoggerWithOutputs env config w = (Err err, w')
          /\ shouldAddFileOutput config = true
          /\ exists e, mkdirAllError env
                         (FileOutputConfig.Path (OutputConfig.File (LoggerConfig.Output config)))
                       = Some e
      end)
  /\ (shouldAddRemoteOutput config = true ->
      let path := FileOutputConfig.Path (OutputConfig.File (LoggerConfig.Output config)) in
      let mkdir := if shouldAddFileOutput config then [MkdirAllFor path] else [] in
      let console :=
        if shouldAddConsoleOutput config
        then [(CreateZapEncoder (LoggerConfig.Format config), zapcore.Stdout)] else [] in
      let file :=
        if shouldAddFileOutput config
        then [(zapcore.JSONEncoder, zapcore.Lumberjack (createFileOutputConfig config))]
        else [] in
      match (if shouldAddFileOutput config then mkdirAllError env path else None) with
      | Some e =>
          CreateLoggerWithOutputs env config w
          = (Err ("failed to add file output: failed to create log directory: " +:+ e),
             w ++ mkdir)
      | None =>
          exists l : wrapper,
            CreateLoggerWithOutputs env config w
            = (Ok (zapLoggerInternal_ l), w ++ mkdir ++ [remoteWarning])
            /\ zap.context (zap_ l) = serviceFields config
            /\ level l = LoggerConfig.Level config
            /\ service l = LoggerConfig.ServiceName config
            /\ forall lvl now msg,
                 zapcore.kept (zap.core (zap_ l)) now lvl msg
                 = zapcore.sinks (zap.core (zap_ l)) lvl
                 /\ zapcore.sinks (zap.core (zap_ l)) lvl
                    = if shouldAddConsoleOutput config || shouldAddFileOutput config
                      then (if levelToZapLevel (LoggerConfig.Level config) <=? lvl
                            then console ++ file else [])
                      else (if zapcore.InfoLevel <=? lvl
                            then [(zapcore.ConsoleEncoder, zapcore.Stdout)] else [])
      end).
Proof.
  split; [intros; split; reflexivity|]. split.
  - intros Hremote.
    unfold CreateLoggerWithOutputs.
    rewrite withoutRemote_off, Hremote.
    change (shouldAddConsoleOutput (withoutRemote config)) with (shouldAddConsoleOutput config).
    change (shouldAddFileOutput (withoutRemote config)) with (shouldAddFileOutput config).
    change (createFileOutputConfig (withoutRemote config)) with (createFileOutputConfig config).
    change (LoggerConfig.Level (withoutRemote config)) with (LoggerConfig.Level config).
    change (LoggerConfig.Format (withoutRemote config)) with (LoggerConfig.Format config).
    destruct (shouldAddFileOutput config) eqn:Hfile.
    + unfold AddFileOutput. cbn [InternalFileOutputConfig.Filename createFileOutputConfig].
      destruct (mkdirAllError env _) as [e|] eqn:Hmk.
      * split; [reflexivity|]. split; [reflexivity|]. now exists e.
      * reflexivity.
    + reflexivity.
  - intros Hremote path mkdir console file.
    unfold CreateLoggerWithOutputs, wrapOutputs. rewrite Hremote.
    assert (Hctx : forall z0,
               zap.context (if (0 <? length (serviceFields config))%nat
                            then zap.With (zap.New z0) (serviceFields config)
                            else zap.New z0) = serviceFields config).
    { intros z0. destruct (serviceFields config); reflexivity. }
    assert (Hcore : forall z0,
               zap.core (if (0 <? length (serviceFields config))%nat
                         then zap.With (zap.New z0) (serviceFields config)
                         else zap.New z0) = z0).
    { intros z0. destruct (0 <? length (serviceFields config))%nat; reflexivity. }
    unfold mkdir, console, file. clear mkdir console file.
    destruct (shouldAddConsoleOutput config), (shouldAddFileOutput config);
      unfold AddFileOutput;
      cbn [InternalFileOutputConfig.Filename createFileOutputConfig];
      fold path;
      try (destruct (mkdirAllError env path) as [e|]; [reflexivity|]);
      cbn [AddRemoteOutput fst snd];
      (eexists; split; [rewrite <- ?app_assoc; reflexivity|]);
      cbn [zap_ level service]; rewrite Hctx, Hcore;
      (split; [reflexivity|]); (split; [reflexivity|]); (split; [reflexivity|]);
      intros lvl now msg; cbn;
      destruct (levelToZapLevel (LoggerConfig.Level config) <=? lvl);
      try destruct (0 <=? lvl); split; reflexivity.
Qed.

Lemma remote_output_is_not_fatal_witness :
  let env := mkEnv ∅ None (fun _ => None) None "" in
  let config :=
    LoggerConfig.mk InfoLevel "json" "svc" "1" "prod"
      (OutputConfig.mk (ConsoleOutputConfig.mk true) FileOutputConfig.zero
         (RemoteOutputConfig.mk true "collector:4317" "grpc" 10 5 false))
      (TracingConfig.mk false) in
  exists l : wrapper,
    CreateLoggerWithOutputs env config [] = (Ok (zapLoggerInternal_ l), [remoteWarning])
    /\ zapcore.sinks (zap.core (zap_ l)) zapcore.InfoLevel
       = [(zapcore.JSONEncoder, zapcore.Stdout)]
    /\ CreateLoggerWithOutputs env (withoutRemote config) [] = (Ok (zapLoggerInternal_ l), []).
Proof.
  intros env config.
  destruct (proj2 (proj2 (remote_output_is_not_fatal env config [])) eq_refl)
    as (l & Hbuilt & _ & _ & _ & Hsinks).
  exists l. split; [exact Hbuilt|].
  split; [exact (proj2 (Hsinks zapcore.InfoLevel 0%nat ""))|].
  pose proof (proj1 (proj2 (remote_output_is_not_fatal env config [])) eq_refl) as Hsame.
  destruct (CreateLoggerWithOutputs env (withoutRemote config) []) as [[l'|err] w'].
  - rewrite Hbuilt in Hsame. injection Hsame as Hl Hw.
    destruct w'; [|destruct w'; discriminate Hw]. now rewrite Hl.
  - destruct Hsame as (Hsame & _). rewrite Hbuilt in Hsame. discriminate Hsame.
Defined.

(* ===================================================================== *)
(** * What the logging methods write *)
(* ===================================================================== *)

Lemma mergeWithContextFields_app (t : traced) (ctx : Context) (fields : list Field) :
  tracedLogger.mergeWithContextFields t ctx fields
  = ExtractAllContextFields (extractor t) ctx ++ fields.
Proof.
  unfold tracedLogger.mergeWithContextFields.
  destruct (ExtractAllContextFields (extractor t) ctx); reflexivity.
Qed.

Ltac by_cases_on_logger l :=
  destruct l as [[z|z]|[[z|z] ex]|]; cbn;
  rewrite ?mergeWithContextFields_app, <- ?app_assoc; reflexivity.

Section Emission.

Variable env : Env.

Lemma Debug_emit l msg fields w :
  Logger_.Debug env l msg fields w = emit (engineOf l) zapcore.DebugLevel msg fields w.
Proof. by_cases_on_logger l. Qed.

Lemma Info_emit l msg fields w :
  Logger_.Info env l msg fields w = emit (engineOf l) zapcore.InfoLevel msg fields w.
Proof. by_cases_on_logger l. Qed.

Lemma Warn_emit l msg fields w :
  Logger_.Warn env l msg fields w = emit (engineOf l) zapcore.WarnLevel msg fields w.
Proof. by_cases_on_logger l. Qed.

Lemma Error_emit l msg fields w :
  Logger_.Error env l msg fields w
  = emit (engineOf l) zapcore.ErrorLevel msg (fields ++ stackFieldsOf env l) w.
Proof.
  destruct l as [[z|z]|[[z|z] ex]|]; cbn; rewrite ?app_nil_r; reflexivity.
Qed.

Lemma DebugContext_emit l ctx msg fields w :
  Logger_.DebugContext env l ctx msg fields w
  = emit (engineOf l) zapcore.DebugLevel msg (contextFieldsOf l ctx ++ fields) w.
Proof. by_cases_on_logger l. Qed.

Lemma InfoContext_emit l ctx msg fields w :
  Logger_.InfoContext env l ctx msg fields w
  = emit (engineOf l) zapcore.InfoLevel msg (contextFieldsOf l ctx ++ fields) w.
Proof. by_cases_on_logger l. Qed.

Lemma WarnContext_emit l ctx msg fields w :
  Logger_.WarnContext env l ctx msg fields w
  = emit (engineOf l) zapcore.WarnLevel msg (contextFieldsOf l ctx ++ fields) w.
Proof. by_cases_on_logger l. Qed.

Lemma ErrorContext_emit l ctx msg fields w :
  Logger_.ErrorContext env l ctx msg fields w
  = emit (engineOf l) zapcore.ErrorLevel msg
      (contextFieldsOf l ctx ++ fields ++ stackFieldsOf env l) w.
Proof.
  destruct l as [[z|z]|[[z|z] ex]|]; cbn;
    unfold zapLogger.ErrorContext, zapLogger.Error, zapLogger.enhanceFields, zap.Error;
    cbn;
    rewrite ?mergeWithContextFields_app, ?app_nil_r, <- ?app_assoc; reflexivity.
Qed.

End Emission.

Lemma records_app (w1 w2 : World) : records (w1 ++ w2) = records w1 ++ records w2.
Proof. unfold records. apply omap_app. Qed.

Lemma records_writeTo sinks (z : zap.Logger) lvl msg fields :
  records (zap.writeTo sinks z lvl msg fields)
  = repeat (lvl, msg, zap.context z ++ fields) (length sinks).
Proof.
  unfold zap.writeTo, records.
  induction sinks as [|s ss IH]; [reflexivity|].
  cbn. f_equal. exact IH.
Qed.

Lemma records_write (z : zap.Logger) lvl msg fields :
  records (zap.write z lvl msg fields)
  = map (fun _ => (lvl, msg, zap.context z ++ fields)) (zapcore.sinks (zap.core z) lvl).
Proof.
  unfold zap.write. rewrite records_writeTo.
  induction (zapcore.sinks (zap.core z) lvl) as [|s ss IH]; [reflexivity|].
  cbn. f_equal. exact IH.
Qed.

(** Induction on a core, through the cores of a tee. *)
Section CoreInduction.

Variable P : zapcore.Core -> Prop.
Hypothesis Hio : forall enc out enab, P (zapcore.ioCore enc out enab).
Hypothesis Hmulti : forall cores, Forall P cores -> P (zapcore.multiCore cores).
Hypothesis Hfilter : forall core level, P core -> P (zapcore.levelFilterCore core level).
Hypothesis Hsampler : forall keeps core, P core -> P (zapcore.samplerCore keeps core).

Fixpoint Core_induction (c : zapcore.Core) : P c :=
  match c with
  | zapcore.ioCore enc out enab => Hio enc out enab
  | zapcore.multiCore cores =>
      Hmulti cores
        ((fix all (cs : list zapcore.Core) : Forall P cs :=
            match cs with
            | [] => List.Forall_nil P
            | c' :: cs' => @List.Forall_cons _ P c' cs' (Core_induction c') (all cs')
            end) cores)
  | zapcore.levelFilterCore core level => Hfilter core level (Core_induction core)
  | zapcore.samplerCore keeps core => Hsampler keeps core (Core_induction core)
  end.

End CoreInduction.

(** The sinks of a core are enabled sinks. *)
Lemma sinks_Enabled (c : zapcore.Core) (lvl : zapcore.Level) :
  zapcore.sinks c lvl <> [] -> zapcore.Enabled c lvl = true.
Proof.
  induction c as [enc out enab|cores IH|core level IH|keeps core IH] using Core_induction;
    cbn.
  - destruct (enab <=? lvl); [reflexivity|congruence].
  - induction IH as [|c cs Hc _ IHcs]; cbn; [congruence|].
    intros H. apply orb_true_iff.
    destruct (zapcore.sinks c lvl) eqn:E; [right; apply IHcs; exact H|].
    left. apply Hc. congruence.
  - destruct (level <=? lvl); [reflexivity|congruence].
  - exact IH.
Qed.

(** A sampler only takes sinks away, and takes none away when it drops
    nothing. *)
Lemma kept_sinks (c : zapcore.Core) (now : nat) (lvl : zapcore.Level) (msg : string) :
  (zapcore.kept c now lvl msg <> [] -> zapcore.sinks c lvl <> [])
  /\ (zapcore.dropped c now lvl msg = false ->
      zapcore.kept c now lvl msg = zapcore.sinks c lvl).
Proof.
  induction c as [enc out enab|cores IH|core level IH|keeps core IH] using Core_induction;
    cbn.
  - now split.
  - induction IH as [|c cs [Hc1 Hc2] _ [IH1 IH2]]; cbn; [now split|]. split.
    + intros H. destruct (zapcore.kept c now lvl msg) eqn:E.
      * cbn in H. specialize (IH1 H). intros Happ. apply app_eq_nil in Happ as [_ Happ].
        now apply IH1.
      * intros Happ. apply app_eq_nil in Happ as [Happ _]. apply Hc1; [discriminate|exact Happ].
    + intros H. apply orb_false_iff in H as [H1 H2].
      now rewrite (Hc2 H1), (IH2 H2).
  - destruct IH as [IH1 IH2]. destruct (level <=? lvl); cbn; [now split|].
    split; [congruence|reflexivity].
  - destruct IH as [IH1 IH2].
    destruct (zapcore.Enabled core lvl) eqn:En; cbn.
    + destruct (keeps now lvl msg); cbn; [now split|].
      split; [congruence|discriminate].
    + split; [congruence|]. intros _.
      destruct (zapcore.sinks core lvl) eqn:E; [reflexivity|].
      rewrite sinks_Enabled in En; [discriminate|]. rewrite E. discriminate.
Qed.

Lemma records_log (z : zap.Logger) lvl msg fields w :
  records (zap.log z lvl msg fields w)
  = records w
    ++ repeat (lvl, msg, zap.context z ++ fields)
         (length (zapcore.kept (zap.core z) (length w) lvl msg)).
Proof.
  unfold zap.log. rewrite !records_app, records_writeTo.
  destruct (zapcore.dropped (zap.core z) (length w) lvl msg); cbn;
    now rewrite app_nil_r.
Qed.

(** The records one entry adds: one per sink reached, each with the
    engine's fields followed by the entry's. A record is written only at
    an enabled level, and is written there unless a sampler drops the
    entry. *)
Lemma records_emit (l : Logger) lvl msg fields w :
  exists n : nat,
    records (emit (engineOf l) lvl msg fields w)
    = records w
      ++ repeat (lvl, msg, default [] (zap.context <$> engineOf l) ++ fields) n
    /\ ((0 < n)%nat -> writesAt l lvl = true)
    /\ (writesAt l lvl = true -> sampledOut l lvl msg w = false -> (0 < n)%nat).
Proof.
  unfold writesAt, sampledOut, emit. destruct (engineOf l) as [z|]; cbn.
  - exists (length (zapcore.kept (zap.core z) (length w) lvl msg)).
    split; [apply records_log|].
    destruct (kept_sinks (zap.core z) (length w) lvl msg) as [Hk Hd]. split.
    + intros Hn. destruct (zapcore.sinks (zap.core z) lvl); [|reflexivity].
      exfalso. apply Hk; [|reflexivity].
      destruct (zapcore.kept (zap.core z) (length w) lvl msg); [cbn in Hn; lia|discriminate].
    + intros Hs Hdrop. rewrite (Hd Hdrop).
      destruct (zapcore.sinks (zap.core z) lvl); [discriminate|cbn; lia].
  - exists 0%nat. cbn. rewrite app_nil_r. split; [reflexivity|].
    split; [lia|discriminate].
Qed.

(* ===================================================================== *)
(** * Context-aware logging *)
(* ===================================================================== *)

Lemma request_id_extracted (l : Logger) (ctx : Context) :
  readsContext l = true ->
  ctxValues ctx !! "request_id" = Some (CtxString "req-123") ->
  In (zapf.String "request_id" "req-123") (contextFieldsOf l ctx).
Proof.
  intros Hreads Hctx.
  destruct l as [[z|z]|t|]; try discriminate Hreads; cbn.
  - unfold extractContextFields, getRequestIDFromContext. rewrite Hctx.
    apply in_or_app. left. cbn. now left.
  - unfold ExtractAllContextFields, extractBusinessContextFields.
    apply in_or_app. right. apply in_or_app. left.
    cbn [getContextValue]. rewrite Hctx. cbn. now left.
Qed.

(** C3, as the code has it. A logger that reads the context (the core
    [zapLogger] and the [tracedLogger] wrapper) passes, in each [*Context]
    method, the fields extracted from the context followed by the explicit
    fields, none removed, to its plain method. For a context whose
    ["request_id"] is the string ["req-123"], with or without tracing, the
    extracted fields contain [request_id = "req-123"], and every record
    [InfoContext] writes carries the engine's fields, the extracted fields
    and the explicit fields in this order; it writes a record only when
    Info is enabled at a sink, and then writes at least one unless a
    sampler of the engine drops the entry. *)
Theorem context_fields_precede_explicit (env : Env) (l : Logger) (ctx : Context)
    (msg : string) (fields : list Field) (w : World) :
  readsContext l = true ->
  let contextFields := contextFieldsOf l ctx in
  Logger_.DebugContext env l ctx msg fields w
  = Logger_.Debug env l msg (contextFields ++ fields) w
  /\ Logger_.InfoContext env l ctx msg fields w
     = Logger_.Info env l msg (contextFields ++ fields) w
  /\ Logger_.WarnContext env l ctx msg fields w
     = Logger_.Warn env l msg (contextFields ++ fields) w
  /\ Logger_.ErrorContext env l ctx msg fields w
     = Logger_.Error env l msg (contextFields ++ fields) w
  /\ (ctxValues ctx !! "request_id" = Some (CtxString "req-123") ->
      In (zapf.String "request_id" "req-123") contextFields
      /\ exists n : nat,
           records (Logger_.InfoContext env l ctx msg fields w)
           = records w
             ++ repeat (zapcore.InfoLevel, msg,
                        default [] (zap.context <$> engineOf l)
                        ++ contextFields ++ fields) n
           /\ ((0 < n)%nat -> writesAt l zapcore.InfoLevel = true)
           /\ (writesAt l zapcore.InfoLevel = true ->
               sampledOut l zapcore.InfoLevel msg w = false -> (0 < n)%nat)).
Proof.
  intros Hreads contextFields.
  rewrite DebugContext_emit, InfoContext_emit, WarnContext_emit, ErrorContext_emit.
  rewrite Debug_emit, Info_emit, Warn_emit, Error_emit, <- app_assoc.
  repeat split; try reflexivity.
  - now apply request_id_extracted.
  - apply records_emit.
Qed.

Lemma context_fields_precede_explicit_witness :
  let env := mkEnv ∅ None (fun _ => None) None "" in
  let l := coreLogger (zapLogger_
             (mkWrapper (zap.New (zapcore.NewCore zapcore.JSONEncoder zapcore.Stdout
                                    zapcore.InfoLevel)) InfoLevel "svc" [])) in
  let ctx := context_WithValue context_Background "request_id" (CtxString "req-123") in
  Logger_.InfoContext env l ctx "handled" [zapf.Int "port" 8080] []
  = Logger_.Info env l "handled" (contextFieldsOf l ctx ++ [zapf.Int "port" 8080]) [].
Proof.
  intros env l ctx.
  exact (proj1 (proj2 (context_fields_precede_explicit env l ctx "handled"
                         [zapf.Int "port" 8080] [] eq_refl))).
Defined.

Example InfoContext_request_id :
  let env := mkEnv ∅ None (fun _ => None) None "" in
  let ctx := context_WithValue context_Background "request_id" (CtxString "req-123") in
  forall l,
    NewLogger env (LoggerConfig.mk InfoLevel "json" "svc" "" "" OutputConfig.zero
                     (TracingConfig.mk false)) = Ok l ->
    Logger_.InfoContext env (coreLogger l) ctx "handled" [zapf.Int "port" 8080] []
    = [ Wrote zapcore.JSONEncoder zapcore.Stdout zapcore.InfoLevel "handled"
          [ zapf.String "service" "svc"; zapf.String "request_id" "req-123";
            zapf.Int "port" 8080 ] ].
Proof.
  intros env ctx l Hl. injection Hl as <-.
  cbn. unfold zapLogger.InfoContext, extractContextFields, getRequestIDFromContext.
  unfold ctx, context_WithValue. cbn [ctxValues]. rewrite lookup_insert_eq.
  reflexivity.
Qed.

(** C3, the claim as stated, fails. The logger [CreateLogger] builds for a
    configuration with console and file outputs and tracing disabled is a
    [zapLoggerInternal]; for a context carrying the request id "req-123"
    its [InfoContext] writes the record to both sinks, and the record has
    no [request_id] field. *)
Lemma InfoContext_multi_output_drops_request_id :
  let env := mkEnv ∅ None (fun _ => None) None "" in
  let ctx := context_WithValue context_Background "request_id" (CtxString "req-123") in
  let config :=
    LoggerConfig.mk InfoLevel "json" "svc" "1.2" "prod"
      (OutputConfig.mk (ConsoleOutputConfig.mk true)
         (FileOutputConfig.mk true "logs/svc.log" 100 3 7 true)
         RemoteOutputConfig.zero)
      (TracingConfig.mk false) in
  exists (l : Logger) (w0 : World),
    CreateLogger env NewLoggerFactory config [] = (Ok l, w0)
    /\ ctxValues ctx !! "request_id" = Some (CtxString "req-123")
    /\ writesAt l zapcore.InfoLevel = true
    /\ records (Logger_.InfoContext env l ctx "handled" [] w0)
       = [ (zapcore.InfoLevel, "handled",
            [ zapf.String "service" "svc"; zapf.String "version" "1.2";
              zapf.String "environment" "prod" ]);
           (zapcore.InfoLevel, "handled",
            [ zapf.String "service" "svc"; zapf.String "version" "1.2";
              zapf.String "environment" "prod" ]) ]
    /\ ~ (forall r, In r (records (Logger_.InfoContext env l ctx "handled" [] w0)) ->
                    In (zapf.String "request_id" "req-123") (snd r)).
Proof.
  intros env ctx config.
  eexists _, _. split; [reflexivity|].
  split; [apply lookup_insert_eq|].
  split; [reflexivity|].
  split; [reflexivity|].
  intros H. specialize (H _ (or_introl eq_refl)). cbn in H.
  repeat (destruct H as [H|H]; [discriminate H|]). exact H.
Qed.

(* ===================================================================== *)
(** * [SetLevel] *)
(* ===================================================================== *)

Lemma levelToZapLevel_values (level : Level) :
  In (levelToZapLevel level)
     [zapcore.DebugLevel; zapcore.InfoLevel; zapcore.WarnLevel; zapcore.ErrorLevel;
      zapcore.FatalLevel].
Proof.
  unfold levelToZapLevel.
  repeat match goal with
         | |- context [Z.eqb level ?n] => destruct (Z.eqb level n); [simpl; tauto|]
         end.
  simpl; tauto.
Qed.

(** [IncreaseLevel] on a single sink: accepted exactly when the new level
    is not below the sink's. *)
Lemma NewIncreaseLevelCore_ioCore enc out (enab lvl : zapcore.Level) :
  In enab [zapcore.DebugLevel; zapcore.InfoLevel; zapcore.WarnLevel; zapcore.ErrorLevel;
           zapcore.FatalLevel] ->
  In lvl [zapcore.DebugLevel; zapcore.InfoLevel; zapcore.WarnLevel; zapcore.ErrorLevel;
          zapcore.FatalLevel] ->
  zapcore.NewIncreaseLevelCore (zapcore.ioCore enc out enab) lvl
  = if enab <=? lvl then Some (zapcore.levelFilterCore (zapcore.ioCore enc out enab) lvl)
    else None.
Proof.
  intros He Hl. simpl in He, Hl.
  destruct He as [<-|[<-|[<-|[<-|[<-|[]]]]]];
    destruct Hl as [<-|[<-|[<-|[<-|[<-|[]]]]]]; reflexivity.
Qed.

(** The same with a sampler around the sink, which enables what the sink
    enables. *)
Lemma NewIncreaseLevelCore_samplerCore keeps enc out (enab lvl : zapcore.Level) :
  In enab [zapcore.DebugLevel; zapcore.InfoLevel; zapcore.WarnLevel; zapcore.ErrorLevel;
           zapcore.FatalLevel] ->
  In lvl [zapcore.DebugLevel; zapcore.InfoLevel; zapcore.WarnLevel; zapcore.ErrorLevel;
          zapcore.FatalLevel] ->
  zapcore.NewIncreaseLevelCore (zapcore.samplerCore keeps (zapcore.ioCore enc out enab)) lvl
  = if enab <=? lvl
    then Some (zapcore.levelFilterCore
                 (zapcore.samplerCore keeps (zapcore.ioCore enc out enab)) lvl)
    else None.
Proof.
  intros He Hl. simpl in He, Hl.
  destruct He as [<-|[<-|[<-|[<-|[<-|[]]]]]];
    destruct Hl as [<-|[<-|[<-|[<-|[<-|[]]]]]]; reflexivity.
Qed.

(** What [SetLevel] does on a logger built by [NewLogger]: the threshold
    becomes the larger of the old and the new level, so it can be raised
    and cannot be lowered. *)
Lemma NewLogger_SetLevel_threshold (env : Env) (config : LoggerConfig.t)
    (l : CoreLogger) (level : Level) (lvl : zapcore.Level) :
  NewLogger env config = Ok l ->
  writesAt (Logger_.SetLevel (coreLogger l) level) lvl
  = (Z.max (levelToZapLevel (LoggerConfig.Level config)) (levelToZapLevel level) <=? lvl).
Proof.
  unfold NewLogger. destruct (zapBuildError env); [discriminate|].
  intros [= <-]. unfold writesAt. cbn.
  unfold zap.WithIncreaseLevel. cbn. unfold buildZapCore. cbv zeta.
  unfold zapcore.NewSamplerWithOptions, zapcore.NewCore.
  destruct (String.eqb (LoggerConfig.Format config) "json");
    [rewrite NewIncreaseLevelCore_samplerCore by apply levelToZapLevel_values
    |rewrite NewIncreaseLevelCore_ioCore by apply levelToZapLevel_values];
  set (a := levelToZapLevel (LoggerConfig.Level config));
  set (b := levelToZapLevel level);
  destruct (Z.leb_spec a b); cbn;
  destruct (Z.leb_spec b lvl); cbn;
  destruct (Z.leb_spec a lvl); cbn;
  solve [ lia | symmetry; apply Z.leb_le; lia | symmetry; apply Z.leb_gt; lia ].
Qed.

(** On the multi-output logger [SetLevel] leaves the engine as it is. *)
Lemma zapLoggerInternal_SetLevel_engine (z : wrapper) (level : Level) (lvl : zapcore.Level) :
  writesAt (Logger_.SetLevel (coreLogger (zapLoggerInternal_ z)) level) lvl
  = writesAt (coreLogger (zapLoggerInternal_ z)) lvl.
Proof. reflexivity. Qed.

(** C4 fails on the code. A logger built at Info and then set to Debug
    still writes nothing for [Debug], where the claim has the threshold at
    Debug; and a multi-output logger built at Info and then set to Error
    still writes [Info] records, where the claim has the threshold at
    Error. *)
Lemma SetLevel_does_not_set_threshold :
  let env := mkEnv ∅ None (fun _ => None) None "" in
  let atInfo :=
    LoggerConfig.mk InfoLevel "json" "svc" "" "" OutputConfig.zero (TracingConfig.mk false) in
  let twoSinks :=
    LoggerConfig.mk InfoLevel "json" "svc" "" ""
      (OutputConfig.mk (ConsoleOutputConfig.mk true)
         (FileOutputConfig.mk true "logs/svc.log" 100 3 7 true) RemoteOutputConfig.zero)
      (TracingConfig.mk false) in
  (exists l,
     NewLogger env atInfo = Ok l
     /\ Logger_.Debug env (Logger_.SetLevel (coreLogger l) DebugLevel) "probe" [] [] = []
     /\ writesAt (Logger_.SetLevel (coreLogger l) DebugLevel) zapcore.DebugLevel = false)
  /\ (exists l w0,
        CreateLoggerWithOutputs env twoSinks [] = (Ok l, w0)
        /\ writesAt (Logger_.SetLevel (coreLogger l) ErrorLevel) zapcore.InfoLevel = true
        /\ records (Logger_.Info env (Logger_.SetLevel (coreLogger l) ErrorLevel)
                      "probe" [] [])
           = [ (zapcore.InfoLevel, "probe", [zapf.String "service" "svc"]);
               (zapcore.InfoLevel, "probe", [zapf.String "service" "svc"]) ]).
Proof.
  intros env atInfo twoSinks. split.
  - eexists. repeat split; reflexivity.
  - eexists _, _. repeat split; reflexivity.
Qed.

(* ===================================================================== *)
(** * The interceptor *)
(* ===================================================================== *)

Section WrapUnary.

Import Connect ConnectLoggingInterceptor.

Lemma headerFields_keys i key header f :
  In f (headerFields i key header) -> Key f = key.
Proof.
  unfold headerFields.
  destruct (MiddlewareConfig.LogHeaders (config i)); [|intros []].
  destruct (0 <? size _)%nat; [|intros []].
  intros [<-|[]]. reflexivity.
Qed.

Lemma extractResponseFields_keys i resp f :
  In f (extractResponseFields i resp) ->
  Key f = "response_headers" \/ Key f = "response_type".
Proof.
  unfold extractResponseFields. intros H. apply in_app_or in H as [H|H].
  - left. eapply headerFields_keys, H.
  - destruct (respAny resp); [|destruct H].
    destruct H as [<-|[]]. now right.
Qed.

(** The fields of the completion record before the slow marker. *)
Lemma completion_fields_have_no_slow_marker i procedure duration resp f :
  In f ([ zapf.String "procedure" procedure; zapf.Duration "duration" duration;
          zapf.Int64 "duration_ms" (Milliseconds duration) ]
        ++ match resp with
           | Some r =>
               if MiddlewareConfig.LogResponses (config i)
               then extractResponseFields i r else []
           | None => []
           end
        ++ [zapf.String "status" "success"]) ->
  Key f <> "slow_request".
Proof.
  intros H.
  repeat (apply in_app_or in H as [H|H]).
  - cbn in H. destruct H as [<-|[<-|[<-|[]]]]; discriminate.
  - destruct resp as [r|]; [|destruct H].
    destruct (MiddlewareConfig.LogResponses (config i)); [|destruct H].
    apply extractResponseFields_keys in H as [-> | ->]; discriminate.
  - destruct H as [<-|[]]. discriminate.
Qed.

(** C7. For an interceptor made by [NewConnectLoggingInterceptor], whose
    threshold is the configured [SlowThreshold] or 1000 when that is not
    positive, a unary call that returns without error is completed by one
    call on the logger: [WarnContext] with the message "RPC request
    completed (slow)" and the field [slow_request = true] last when the
    duration in milliseconds exceeds the threshold, and [InfoContext] with
    "RPC request completed" and no field of key [slow_request] otherwise.
    The records this writes have that level and these fields after the
    engine's and the context's; a record is written only when that level
    is enabled at a sink of the logger, and then at least one is written
    unless a sampler of the logger's engine drops the entry. *)
Theorem WrapUnary_marks_slow_requests (env : Env) (lg : Logger)
    (cfg : MiddlewareConfig.t) (next : UnaryFunc) (startTime duration : Z)
    (ctx : Context) (req : AnyRequest) (w w1 : World) (resp : option AnyResponse) :
  let i := New lg cfg in
  let threshold :=
    if MiddlewareConfig.SlowThreshold cfg <=? 0 then 1000
    else MiddlewareConfig.SlowThreshold cfg in
  next ctx req
    (Logger_.InfoContext env lg ctx "RPC request started" (startFields i req startTime) w)
  = ((resp, None), w1) ->
  exists fields : list Field,
    (forall f, In f fields -> Key f <> "slow_request")
    /\ In (zapf.Int64 "duration_ms" (Milliseconds duration)) fields
    /\ In (zapf.String "status" "success") fields
    /\ WrapUnary env i next startTime duration ctx req w
       = ((resp, None),
          if threshold <? Milliseconds duration
          then Logger_.WarnContext env lg ctx "RPC request completed (slow)"
                 (fields ++ [zapf.Bool "slow_request" true]) w1
          else Logger_.InfoContext env lg ctx "RPC request completed" fields w1)
    /\ exists n : nat,
         records (snd (WrapUnary env i next startTime duration ctx req w))
         = records w1
           ++ repeat
                (if threshold <? Milliseconds duration
                 then (zapcore.WarnLevel, "RPC request completed (slow)",
                       default [] (zap.context <$> engineOf lg)
                       ++ contextFieldsOf lg ctx ++ fields
                       ++ [zapf.Bool "slow_request" true])
                 else (zapcore.InfoLevel, "RPC request completed",
                       default [] (zap.context <$> engineOf lg)
                       ++ contextFieldsOf lg ctx ++ fields)) n
         /\ ((0 < n)%nat ->
             writesAt lg (if threshold <? Milliseconds duration
                          then zapcore.WarnLevel else zapcore.InfoLevel) = true)
         /\ (writesAt lg (if threshold <? Milliseconds duration
                          then zapcore.WarnLevel else zapcore.InfoLevel) = true ->
             sampledOut lg
               (if threshold <? Milliseconds duration
                then zapcore.WarnLevel else zapcore.InfoLevel)
               (if threshold <? Milliseconds duration
                then "RPC request completed (slow)" else "RPC request completed") w1
             = false ->
             (0 < n)%nat).
Proof.
  intros i threshold Hnext.
  set (fields :=
         [ zapf.String "procedure" (Procedure req); zapf.Duration "duration" duration;
           zapf.Int64 "duration_ms" (Milliseconds duration) ]
         ++ match resp with
            | Some r =>
                if MiddlewareConfig.LogResponses (config i)
                then extractResponseFields i r else []
            | None => []
            end
         ++ [zapf.String "status" "success"]).
  exists fields.
  assert (Hrun : WrapUnary env i next startTime duration ctx req w
                 = ((resp, None),
                    if threshold <? Milliseconds duration
                    then Logger_.WarnContext env lg ctx "RPC request completed (slow)"
                           (fields ++ [zapf.Bool "slow_request" true]) w1
                    else Logger_.InfoContext env lg ctx "RPC request completed" fields w1)).
  { unfold WrapUnary. change (logger i) with lg. rewrite Hnext.
    change (MiddlewareConfig.SlowThreshold (config i)) with threshold.
    assert (Hf : match resp with
                 | Some r =>
                     if MiddlewareConfig.LogResponses (config i)
                     then [ zapf.String "procedure" (Procedure req);
                            zapf.Duration "duration" duration;
                            zapf.Int64 "duration_ms" (Milliseconds duration) ]
                          ++ extractResponseFields i r
                     else [ zapf.String "procedure" (Procedure req);
                            zapf.Duration "duration" duration;
                            zapf.Int64 "duration_ms" (Milliseconds duration) ]
                 | None => [ zapf.String "procedure" (Procedure req);
                             zapf.Duration "duration" duration;
                             zapf.Int64 "duration_ms" (Milliseconds duration) ]
                 end ++ [zapf.String "status" "success"] = fields).
    { unfold fields. destruct resp as [r|]; [|reflexivity].
      destruct (MiddlewareConfig.LogResponses (config i)); [|reflexivity].
      now rewrite <- app_assoc. }
    cbv zeta. rewrite Hf.
    destruct (threshold <? Milliseconds duration); reflexivity. }
  split; [intros f; apply completion_fields_have_no_slow_marker|].
  split; [unfold fields; cbn; tauto|].
  split; [unfold fields; apply in_or_app; right; apply in_or_app; right; now left|].
  split; [exact Hrun|].
  rewrite Hrun. cbn [snd].
  destruct (threshold <? Milliseconds duration).
  - rewrite WarnContext_emit, app_assoc. apply records_emit.
  - rewrite InfoContext_emit. apply records_emit.
Qed.

End WrapUnary.

Lemma WrapUnary_marks_slow_requests_witness :
  let env := mkEnv ∅ None (fun _ => None) None "" in
  let lg := coreLogger (zapLogger_
              (mkWrapper (zap.New (zapcore.NewCore zapcore.JSONEncoder zapcore.Stdout
                                     zapcore.InfoLevel)) InfoLevel "svc" [])) in
  let cfg := MiddlewareConfig.mk false false false [] 0 0 in
  let next : ConnectLoggingInterceptor.UnaryFunc :=
    fun _ _ w => ((Some (Connect.mkResponse ∅ None), None), w) in
  let req := Connect.mkRequest "/user.v1.UserService/GetUser" ∅ None in
  exists fields : list Field,
    ConnectLoggingInterceptor.WrapUnary env (ConnectLoggingInterceptor.New lg cfg) next
      0 1500000000 context_Background req []
    = ((Some (Connect.mkResponse ∅ None), None),
       Logger_.WarnContext env lg context_Background "RPC request completed (slow)"
         (fields ++ [zapf.Bool "slow_request" true])
         (Logger_.InfoContext env lg context_Background "RPC request started"
            (ConnectLoggingInterceptor.startFields
               (ConnectLoggingInterceptor.New lg cfg) req 0) [])).
Proof.
  intros env lg cfg next req.
  destruct (WrapUnary_marks_slow_requests env lg cfg next 0 1500000000
              context_Background req [] _ (Some (Connect.mkResponse ∅ None)) eq_refl)
    as [fields (_ & _ & _ & Hrun & _)].
  exists fields. exact Hrun.
Defined.

(* ===================================================================== *)
(** * Replacement: fixed points *)
(* ===================================================================== *)

Section RegexpFacts.

Import Bytes Regexp.

Lemma stars_app (l1 l2 : list ascii) : stars (l1 ++ l2) = (stars l1 + stars l2)%nat.
Proof. unfold stars. now rewrite filter_app, length_app. Qed.

Lemma stars_cons (c : ascii) (l : list ascii) :
  stars (c :: l) = ((if Ascii.eqb c "*" then 1 else 0) + stars l)%nat.
Proof.
  unfold stars. rewrite filter_cons.
  destruct (Ascii.eqb_spec c "*"); destruct (decide (c = "*"%char)); try contradiction;
    reflexivity.
Qed.

Lemma stars_none (l : list ascii) :
  Forall (fun c => c <> "*"%char) l -> stars l = 0%nat.
Proof.
  induction 1 as [|c l Hc _ IH]; [reflexivity|].
  rewrite stars_cons, IH. now destruct (Ascii.eqb_spec c "*").
Qed.

(** Where the backtracking loop stops. *)
Lemma tryFrom_Some {R : Type} (k lo : nat) (cont : nat -> option R) (r : R) :
  (lo <= k)%nat ->
  tryFrom k lo cont = Some r -> exists j, (lo <= j <= k)%nat /\ cont j = Some r.
Proof.
  induction k as [|k IH]; cbn; intros Hlo.
  - destruct (cont 0%nat) eqn:E; [|discriminate]. intros [= <-]. exists 0%nat. split; [lia|exact E].
  - destruct (cont (S k)) eqn:E.
    + intros [= <-]. exists (S k). split; [lia|exact E].
    + destruct (Nat.leb_spec lo k) as [Hle|]; [|discriminate].
      intros H. destruct (IH Hle H) as (j & Hj & Hc). exists j. split; [lia | exact Hc].
Qed.

Lemma span_le cls hi rest : (span cls hi rest <= length rest)%nat.
Proof.
  revert hi. induction rest as [|c rest IH]; intros hi.
  - destruct hi as [[|n]|]; cbn; lia.
  - destruct hi as [[|n]|]; cbn; [lia| |]; destruct (cls c); cbn;
      try lia; specialize (IH (option_map Nat.pred (Some (S n)))) || specialize (IH None);
      cbn in IH; lia.
Qed.

Lemma span_Forall cls hi rest :
  Forall (fun c => cls c = true) (firstn (span cls hi rest) rest).
Proof.
  revert hi. induction rest as [|c rest IH]; intros hi.
  - destruct hi as [[|n]|]; cbn; constructor.
  - destruct hi as [[|n]|]; cbn; [constructor| |]; destruct (cls c) eqn:E; cbn;
      try constructor; try exact E; apply IH.
Qed.

Lemma Forall_firstn_le {A} (P : A -> Prop) (j k : nat) (l : list A) :
  (j <= k)%nat -> Forall P (firstn k l) -> Forall P (firstn j l).
Proof.
  intros Hjk H. replace j with (Nat.min j k) by lia.
  rewrite <- firstn_firstn. now apply Forall_take.
Qed.

(** A match consumes at least [minLen p] characters of the subject, all of
    them in classes of [p]. *)
Lemma run_consumes (p : regexp) :
  forall prev pos rest caps e caps',
    run p prev pos rest caps = Some (e, caps') ->
    exists k : nat,
      e = (pos + k)%nat /\ (minLen p <= k <= length rest)%nat
      /\ Forall (fun c => classesOf p c = true) (firstn k rest).
Proof.
  induction p as [|i p IH]; intros prev pos rest caps e caps'; cbn [run].
  - intros [= <- <-]. exists 0%nat. cbn. repeat split; try lia. constructor.
  - assert (Hweaken : forall k (l : list ascii),
               Forall (fun c => classesOf p c = true) (firstn k l) ->
               Forall (fun c => classesOf (i :: p) c = true) (firstn k l)).
    { intros k l H. eapply Forall_impl; [exact H|].
      intros c Hc. unfold classesOf in *. cbn [existsb]. rewrite Hc. apply orb_true_r. }
    destruct i as [cls lo hi| |n|n].
    + destruct (Nat.ltb_spec (span cls hi rest) lo) as [|Hlo]; [discriminate|].
      intros H. apply tryFrom_Some in H as (j & Hj & Hrun); [|exact Hlo].
      destruct (IH _ _ _ _ _ _ Hrun) as (k & -> & Hk & Hall).
      pose proof (span_le cls hi rest) as Hspan.
      rewrite length_skipn in Hk.
      exists (j + k)%nat. cbn [minLen]. split; [lia|]. split; [lia|].
      rewrite <- (firstn_skipn j rest) at 1.
      rewrite firstn_app, firstn_firstn, length_firstn.
      replace (Nat.min (j + k) j) with j by lia.
      replace (j + k - Nat.min j (length rest))%nat with k by lia.
      apply Forall_app. split.
      * eapply Forall_impl;
          [eapply Forall_firstn_le; [|apply (span_Forall cls hi rest)]; lia|].
        intros c Hc. unfold classesOf. cbn [existsb]. now rewrite Hc.
      * now apply Hweaken.
    + destruct (atWordBoundary prev rest); [|discriminate].
      intros H. destruct (IH _ _ _ _ _ _ H) as (k & -> & Hk & Hall).
      exists k. cbn [minLen]. auto.
    + intros H. destruct (IH _ _ _ _ _ _ H) as (k & -> & Hk & Hall).
      exists k. cbn [minLen]. auto.
    + intros H. destruct (IH _ _ _ _ _ _ H) as (k & -> & Hk & Hall).
      exists k. cbn [minLen]. auto.
Qed.

Lemma expand_stars subject caps t : (litStars t <= stars (expand subject caps t))%nat.
Proof.
  unfold expand, litStars, list_sum. induction t as [|x t IH]; [cbn; lia|].
  cbn [map concat fold_right].
  rewrite stars_app. destruct x as [s|n]; cbn [expandPiece]; lia.
Qed.

Section Replace.

Variables (p : regexp) (t : template) (subject : list ascii).

(** Without a match the text is copied. *)
Lemma replaceFrom_no_match rest :
  forall prev pos,
    matchFrom p prev pos rest = false ->
    replaceFrom p t subject prev pos rest 0 = rest.
Proof.
  induction rest as [|c rest IH]; intros prev pos; [reflexivity|].
  cbn. destruct (run p prev pos (c :: rest) []); [discriminate|].
  intros H. now rewrite IH.
Qed.

Hypothesis star_free : classesOf p "*" = false.
Hypothesis consumes : (0 < minLen p)%nat.

Lemma matched_text_has_no_star k (rest : list ascii) :
  Forall (fun c => classesOf p c = true) (firstn k rest) -> stars (firstn k rest) = 0%nat.
Proof.
  intros H. apply stars_none. eapply Forall_impl; [exact H|].
  intros c Hc ->. congruence.
Qed.

(** Replacing never removes an asterisk. *)
Lemma replaceFrom_stars_le rest :
  forall prev pos skip,
    (stars (skipn skip rest) <= stars (replaceFrom p t subject prev pos rest skip))%nat.
Proof.
  induction rest as [|c rest IH]; intros prev pos skip.
  - destruct skip; cbn; lia.
  - destruct skip as [|skip]; [|apply IH].
    cbn [replaceFrom skipn].
    destruct (run p prev pos (c :: rest) []) as [[e caps]|] eqn:Hrun.
    + destruct (run_consumes _ _ _ _ _ _ _ Hrun) as (k & -> & Hk & Hall).
      destruct (Nat.ltb_spec pos (pos + k)) as [_|]; [|lia].
      rewrite stars_app.
      specialize (IH (Some c) (S pos) (pos + k - pos - 1)%nat).
      rewrite <- (firstn_skipn k (c :: rest)) at 1.
      rewrite stars_app, (matched_text_has_no_star _ _ Hall).
      destruct k as [|k]; [lia|].
      replace (pos + S k - pos - 1)%nat with k in * by lia.
      cbn [skipn]. lia.
    + rewrite !stars_cons. specialize (IH (Some c) (S pos) 0%nat).
      change (skipn 0 rest) with rest in IH. destruct (Ascii.eqb c "*"); lia.
Qed.

(** Each replacement adds the asterisks of the template. *)
Lemma replaceFrom_stars_lt rest :
  forall prev pos,
    matchFrom p prev pos rest = true ->
    (stars rest + litStars t <= stars (replaceFrom p t subject prev pos rest 0))%nat.
Proof.
  induction rest as [|c rest IH]; intros prev pos.
  - cbn. destruct (run p prev pos [] []) as [[e caps]|] eqn:Hrun; [|discriminate].
    destruct (run_consumes _ _ _ _ _ _ _ Hrun) as (k & _ & Hk & _). cbn in Hk. lia.
  - cbn [matchFrom replaceFrom].
    destruct (run p prev pos (c :: rest) []) as [[e caps]|] eqn:Hrun.
    + intros _.
      destruct (run_consumes _ _ _ _ _ _ _ Hrun) as (k & -> & Hk & Hall).
      destruct (Nat.ltb_spec pos (pos + k)) as [_|]; [|lia].
      rewrite stars_app.
      pose proof (expand_stars subject caps t) as Hexp.
      pose proof (replaceFrom_stars_le rest (Some c) (S pos) (pos + k - pos - 1)%nat) as Hle.
      rewrite <- (firstn_skipn k (c :: rest)) at 1.
      rewrite stars_app, (matched_text_has_no_star _ _ Hall).
      destruct k as [|k]; [lia|].
      replace (pos + S k - pos - 1)%nat with k in * by lia.
      cbn [skipn]. lia.
    + intros H. specialize (IH _ _ H). rewrite !stars_cons.
      destruct (Ascii.eqb c "*"); lia.
Qed.

End Replace.

Lemma ReplaceAllString_no_match p t (s : string) :
  MatchString p s = false -> ReplaceAllString p s t = s.
Proof.
  intros H. unfold ReplaceAllString.
  rewrite replaceFrom_no_match by exact H. apply str_chars.
Qed.

Lemma ReplaceAllString_stars_le p t (s : string) :
  classesOf p "*" = false -> (0 < minLen p)%nat ->
  (stars (chars s) <= stars (chars (ReplaceAllString p s t)))%nat.
Proof.
  intros Hs Hm. unfold ReplaceAllString. rewrite chars_str.
  apply (replaceFrom_stars_le p t (chars s) Hs Hm (chars s) None 0%nat 0%nat).
Qed.

Lemma ReplaceAllString_stars_lt p t (s : string) :
  classesOf p "*" = false -> (0 < minLen p)%nat -> (0 < litStars t)%nat ->
  MatchString p s = true ->
  (stars (chars s) < stars (chars (ReplaceAllString p s t)))%nat.
Proof.
  intros Hs Hm Ht H. unfold ReplaceAllString. rewrite chars_str.
  pose proof (replaceFrom_stars_lt p t (chars s) Hs Hm (chars s) None 0%nat H). lia.
Qed.

Lemma applySteps_stars_le steps :
  Forall wellFormedStep steps ->
  forall s, (stars (chars s) <= stars (chars (applySteps steps s)))%nat.
Proof.
  induction 1 as [|[p t] steps (Hs & Hm & Ht) _ IH]; intros s; [apply Nat.le_refl|].
  change (applySteps ((p, t) :: steps) s)
    with (applySteps steps (ReplaceAllString p s t)).
  etransitivity; [apply (ReplaceAllString_stars_le p t s Hs Hm)|apply IH].
Qed.

(** A chain of replacements leaves a text as it is exactly when none of
    its patterns matches the text. *)
Lemma applySteps_fixed_iff steps :
  Forall wellFormedStep steps ->
  forall s,
    applySteps steps s = s
    <-> Forall (fun step => MatchString (fst step) s = false) steps.
Proof.
  induction 1 as [|[p t] steps (Hs & Hm & Ht) Hsteps IH]; intros s.
  - split; [constructor | reflexivity].
  - change (applySteps ((p, t) :: steps) s)
      with (applySteps steps (ReplaceAllString p s t)).
    destruct (MatchString p s) eqn:Hmatch.
    + split.
      * intros Heq. exfalso.
        pose proof (ReplaceAllString_stars_lt p t s Hs Hm Ht Hmatch) as Hlt.
        pose proof (applySteps_stars_le steps Hsteps (ReplaceAllString p s t)) as Hle.
        rewrite Heq in Hle. lia.
      * intros H. apply Forall_cons in H as [H _]. cbn in H. congruence.
    + rewrite (ReplaceAllString_no_match p t s Hmatch), IH.
      split; [intros H; constructor; [exact Hmatch|exact H]|].
      intros H. now apply Forall_cons in H as [_ H].
Qed.

End RegexpFacts.

(* ===================================================================== *)
(** * [sanitizeString] applied twice *)
(* ===================================================================== *)

Lemma sanitizeString_applySteps (s : string) :
  Sanitizer.sanitizeString s = applySteps Sanitizer.maskingSteps s.
Proof. reflexivity. Qed.

Lemma maskingSteps_wellFormed : Forall wellFormedStep Sanitizer.maskingSteps.
Proof.
  repeat constructor; vm_compute; lia.
Qed.

Lemma matchesAny_false (s : string) :
  Sanitizer.matchesAny s = false
  <-> Forall (fun step => Regexp.MatchString (fst step) s = false) Sanitizer.maskingSteps.
Proof.
  unfold Sanitizer.matchesAny. rewrite <- not_true_iff_false, existsb_exists, Forall_forall.
  split.
  - intros H step Hin. destruct (Regexp.MatchString (fst step) s) eqn:E; [|reflexivity].
    exfalso. apply H. exists step. split; [now apply list_elem_of_In | exact E].
  - intros H (step & Hin & E). apply list_elem_of_In in Hin. rewrite (H step Hin) in E.
    discriminate E.
Qed.

(** The texts [sanitizeString] leaves as they are: those in which none of
    its six patterns has a match. *)
Lemma sanitizeString_fixed_iff (s : string) :
  Sanitizer.sanitizeString s = s <-> Sanitizer.matchesAny s = false.
Proof.
  rewrite sanitizeString_applySteps, matchesAny_false.
  apply applySteps_fixed_iff, maskingSteps_wellFormed.
Qed.

(** C2, as the code has it. Applying [sanitizeString] to its own output
    changes nothing exactly when none of the six patterns matches that
    output. *)
Theorem sanitizeString_twice (x : string) :
  Sanitizer.sanitizeString (Sanitizer.sanitizeString x) = Sanitizer.sanitizeString x
  <-> Sanitizer.matchesAny (Sanitizer.sanitizeString x) = false.
Proof. apply sanitizeString_fixed_iff. Qed.

Lemma sanitizeString_twice_witness :
  Sanitizer.sanitizeString
    (Sanitizer.sanitizeString "card 1234567812345678, mail alice@example.com")
  = Sanitizer.sanitizeString "card 1234567812345678, mail alice@example.com".
Proof.
  apply (proj2 (sanitizeString_twice "card 1234567812345678, mail alice@example.com")).
  vm_compute. reflexivity.
Defined.

(** C2, the claim as stated, fails: of seven groups of four digits the
    first pass masks the first four groups, and the second pass masks the
    last four, which overlap them. *)
Lemma sanitizeString_not_idempotent :
  Sanitizer.sanitizeString "1234-5678-1234-5678-1234-5678-1234"
  = "1234-****-****-5678-1234-5678-1234"
  /\ Sanitizer.sanitizeString
       (Sanitizer.sanitizeString "1234-5678-1234-5678-1234-5678-1234")
     = "1234-****-****-5678-****-****-1234"
  /\ Sanitizer.sanitizeString
       (Sanitizer.sanitizeString "1234-5678-1234-5678-1234-5678-1234")
     <> Sanitizer.sanitizeString "1234-5678-1234-5678-1234-5678-1234".
Proof.
  split; [vm_compute; reflexivity|].
  split; [vm_compute; reflexivity|].
  vm_compute. discriminate.
Qed.

Example sanitizeString_masks :
  Sanitizer.sanitizeString
    "card 1234567812345678, id 11010119900307123, mail alice@example.com, tel 13812345678"
  = "card 1234-****-****-5678, id 110***********23, mail al****@example.com, tel 138****5678".
Proof. vm_compute. reflexivity. Qed.

Example sanitizeString_mail_chain :
  Sanitizer.sanitizeString "a@b.cc@d.ee" = "a****@b.cc@d.ee"
  /\ Sanitizer.sanitizeString "a****@b.cc@d.ee" = "a****@b.****@d.ee".
Proof. split; vm_compute; reflexivity. Qed.

(* ===================================================================== *)
(** * Context extraction: order, keys and priority *)
(* ===================================================================== *)

Lemma fieldIfSet_keys (key value : string) :
  map Key (fieldIfSet key value) `sublist_of` [key].
Proof.
  unfold fieldIfSet. destruct (negb (String.eqb value "")); cbn.
  - reflexivity.
  - apply sublist_nil_l.
Qed.

Lemma fieldIfSet_values (key value : string) (f : Field) :
  In f (fieldIfSet key value) -> Value f = VString value /\ value <> "".
Proof.
  unfold fieldIfSet. destruct (String.eqb_spec value ""); cbn; [intros []|].
  intros [<-|[]]. now split.
Qed.

Lemma ExtractTraceFields_keys (t : TracingExtractor) (ctx : Context) :
  map Key (ExtractTraceFields t ctx) `sublist_of` ["trace_id"; "span_id"; "trace_sampled"].
Proof.
  unfold ExtractTraceFields.
  destruct (negb (enabled t)); [apply sublist_nil_l|].
  destruct (trace.IsValid _); [|apply sublist_nil_l].
  rewrite !map_app.
  apply (sublist_app _ ["trace_id"] _ ["span_id"; "trace_sampled"]);
    [|apply (sublist_app _ ["span_id"] _ ["trace_sampled"])];
    match goal with |- context [if ?b then _ else _] => destruct b end;
    cbn; (reflexivity || apply sublist_nil_l).
Qed.

Lemma extractBusinessContextFields_keys (ctx : Context) :
  map Key (extractBusinessContextFields ctx)
  `sublist_of` ["request_id"; "user_id"; "session_id"; "tenant_id"; "client_ip";
                "user_agent"].
Proof.
  unfold extractBusinessContextFields. rewrite !map_app.
  repeat (match goal with
          | |- map Key (fieldIfSet ?k _) ++ _ `sublist_of` ?k :: ?ks =>
              apply (sublist_app _ [k] _ ks); [apply fieldIfSet_keys|]
          end).
  apply fieldIfSet_keys.
Qed.

Lemma hex_nonempty (digits : nat) (x : N) : trace.hex (S digits) x <> [].
Proof. cbn. now destruct (trace.hex digits (x / 16)%N). Qed.

Lemma str_nonempty (l : list ascii) : l <> [] -> Bytes.str l <> "".
Proof. destruct l; [congruence|]. discriminate. Qed.

(** X1. The fields extracted from a context come in the fixed order
    trace_id, span_id, trace_sampled, request_id, user_id, session_id,
    tenant_id, client_ip, user_agent, each key at most once; a string field
    is never empty and the only other field is [trace_sampled = true]; an
    extractor that is not enabled emits none of the three trace keys. *)
Theorem ExtractAllContextFields_shape (t : TracingExtractor) (ctx : Context) :
  map Key (ExtractAllContextFields t ctx) `sublist_of` contextKeys
  /\ NoDup (map Key (ExtractAllContextFields t ctx))
  /\ (forall f, In f (ExtractAllContextFields t ctx) ->
        (exists s, Value f = VString s /\ s <> "")
        \/ f = zapf.Bool "trace_sampled" true)
  /\ (enabled t = false ->
      map Key (ExtractAllContextFields t ctx)
      `sublist_of` ["request_id"; "user_id"; "session_id"; "tenant_id"; "client_ip";
                    "user_agent"]).
Proof.
  assert (Hsub : map Key (ExtractAllContextFields t ctx) `sublist_of` contextKeys).
  { unfold ExtractAllContextFields. rewrite map_app.
    apply (sublist_app _ ["trace_id"; "span_id"; "trace_sampled"]).
    - apply ExtractTraceFields_keys.
    - apply extractBusinessContextFields_keys. }
  split; [exact Hsub|]. split; [|split].
  - eapply sublist_NoDup; [|exact Hsub].
    unfold contextKeys. repeat constructor; rewrite ?list_elem_of_In; cbn;
      intros H; repeat (destruct H as [H|H]; [discriminate H|]); exact H.
  - intros f Hf. unfold ExtractAllContextFields in Hf.
    apply in_app_or in Hf as [Hf|Hf].
    + unfold ExtractTraceFields in Hf.
      destruct (negb (enabled t)); [destruct Hf|].
      destruct (trace.IsValid _); [|destruct Hf].
      repeat (apply in_app_or in Hf as [Hf|Hf]);
        match type of Hf with context [if ?b then _ else _] => destruct b end;
        try destruct Hf as [<-|[]]; try destruct Hf.
      * left. eexists. split; [reflexivity|]. apply str_nonempty, hex_nonempty.
      * left. eexists. split; [reflexivity|]. apply str_nonempty, hex_nonempty.
      * now right.
    + left. unfold extractBusinessContextFields in Hf.
      repeat (apply in_app_or in Hf as [Hf|Hf]);
        apply fieldIfSet_values in Hf; eauto.
  - intros Hoff. unfold ExtractAllContextFields, ExtractTraceFields. rewrite Hoff. cbn [negb app].
    apply extractBusinessContextFields_keys.
Qed.

(** No candidate key of the context holds a non-empty string. *)
Lemma getContextValue_empty (ctx : Context) (keys : list string) :
  getContextValue ctx keys = ""
  <-> Forall (fun key => forall s, ctxValues ctx !! key = Some (CtxString s) -> s = "") keys.
Proof.
  induction keys as [|key keys IH]; cbn [getContextValue].
  - split; [constructor | reflexivity].
  - destruct (ctxValues ctx !! key) as [[s|]|] eqn:Hk.
    + destruct (String.eqb_spec s "") as [->|Hs]; cbn [negb].
      * rewrite IH. split; intros H.
        -- constructor; [intros s' Heq; congruence | exact H].
        -- now apply Forall_cons in H as [_ H].
      * split; [intros ->; congruence|].
        intros H. apply Forall_cons in H as [H _]. now specialize (H s Hk).
    + rewrite IH. split; intros H.
      * constructor; [intros s' Heq; congruence | exact H].
      * now apply Forall_cons in H as [_ H].
    + rewrite IH. split; intros H.
      * constructor; [intros s' Heq; congruence | exact H].
      * now apply Forall_cons in H as [_ H].
Qed.

(** X2. [getContextValue] returns the non-empty string [v] exactly when [v]
    is stored under one of the candidate keys and no earlier candidate
    holds a non-empty string: values that are not strings and empty strings
    are passed over, and the first remaining candidate wins. *)
Theorem getContextValue_first (ctx : Context) (keys : list string) (v : string) :
  v <> "" ->
  getContextValue ctx keys = v
  <-> exists pre key post,
        keys = pre ++ key :: post
        /\ getContextValue ctx pre = ""
        /\ ctxValues ctx !! key = Some (CtxString v).
Proof.
  intros Hv. induction keys as [|key keys IH]; cbn [getContextValue].
  - split; [intros H; congruence|].
    intros (pre & k & post & H & _). now destruct pre.
  - split.
    + intros H.
      destruct (ctxValues ctx !! key) as [[s|]|] eqn:Hk.
      * destruct (String.eqb_spec s "") as [->|Hs]; cbn [negb] in H.
        -- apply IH in H as (pre & k & post & -> & Hpre & Hl).
           exists (key :: pre), k, post. split; [reflexivity|]. split; [|exact Hl].
           cbn [getContextValue]. now rewrite Hk.
        -- subst s. exists [], key, keys. now split.
      * apply IH in H as (pre & k & post & -> & Hpre & Hl).
        exists (key :: pre), k, post. split; [reflexivity|]. split; [|exact Hl].
        cbn [getContextValue]. now rewrite Hk.
      * apply IH in H as (pre & k & post & -> & Hpre & Hl).
        exists (key :: pre), k, post. split; [reflexivity|]. split; [|exact Hl].
        cbn [getContextValue]. now rewrite Hk.
    + intros (pre & k & post & Hkeys & Hpre & Hl).
      destruct pre as [|key' pre]; cbn in Hkeys; injection Hkeys as <- ->.
      * rewrite Hl. destruct (String.eqb_spec v ""); [contradiction|reflexivity].
      * apply getContextValue_empty in Hpre. apply Forall_cons in Hpre as [Hkey Hpre].
        apply getContextValue_empty in Hpre.
        assert (Hrec : getContextValue ctx (pre ++ k :: post) = v).
        { apply IH. now exists pre, k, post. }
        destruct (ctxValues ctx !! key) as [[s|]|]; try exact Hrec.
        rewrite (Hkey s eq_refl). exact Hrec.
Qed.

Lemma getContextValue_first_witness :
  getContextValue
    (context_WithValue
       (context_WithValue context_Background "request_id" CtxOther)
       "x-request-id" (CtxString "r-1"))
    ["request_id"; "requestID"; "x-request-id"] = "r-1".
Proof.
  apply (getContextValue_first _ _ "r-1"); [discriminate|].
  exists ["request_id"; "requestID"], "x-request-id", [].
  split; [reflexivity|]. split.
  - apply getContextValue_empty.
    repeat constructor; intros s H; cbn in H;
      rewrite ?lookup_insert_ne, ?lookup_insert_eq, ?lookup_empty in H by discriminate;
      discriminate H.
  - apply lookup_insert_eq.
Defined.

(** X3. Whatever the core logger extracts from a context, the tracing
    extractor extracts too, in the same order: the core logger reads only
    the spellings ["request_id"] and ["user_id"], the extractor reads more
    spellings and more keys. *)
Theorem extractContextFields_sublist (ctx : Context) :
  extractContextFields ctx `sublist_of` extractBusinessContextFields ctx.
Proof.
  assert (Hone : forall key other,
             fieldIfSet key
               (match ctxValues ctx !! key with
                | Some (CtxString s) => s
                | _ => ""
                end)
             `sublist_of` fieldIfSet key (getContextValue ctx (key :: other))).
  { intros key other. cbn [getContextValue].
    destruct (ctxValues ctx !! key) as [[s|]|]; try apply sublist_nil_l.
    destruct (String.eqb_spec s "") as [->|Hs]; cbn [negb].
    - apply sublist_nil_l.
    - reflexivity. }
  unfold extractContextFields, extractBusinessContextFields,
    getRequestIDFromContext, getUserIDFromContext.
  apply sublist_app; [apply Hone|].
  apply sublist_inserts_r, Hone.
Qed.

(* ===================================================================== *)
(** * The factory: merging and selection *)
(* ===================================================================== *)

Lemma merge_string (c d : string) :
  (if negb (String.eqb (if negb (String.eqb c "") then c else d) "")
   then (if negb (String.eqb c "") then c else d) else d)
  = (if negb (String.eqb c "") then c else d).
Proof.
  destruct (String.eqb_spec c "") as [->|Hc]; cbn [negb].
  - now destruct (negb (String.eqb d "")).
  - destruct (String.eqb_spec c ""); [contradiction|reflexivity].
Qed.

(** X4. Merging is idempotent for every factory: a merged configuration is
    merged into itself. With the package's defaults the merged format,
    service name, version and environment are never empty, so a logger
    built through the factory always carries its three base fields. *)
Theorem mergeWithDefaults_idempotent (f : LoggerFactory) (config : LoggerConfig.t) :
  mergeWithDefaults f (mergeWithDefaults f config) = mergeWithDefaults f config
  /\ (let merged := mergeWithDefaults NewLoggerFactory config in
      LoggerConfig.Format merged <> ""
      /\ serviceFields merged
         = [ zapf.String "service" (LoggerConfig.ServiceName merged);
             zapf.String "version" (LoggerConfig.Version merged);
             zapf.String "environment" (LoggerConfig.Environment merged) ]).
Proof.
  split.
  - unfold mergeWithDefaults.
    cbn [LoggerConfig.Level LoggerConfig.Format LoggerConfig.ServiceName
         LoggerConfig.Version LoggerConfig.Environment LoggerConfig.Output
         LoggerConfig.Tracing OutputConfig.Console OutputConfig.File OutputConfig.Remote].
    rewrite !merge_string. f_equal.
    + destruct (Z.eqb_spec (LoggerConfig.Level config) 0) as [->|Hc]; cbn [negb].
      * now destruct (negb (LoggerConfig.Level (defaultConfig f) =? 0)).
      * destruct (Z.eqb_spec (LoggerConfig.Level config) 0); [contradiction|reflexivity].
    + f_equal.
      * destruct (ConsoleOutputConfig.Enabled
                    (OutputConfig.Console (LoggerConfig.Output config))) eqn:E;
          [now rewrite E |].
        now match goal with |- (if ?b then _ else _) = _ => destruct b end.
      * destruct (FileOutputConfig.Enabled
                    (OutputConfig.File (LoggerConfig.Output config))) eqn:E;
          [now rewrite E |].
        now match goal with |- (if ?b then _ else _) = _ => destruct b end.
      * destruct (RemoteOutputConfig.Enabled
                    (OutputConfig.Remote (LoggerConfig.Output config))) eqn:E;
          [now rewrite E |].
        now match goal with |- (if ?b then _ else _) = _ => destruct b end.
    + destruct (TracingConfig.Enabled (LoggerConfig.Tracing config)) eqn:E;
        [now rewrite E |].
        now match goal with |- (if ?b then _ else _) = _ => destruct b end.
  - unfold mergeWithDefaults, serviceFields.
    cbn [LoggerConfig.Format LoggerConfig.ServiceName LoggerConfig.Version
         LoggerConfig.Environment NewLoggerFactory defaultConfig DefaultLoggerConfig].
    split.
    + destruct (String.eqb_spec (LoggerConfig.Format config) ""); cbn [negb];
        [discriminate | assumption].
    + destruct (String.eqb_spec (LoggerConfig.ServiceName config) "");
        destruct (String.eqb_spec (LoggerConfig.Version config) "");
        destruct (String.eqb_spec (LoggerConfig.Environment config) "");
        cbn [negb];
        repeat match goal with
               | |- context [String.eqb ?s ""] =>
                   destruct (String.eqb_spec s ""); [congruence|]
               end; reflexivity.
Qed.

(** With the package's defaults the console always counts, so a merged
    configuration has several outputs exactly when a file or a remote
    output is asked for. *)
Lemma merged_hasMultipleOutputs (config : LoggerConfig.t) :
  let merged := mergeWithDefaults NewLoggerFactory config in
  hasMultipleOutputs merged = shouldAddFileOutput merged || shouldAddRemoteOutput merged.
Proof.
  intros merged. unfold hasMultipleOutputs.
  assert (Hc : ConsoleOutputConfig.Enabled
                 (OutputConfig.Console (LoggerConfig.Output merged)) = true).
  { unfold merged. rewrite mergeWithDefaults_console. apply orb_true_r. }
  rewrite Hc. cbn [orb].
  destruct (shouldAddFileOutput merged), (shouldAddRemoteOutput merged); reflexivity.
Qed.

Lemma CreateLoggerWithOutputs_result (env : Env) (config : LoggerConfig.t) (w : World) :
  (exists l w', CreateLoggerWithOutputs env config w = (Ok (zapLoggerInternal_ l), w')
                /\ (shouldAddFileOutput config = true ->
                    mkdirAllError env
                      (FileOutputConfig.Path (OutputConfig.File (LoggerConfig.Output config)))
                    = None))
  \/ (exists e w', CreateLoggerWithOutputs env config w
                   = (Err ("failed to add file output: failed to create log directory: "
                           +:+ e), w')
                   /\ shouldAddFileOutput config = true
                   /\ mkdirAllError env
                        (FileOutputConfig.Path (OutputConfig.File (LoggerConfig.Output config)))
                      = Some e).
Proof.
  unfold CreateLoggerWithOutputs.
  destruct (shouldAddFileOutput config) eqn:Hfile.
  - unfold AddFileOutput. cbn [InternalFileOutputConfig.Filename createFileOutputConfig].
    destruct (mkdirAllError env _) as [e|] eqn:Hmk.
    + right. exists e. eexists. split; [reflexivity|]. now split.
    + left. destruct (shouldAddRemoteOutput config); cbn;
        eexists _, _; (split; [reflexivity|]); intros _; reflexivity.
  - left. destruct (shouldAddRemoteOutput config); cbn;
      eexists _, _; (split; [reflexivity|]); intros; discriminate.
Qed.

(** X5. [CreateLogger] of the package's factory picks the logger by the
    merged configuration: the traced wrapper when tracing is enabled, else
    the multi-output logger when a file or a remote output is asked for,
    else the core logger; it never returns the fallback logger. It fails
    only when the log directory of a requested file output cannot be made
    or, on the single-output path, when the zap logger cannot be built. *)
Theorem CreateLogger_selection (env : Env) (config : LoggerConfig.t) (w : World) :
  let merged := mergeWithDefaults NewLoggerFactory config in
  match fst (CreateLogger env NewLoggerFactory config w) with
  | inl (tracedLogger_ _) => TracingConfig.Enabled (LoggerConfig.Tracing merged) = true
  | inl (coreLogger (zapLoggerInternal_ _)) =>
      TracingConfig.Enabled (LoggerConfig.Tracing merged) = false
      /\ shouldAddFileOutput merged || shouldAddRemoteOutput merged = true
  | inl (coreLogger (zapLogger_ _)) =>
      TracingConfig.Enabled (LoggerConfig.Tracing merged) = false
      /\ shouldAddFileOutput merged || shouldAddRemoteOutput merged = false
  | inl fallbackLogger => False
  | inr _ =>
      if shouldAddFileOutput merged || shouldAddRemoteOutput merged
      then shouldAddFileOutput merged = true
           /\ mkdirAllError env
                (FileOutputConfig.Path (OutputConfig.File (LoggerConfig.Output merged)))
              <> None
      else zapBuildError env <> None
  end.
Proof.
  intros merged. pose proof (merged_hasMultipleOutputs config) as Hm. cbv zeta in Hm.
  unfold CreateLogger, CreateTracedLogger. rewrite Hm. clear Hm.
  change (mergeWithDefaults NewLoggerFactory config) with merged.
  destruct (TracingConfig.Enabled (LoggerConfig.Tracing merged)) eqn:Htr;
    destruct (shouldAddFileOutput merged || shouldAddRemoteOutput merged) eqn:Hmulti.
  - destruct (CreateLoggerWithOutputs_result env merged w)
      as [(l & w' & -> & _)|(e & w' & -> & Hf & Hmk)]; cbn [fst asLogger Err Ok].
    + reflexivity.
    + split; [exact Hf | congruence].
  - unfold NewLogger. destruct (zapBuildError env); cbn [fst asLogger Err Ok];
      [congruence | reflexivity].
  - destruct (CreateLoggerWithOutputs_result env merged w)
      as [(l & w' & -> & _)|(e & w' & -> & Hf & Hmk)]; cbn [fst asLogger Err Ok].
    + now split.
    + split; [exact Hf | congruence].
  - unfold NewLogger. destruct (zapBuildError env); cbn [fst asLogger Err Ok];
      [congruence | now split].
Qed.

(* ===================================================================== *)
(** * Thresholds and sinks of the constructed loggers *)
(* ===================================================================== *)

Lemma levelToZapLevel_monotone (l1 l2 : Level) :
  In l1 definedLevels -> In l2 definedLevels ->
  (levelToZapLevel l1 <=? levelToZapLevel l2) = (l1 <=? l2).
Proof.
  intros H1 H2. simpl in H1, H2.
  destruct H1 as [<-|[<-|[<-|[<-|[<-|[]]]]]];
    destruct H2 as [<-|[<-|[<-|[<-|[<-|[]]]]]]; reflexivity.
Qed.

(** X6. A logger built by [NewLogger] does nothing for a call below the
    configured level (a level outside the five defined ones counts as
    Info). For a call at or above it, a logger of any format but "json"
    writes exactly one record, to stdout in the console encoding; a logger
    of the format "json" is sampled, and writes exactly one record, to
    stdout in JSON, if its sampler keeps the entry and none if it drops
    it. The record carries the non-empty service, version and environment
    fields, then the call's fields, and for [Error] the stack trace
    last. *)
Theorem NewLogger_level_filter (env : Env) (config : LoggerConfig.t) (l : CoreLogger)
    (msg : string) (fields : list Field) (w : World) :
  NewLogger env config = Ok l ->
  let threshold := levelToZapLevel (LoggerConfig.Level config) in
  let sampled := String.eqb (LoggerConfig.Format config) "json" in
  let encoder := if sampled then zapcore.JSONEncoder else zapcore.ConsoleEncoder in
  let logged (lvl : zapcore.Level) (fs : list Field) : list Event :=
    if threshold <=? lvl
    then (if negb sampled || samplerKeeps env (length w) lvl msg
          then [Wrote encoder zapcore.Stdout lvl msg (serviceFields config ++ fs)]
          else [Dropped lvl msg])
    else [] in
  Logger_.Debug env (coreLogger l) msg fields w = w ++ logged zapcore.DebugLevel fields
  /\ Logger_.Info env (coreLogger l) msg fields w = w ++ logged zapcore.InfoLevel fields
  /\ Logger_.Warn env (coreLogger l) msg fields w = w ++ logged zapcore.WarnLevel fields
  /\ Logger_.Error env (coreLogger l) msg fields w
     = w ++ logged zapcore.ErrorLevel
              (fields ++ [zapf.String "stack_trace" (getStackTrace env)])
  /\ (In (LoggerConfig.Level config) definedLevels ->
      (threshold <=? zapcore.DebugLevel) = (LoggerConfig.Level config <=? DebugLevel)
      /\ (threshold <=? zapcore.InfoLevel) = (LoggerConfig.Level config <=? InfoLevel)
      /\ (threshold <=? zapcore.WarnLevel) = (LoggerConfig.Level config <=? WarnLevel)
      /\ (threshold <=? zapcore.ErrorLevel) = (LoggerConfig.Level config <=? ErrorLevel)).
Proof.
  intros Hl threshold sampled encoder logged. unfold NewLogger in Hl.
  destruct (zapBuildError env); [discriminate|]. injection Hl as <-.
  assert (Hlog : forall lvl fs,
             zap.log (zap.With (zap.New (buildZapCore env config)) (serviceFields config))
               lvl msg fs w
             = w ++ logged lvl fs).
  { intros lvl fs. unfold zap.log, zap.writeTo. f_equal.
    unfold logged, encoder, buildZapCore. cbv zeta. fold threshold. fold sampled.
    destruct sampled; cbn; destruct (threshold <=? lvl); cbn; try reflexivity.
    now destruct (samplerKeeps env (length w) lvl msg). }
  repeat split; try apply Hlog.
  - now apply (levelToZapLevel_monotone _ DebugLevel); [|simpl; tauto].
  - now apply (levelToZapLevel_monotone _ InfoLevel); [|simpl; tauto].
  - now apply (levelToZapLevel_monotone _ WarnLevel); [|simpl; tauto].
  - now apply (levelToZapLevel_monotone _ ErrorLevel); [|simpl; tauto].
Qed.

Lemma NewLogger_level_filter_witness :
  let env := mkEnvWith ∅ None (fun _ => None) None "" (fun now _ _ => (now <? 1)%nat) in
  let config :=
    LoggerConfig.mk WarnLevel "json" "svc" "" "" OutputConfig.zero (TracingConfig.mk false) in
  exists l,
    NewLogger env config = Ok l
    /\ Logger_.Info env (coreLogger l) "quiet" [] [] = []
    /\ Logger_.Warn env (coreLogger l) "loud" [] []
       = [Wrote zapcore.JSONEncoder zapcore.Stdout zapcore.WarnLevel "loud"
            [zapf.String "service" "svc"]]
    /\ Logger_.Warn env (coreLogger l) "loud" []
         (Logger_.Warn env (coreLogger l) "loud" [] [])
       = [Wrote zapcore.JSONEncoder zapcore.Stdout zapcore.WarnLevel "loud"
            [zapf.String "service" "svc"];
          Dropped zapcore.WarnLevel "loud"].
Proof.
  intros env config.
  set (l := zapLogger_
              (mkWrapper (zap.With (zap.New (buildZapCore env config)) (serviceFields config))
                 WarnLevel "svc" (serviceFields config))).
  exists l. split; [reflexivity|].
  pose proof (NewLogger_level_filter env config l "quiet" [] [] eq_refl) as (_ & Hinfo & _).
  pose proof (NewLogger_level_filter env config l "loud" [] [] eq_refl) as (_ & _ & Hwarn & _).
  pose proof (NewLogger_level_filter env config l "loud" []
                (Logger_.Warn env (coreLogger l) "loud" [] []) eq_refl)
    as (_ & _ & Hagain & _).
  split; [exact Hinfo|]. split; [exact Hwarn|].
  rewrite Hagain. rewrite Hwarn. reflexivity.
Defined.

(** X7. The sinks of a logger built by [CreateLoggerWithOutputs]: the
    console (in the configured format) if the format is "console" or empty
    or the console is enabled, then the rotating file (in JSON) if a file
    with a path is enabled, both at the configured level; the remote
    output adds none. When neither is asked for, the logger writes to the
    console in the console encoding at Info, whatever level and format
    were configured. The records carry the service fields. *)
Theorem CreateLoggerWithOutputs_sinks (env : Env) (config : LoggerConfig.t)
    (w w' : World) (l : CoreLogger) (lvl : zapcore.Level) :
  CreateLoggerWithOutputs env config w = (Ok l, w') ->
  let z := zap_ (CoreLogger_.fields l) in
  let console :=
    if shouldAddConsoleOutput config
    then [(CreateZapEncoder (LoggerConfig.Format config), zapcore.Stdout)] else [] in
  let file :=
    if shouldAddFileOutput config
    then [(zapcore.JSONEncoder, zapcore.Lumberjack (createFileOutputConfig config))]
    else [] in
  zap.context z = serviceFields config
  /\ zapcore.sinks (zap.core z) lvl
     = if shouldAddConsoleOutput config || shouldAddFileOutput config
       then (if levelToZapLevel (LoggerConfig.Level config) <=? lvl
             then console ++ file else [])
       else (if zapcore.InfoLevel <=? lvl
             then [(zapcore.ConsoleEncoder, zapcore.Stdout)] else []).
Proof.
  unfold CreateLoggerWithOutputs, wrapOutputs.
  assert (Hctx : forall z0,
             zap.context (if (0 <? length (serviceFields config))%nat
                          then zap.With (zap.New z0) (serviceFields config)
                          else zap.New z0) = serviceFields config).
  { intros z0. destruct (serviceFields config); reflexivity. }
  assert (Hcore : forall z0,
             zap.core (if (0 <? length (serviceFields config))%nat
                       then zap.With (zap.New z0) (serviceFields config)
                       else zap.New z0) = z0).
  { intros z0. destruct (0 <? length (serviceFields config))%nat; reflexivity. }
  destruct (shouldAddConsoleOutput config), (shouldAddFileOutput config);
    unfold AddFileOutput;
    try destruct (mkdirAllError env _); try discriminate;
    destruct (shouldAddRemoteOutput config);
    intros [= <- _]; cbn [CoreLogger_.fields zap_ orb];
    rewrite Hctx, Hcore; (split; [reflexivity|]); cbn;
    destruct (levelToZapLevel (LoggerConfig.Level config) <=? lvl);
    try destruct (0 <=? lvl); reflexivity.
Qed.

Lemma CreateLoggerWithOutputs_sinks_witness :
  let env := mkEnv ∅ None (fun _ => None) None "" in
  let config :=
    LoggerConfig.mk DebugLevel "json" "svc" "" "" OutputConfig.zero (TracingConfig.mk false) in
  exists l w',
    CreateLoggerWithOutputs env config [] = (Ok l, w')
    /\ zapcore.sinks (zap.core (zap_ (CoreLogger_.fields l))) zapcore.DebugLevel = []
    /\ zapcore.sinks (zap.core (zap_ (CoreLogger_.fields l))) zapcore.InfoLevel
       = [(zapcore.ConsoleEncoder, zapcore.Stdout)].
Proof.
  intros env config. eexists _, _. split; [reflexivity|]. split.
  - exact (proj2 (CreateLoggerWithOutputs_sinks env config [] _ _ zapcore.DebugLevel eq_refl)).
  - exact (proj2 (CreateLoggerWithOutputs_sinks env config [] _ _ zapcore.InfoLevel eq_refl)).
Defined.

(* ===================================================================== *)
(** * Derived loggers *)
(* ===================================================================== *)

Lemma zap_write_With (z : zap.Logger) (extra : list Field) lvl msg fields :
  zap.write (zap.With z extra) lvl msg fields = zap.write z lvl msg (extra ++ fields).
Proof. unfold zap.write, zap.writeTo, zap.With. cbn. now rewrite <- app_assoc. Qed.

Lemma zap_log_With (z : zap.Logger) (extra : list Field) lvl msg fields w :
  zap.log (zap.With z extra) lvl msg fields w = zap.log z lvl msg (extra ++ fields) w.
Proof. unfold zap.log, zap.writeTo, zap.With. cbn. now rewrite <- app_assoc. Qed.

Lemma emit_With (z : zap.Logger) (extra : list Field) lvl msg fields w :
  emit (Some (zap.With z extra)) lvl msg fields w = emit (Some z) lvl msg (extra ++ fields) w.
Proof. unfold emit. now rewrite zap_log_With. Qed.

(** X8. Baking a context into a logger and passing it with each call give
    the same records at the levels Debug, Info and Warn: for every logger,
    a plain call on the logger [WithContext] returns writes, to the same
    sinks, records of the same level, message and fields as the context
    call on the original logger, and a sampler treats the two alike.
    ([Error] is left out: its record carries a stack trace, which the two
    calls build at different call depths.) *)
Theorem WithContext_then_plain (env : Env) (l : Logger) (ctx : Context)
    (msg : string) (fields : list Field) (w : World) :
  let baked := derived l (Logger_.WithContext l ctx) in
  Logger_.Debug env baked msg fields w = Logger_.DebugContext env l ctx msg fields w
  /\ Logger_.Info env baked msg fields w = Logger_.InfoContext env l ctx msg fields w
  /\ Logger_.Warn env baked msg fields w = Logger_.WarnContext env l ctx msg fields w.
Proof.
  intros baked.
  rewrite DebugContext_emit, InfoContext_emit, WarnContext_emit.
  rewrite Debug_emit, Info_emit, Warn_emit.
  destruct l as [[z|z]|[[z|z] ex]|]; cbn;
    rewrite ?zap_log_With, <- ?app_assoc; repeat split; reflexivity.
Qed.

(** X9. Deriving a logger appends to the fields of its engine and changes
    nothing else: [WithFields] appends the given fields, so deriving twice
    is deriving once with the concatenation, and [WithService] appends a
    [service] field after the fields already there, an earlier [service]
    field staying in the record. After either derivation the sinks reached
    and the fields read from a context are those of the parent. *)
Theorem derived_loggers_append (l : Logger) (a b : list Field) (service : string) :
  engineOf l <> None ->
  let la := derived l (Logger_.WithFields l a) in
  engineFields la = engineFields l ++ a
  /\ derived la (Logger_.WithFields la b) = derived l (Logger_.WithFields l (a ++ b))
  /\ engineFields (derived l (Logger_.WithService l service))
     = engineFields l ++ [zapf.String "service" service]
  /\ (forall lvl, writesAt la lvl = writesAt l lvl
                  /\ writesAt (derived l (Logger_.WithService l service)) lvl
                     = writesAt l lvl)
  /\ (forall ctx, contextFieldsOf la ctx = contextFieldsOf l ctx
                  /\ contextFieldsOf (derived l (Logger_.WithService l service)) ctx
                     = contextFieldsOf l ctx)
  /\ readsContext la = readsContext l
  /\ readsContext (derived l (Logger_.WithService l service)) = readsContext l.
Proof.
  intros Hengine la. subst la.
  destruct l as [[z|z]|[[z|z] ex]|]; [| | | |now contradiction Hengine];
    cbn;
    unfold tracedLogger.WithFields, CoreLogger_.WithFields, zapLogger.WithFields,
      zapLoggerInternal.WithFields, zap.With;
    cbn; rewrite <- ?app_assoc; repeat split; reflexivity.
Qed.

Lemma derived_loggers_append_witness :
  let l := coreLogger (zapLogger_
             (mkWrapper (zap.With (zap.New (zapcore.NewCore zapcore.JSONEncoder
                                              zapcore.Stdout zapcore.InfoLevel))
                           [zapf.String "service" "user"]) InfoLevel "user"
                [zapf.String "service" "user"])) in
  engineFields (derived l (Logger_.WithService l "billing"))
  = [zapf.String "service" "user"; zapf.String "service" "billing"].
Proof.
  intros l.
  exact (proj1 (proj2 (proj2 (derived_loggers_append l [] [] "billing"
                                ltac:(discriminate))))).
Defined.

(** X10. The order of the fields of a record: the fields of the parent's
    engine, the fields given to [WithFields], the fields extracted from
    the context, the explicit fields. A record is written only when the
    parent has Info enabled at a sink, and then at least one is written
    unless a sampler of the engine drops the entry. *)
Theorem record_field_order (env : Env) (l : Logger) (base fields : list Field)
    (ctx : Context) (msg : string) (w : World) :
  exists n : nat,
    records (Logger_.InfoContext env (derived l (Logger_.WithFields l base)) ctx msg
               fields w)
    = records w
      ++ repeat (zapcore.InfoLevel, msg,
                 engineFields l ++ base ++ contextFieldsOf l ctx ++ fields) n
    /\ ((0 < n)%nat -> writesAt l zapcore.InfoLevel = true)
    /\ (writesAt l zapcore.InfoLevel = true ->
        sampledOut l zapcore.InfoLevel msg w = false -> (0 < n)%nat).
Proof.
  rewrite InfoContext_emit.
  destruct (records_emit (derived l (Logger_.WithFields l base)) zapcore.InfoLevel msg
              (contextFieldsOf (derived l (Logger_.WithFields l base)) ctx ++ fields) w)
    as (n & Hrec & Hn).
  exists n. rewrite Hrec. clear Hrec. revert Hn.
  destruct l as [[z|z]|[[z|z] ex]|]; cbn; unfold engineFields, sampledOut; cbn;
    rewrite <- ?app_assoc; intros Hn; (split; [|exact Hn]); try reflexivity.
  destruct n as [|n]; [reflexivity|].
  assert (false = true) by (apply Hn; lia). discriminate.
Qed.

(** X11. [WithTraceContext] returns the logger itself for a context with
    nothing to extract, and otherwise a logger whose records carry, after
    the parent's fields, the trace and business fields of the context; the
    trace fields are extracted even if the logger was built with tracing
    disabled. *)
Theorem WithTraceContext_fields (env : Env) (l : Logger) (ctx : Context)
    (msg : string) (fields : list Field) (w : World) :
  let extracted := ExtractAllContextFields (NewTracingExtractor true) ctx in
  (extracted = [] -> WithTraceContext ctx l = Receiver)
  /\ Logger_.Info env (derived l (WithTraceContext ctx l)) msg fields w
     = emit (engineOf l) zapcore.InfoLevel msg (extracted ++ fields) w.
Proof.
  intros extracted. unfold WithTraceContext. fold extracted.
  split; [intros ->; reflexivity|].
  rewrite Info_emit.
  destruct extracted as [|f fs] eqn:E; [reflexivity|].
  cbn [length Nat.eqb].
  destruct l as [[z|z]|[[z|z] ex]|]; cbn; rewrite ?zap_log_With; reflexivity.
Qed.

(* ===================================================================== *)
(** * Conditional loggers *)
(* ===================================================================== *)

(** X12. On a logger just built by [NewLogger] at one of the five defined
    levels the conditional loggers decide as the engine does:
    [IfDebug().Log] writes what [Debug] writes and [IfInfo().Log] what
    [Info] writes, and each is the no-op logger exactly when the level is
    above Debug, respectively above Info. *)
Theorem conditional_loggers_agree (env : Env) (config : LoggerConfig.t) (c : CoreLogger)
    (msg : string) (fields : list Field) (w : World) :
  NewLogger env config = Ok c ->
  In (LoggerConfig.Level config) definedLevels ->
  let l := coreLogger c in
  ConditionalLogger_Log env (Logger_IfDebug l) msg fields w = Logger_.Debug env l msg fields w
  /\ ConditionalLogger_Log env (Logger_IfInfo l) msg fields w = Logger_.Info env l msg fields w
  /\ (Logger_IfDebug l = noopConditionalLogger <-> DebugLevel < LoggerConfig.Level config)
  /\ (Logger_IfInfo l = noopConditionalLogger <-> InfoLevel < LoggerConfig.Level config).
Proof.
  intros Hl Hlevel l. unfold NewLogger in Hl.
  destruct (zapBuildError env); [discriminate|]. injection Hl as <-. subst l.
  simpl in Hlevel.
  destruct Hlevel as [E|[E|[E|[E|[E|[]]]]]];
    cbn; unfold zapLogger.IfDebug, zapLogger.IfInfo; cbn; rewrite <- E; cbn;
    unfold zapLogger.Debug, zapLogger.Info, zap.Debug, zap.Info, zap.log, zap.writeTo,
      buildZapCore;
    cbv zeta; destruct (String.eqb (LoggerConfig.Format config) "json");
    cbn; rewrite <- E; cbn; rewrite ?app_nil_r;
    repeat split; try reflexivity; try discriminate; try lia; intros; try lia; try discriminate.
Qed.

Lemma conditional_loggers_agree_witness :
  let env := mkEnv ∅ None (fun _ => None) None "" in
  let config :=
    LoggerConfig.mk InfoLevel "json" "svc" "" "" OutputConfig.zero (TracingConfig.mk false) in
  exists c,
    NewLogger env config = Ok c
    /\ Logger_IfDebug (coreLogger c) = noopConditionalLogger
    /\ ConditionalLogger_Log env (Logger_IfInfo (coreLogger c)) "up" [] []
       = Logger_.Info env (coreLogger c) "up" [] [].
Proof.
  intros env config. eexists. split; [reflexivity|].
  pose proof (conditional_loggers_agree env config _ "up" [] [] eq_refl
                ltac:(simpl; tauto)) as (_ & Hinfo & Hdebug & _).
  split; [apply Hdebug; reflexivity | exact Hinfo].
Defined.

(* ===================================================================== *)
(** * More on the global registry *)
(* ===================================================================== *)

(** X13. [GetGlobalLogger] returns nil in one situation only: the slot is
    nil and the lazy initialisation has already run (a logger was built
    lazily and nil was then set). In that state the package-level [Info]
    panics; in every other state it does not. *)
Theorem GetGlobalLogger_nil_iff (env : Env) (σ : Process) :
  (fst (GetGlobalLogger env σ) = None
   <-> globalLogger σ = None /\ globalInitOnce σ = true)
  /\ (forall msg fields,
        GlobalInfo env msg fields σ = None
        <-> globalLogger σ = None /\ globalInitOnce σ = true).
Proof.
  assert (H : fst (GetGlobalLogger env σ) = None
              <-> globalLogger σ = None /\ globalInitOnce σ = true).
  { unfold GetGlobalLogger, Once_Do.
    destruct (globalLogger σ) as [p|] eqn:Hg; cbn [fst].
    - split; [discriminate | intros [? _]; discriminate].
    - destruct (globalInitOnce σ) eqn:Ho; cbn.
      + rewrite Hg. now split.
      + split; [discriminate | intros [_ ?]; discriminate]. }
  split; [exact H|].
  intros msg fields. rewrite <- H. unfold GlobalInfo.
  destruct (GetGlobalLogger env σ) as [[p|] σ']; cbn [fst];
    split; congruence.
Qed.

(** X14. After [ResetGlobalLogger] the next [GetGlobalLogger] builds the
    default logger again: it allocates exactly one logger, installs it and
    returns it, and the call after that returns the same pointer and
    changes nothing. The reset flushes the logger that was installed. *)
Theorem ResetGlobalLogger_rearms (env : Env) (σ : Process) :
  let σ0 := ResetGlobalLogger env σ in
  let σ1 := snd (GetGlobalLogger env σ0) in
  globalLogger σ0 = None
  /\ heap σ0 = heap σ
  /\ fst (GetGlobalLogger env σ0) = Some (length (heap σ))
  /\ length (heap σ1) = S (length (heap σ))
  /\ GetGlobalLogger env σ1 = (Some (length (heap σ)), σ1)
  /\ (forall p l, globalLogger σ = Some p -> heap σ !! p = Some l ->
        world σ0 = snd (Logger_.Sync env l (world σ))).
Proof.
  intros σ0 σ1.
  assert (Hheap : heap σ0 = heap σ).
  { unfold σ0, ResetGlobalLogger. cbn [heap].
    destruct (globalLogger σ); [apply syncAt_heap | reflexivity]. }
  assert (Hg : globalLogger σ0 = None) by reflexivity.
  assert (Ho : globalInitOnce σ0 = false) by reflexivity.
  assert (Hget : exists l,
             GetGlobalLogger env σ0
             = (Some (length (heap σ)),
                mkProcess (heap σ ++ [l]) (Some (length (heap σ))) true (world σ0))).
  { unfold GetGlobalLogger, Once_Do, initDefaultGlobalLogger, alloc, setGlobal.
    rewrite Hg, Ho. cbn [fst snd heap globalLogger world globalInitOnce].
    rewrite Hheap. eexists. reflexivity. }
  destruct Hget as (l & Hget).
  split; [exact Hg|]. split; [exact Hheap|].
  unfold σ1. rewrite Hget. cbn [fst snd heap].
  split; [reflexivity|]. split; [rewrite length_app; cbn; lia|].
  split; [reflexivity|].
  intros p l' Hp Hl. unfold σ0, ResetGlobalLogger. rewrite Hp. cbn [world].
  unfold syncAt. now rewrite Hl.
Qed.

(** X15. [SetTestGlobalLogger] reads the global logger through
    [GetGlobalLogger], so in a process whose registry is still empty it
    first builds the default logger; calling the returned function, then or
    in any later state, makes [GetGlobalLogger] return the pointer it had
    read. *)
Theorem SetTestGlobalLogger_restore (env : Env) (logger : option nat) (σ : Process)
    (old : nat) :
  fst (GetGlobalLogger env σ) = Some old ->
  let restore := fst (SetTestGlobalLogger env logger σ) in
  let σ1 := snd (SetTestGlobalLogger env logger σ) in
  globalLogger σ1 = logger
  /\ fst (GetGlobalLogger env (restore σ1)) = Some old
  /\ (forall σ2, fst (GetGlobalLogger env (restore σ2)) = Some old).
Proof.
  intros Hold. unfold SetTestGlobalLogger.
  destruct (GetGlobalLogger env σ) as [o σ']. cbn [fst] in Hold. subst o. cbn [fst snd].
  split; [reflexivity|].
  assert (Hget : forall σ2,
             fst (GetGlobalLogger env (SetGlobalLogger env (Some old) σ2)) = Some old).
  { intros σ2. now rewrite (GetGlobalLogger_set env _ old). }
  split; [apply Hget | exact Hget].
Qed.

Lemma SetTestGlobalLogger_restore_witness :
  let env := mkEnv ∅ None (fun _ => None) None "" in
  let σ := mkProcess [] None false [] in
  fst (GetGlobalLogger env
         (fst (SetTestGlobalLogger env None σ) (snd (SetTestGlobalLogger env None σ))))
  = Some 0%nat.
Proof.
  intros env σ.
  exact (proj1 (proj2 (SetTestGlobalLogger_restore env None σ 0%nat eq_refl))).
Defined.

(** X16. [SetGlobalLoggerConfig] is all or nothing for the registry: when
    the logger cannot be built it returns the error and leaves the stored
    configuration, the global logger and the heap as they were; when it
    can, the stored configuration is the given one and the global logger is
    the newly allocated logger. *)
Theorem SetGlobalLoggerConfig_outcome (env : Env) (config : LoggerConfig.t) (π : Program) :
  match SetGlobalLoggerConfig env config π with
  | (Some err, π') =>
      fst (CreateLogger env defaultFactory config (world (registry π))) = Err err
      /\ GetGlobalLoggerConfig π' = GetGlobalLoggerConfig π
      /\ globalLogger (registry π') = globalLogger (registry π)
      /\ heap (registry π') = heap (registry π)
      /\ globalInitOnce (registry π') = globalInitOnce (registry π)
  | (None, π') =>
      exists l,
        fst (CreateLogger env defaultFactory config (world (registry π))) = Ok l
        /\ GetGlobalLoggerConfig π' = config
        /\ GetGlobalLogLevel π' = LoggerConfig.Level config
        /\ heap (registry π') = heap (registry π) ++ [l]
        /\ GetGlobalLogger env (registry π')
           = (Some (length (heap (registry π))), registry π')
  end.
Proof.
  unfold SetGlobalLoggerConfig.
  destruct (CreateLogger env defaultFactory config (world (registry π))) as [[l|err] w];
    cbn [fst].
  - unfold alloc. cbn [fst snd].
    exists l. split; [reflexivity|]. split; [reflexivity|]. split; [reflexivity|].
    cbn [registry]. split.
    + now rewrite SetGlobalLogger_heap.
    + apply GetGlobalLogger_set. reflexivity.
  - repeat split; reflexivity.
Qed.

(* ===================================================================== *)
(** * More on the interceptor *)
(* ===================================================================== *)

Section Interceptor.

Import Connect ConnectLoggingInterceptor.

Lemma containsFrom_refl (s : list ascii) : containsFrom s s = true.
Proof.
  assert (H : hasPrefix s s = true).
  { induction s as [|c s IH]; [reflexivity|]. cbn. now rewrite Ascii.eqb_refl, IH. }
  destruct s; cbn in *; [reflexivity|]. now rewrite H.
Qed.

(** X17. The start record of [WrapUnary] has a [request_headers] field
    exactly when request logging and header logging are both on and the
    request has headers. That field has exactly the keys of the request,
    and the value of each is "[REDACTED]" or the header's values joined by
    commas. For configured names and a header name of ASCII bytes, the
    value is "[REDACTED]" exactly when the interceptor holds the header
    sensitive, which is when its name equals a configured name or contains
    one of the eight common names, both without regard to case. *)
Theorem logged_headers_are_redacted (i : t) (req : AnyRequest) (startTime : Z) :
  (MiddlewareConfig.LogRequests (config i) = true ->
   MiddlewareConfig.LogHeaders (config i) = true ->
   reqHeader req <> ∅ ->
   exists headers : gmap string string,
     In (zapf.Headers "request_headers" headers) (startFields i req startTime)
     /\ dom headers = dom (reqHeader req)
     /\ forall key values,
          reqHeader req !! key = Some values ->
          (headers !! key = Some "[REDACTED]"
           \/ headers !! key = Some (Bytes.Join values ","))
          /\ (forallb Bytes.isASCII (MiddlewareConfig.SensitiveFields (config i)) = true ->
              Bytes.isASCII key = true ->
              headers !! key
              = Some (if isSensitiveField i key then "[REDACTED]"
                      else Bytes.Join values ",")))
  /\ (MiddlewareConfig.LogRequests (config i) = false
      \/ MiddlewareConfig.LogHeaders (config i) = false \/ reqHeader req = ∅ ->
      forall f, In f (startFields i req startTime) -> Key f <> "request_headers")
  /\ (forall key,
        forallb Bytes.isASCII (MiddlewareConfig.SensitiveFields (config i)) = true ->
        Bytes.isASCII key = true ->
        isSensitiveField i key = true
        <-> (exists s, In s (MiddlewareConfig.SensitiveFields (config i))
                       /\ Bytes.ToLower s = Bytes.ToLower key)
            \/ (exists s, In s commonSensitive
                          /\ strings_Contains (Bytes.ToLower key) s = true)).
Proof.
  split; [|split].
  - intros Hreq Hlog Hne.
    set (headers :=
           map_imap (fun key values =>
                       Some (if negb (isSensitiveField i key) then Bytes.Join values ","
                             else Sanitizer.REDACTED)) (reqHeader req) : gmap string string).
    assert (Hlook : forall key, headers !! key
                                = (fun values => if isSensitiveField i key then "[REDACTED]"
                                                 else Bytes.Join values ",")
                                  <$> reqHeader req !! key).
    { intros key. unfold headers. rewrite map_lookup_imap.
      destruct (reqHeader req !! key); cbn; [|reflexivity].
      now destruct (isSensitiveField i key). }
    assert (Hdom : dom headers = dom (reqHeader req)).
    { apply set_eq. intros key. rewrite !elem_of_dom, Hlook.
      destruct (reqHeader req !! key); cbn; split; intros [? ?]; eauto; discriminate. }
    exists headers. split; [|split; [exact Hdom|]].
    + unfold startFields, extractRequestFields, headerFields. rewrite Hreq, Hlog.
      fold headers. apply in_or_app. right.
      destruct (Nat.ltb_spec 0 (size headers)) as [_|Hsize].
      * apply in_or_app. left. now left.
      * exfalso. apply Hne. apply dom_empty_iff_L. rewrite <- Hdom.
        apply dom_empty_iff_L, map_size_empty_iff. lia.
    + intros key values Hk. rewrite Hlook, Hk. cbn. split.
      * destruct (isSensitiveField i key); [now left | now right].
      * reflexivity.
  - intros Hoff f Hf. unfold startFields, extractRequestFields, headerFields in Hf.
    assert (Hbase : In f [ zapf.String "method" "unary";
                           zapf.String "procedure" (Procedure req);
                           zapf.Time "start_time" startTime ] ->
                    Key f <> "request_headers").
    { intros [<-|[<-|[<-|[]]]]; discriminate. }
    destruct (MiddlewareConfig.LogRequests (config i)); [|now apply Hbase].
    apply in_app_or in Hf as [Hf|Hf]; [now apply Hbase|].
    apply in_app_or in Hf as [Hf|Hf].
    + destruct Hoff as [Hoff|[Hoff|Hoff]]; [discriminate Hoff| |].
      * rewrite Hoff in Hf. destruct Hf.
      * rewrite Hoff, map_imap_empty in Hf.
        destruct (MiddlewareConfig.LogHeaders (config i)); destruct Hf.
    + destruct (reqAny req); [|destruct Hf]. destruct Hf as [<-|[]]. discriminate.
  - intros key _ _. unfold isSensitiveField.
    destruct (existsb _ (MiddlewareConfig.SensitiveFields (config i))) eqn:Hcfg.
    + split; [intros _|reflexivity]. left.
      apply existsb_exists in Hcfg as (s & Hs & Heq). exists s. split; [exact Hs|].
      now apply String.eqb_eq.
    + rewrite existsb_exists. split.
      * intros (s & Hs & Hc). right. exists s. split; [exact Hs|].
        apply orb_true_iff in Hc as [Hc|Hc]; [|exact Hc].
        apply String.eqb_eq in Hc. rewrite Hc. apply containsFrom_refl.
      * intros [(s & Hs & Heq)|(s & Hs & Hc)].
        -- exfalso. assert (Ht : existsb
                                  (fun sensitive =>
                                     String.eqb (Bytes.ToLower sensitive) (Bytes.ToLower key))
                                  (MiddlewareConfig.SensitiveFields (config i)) = true).
           { apply existsb_exists. exists s. split; [exact Hs|]. now apply String.eqb_eq. }
           congruence.
        -- exists s. split; [exact Hs|]. rewrite Hc. apply orb_true_r.
Qed.

Lemma logged_headers_are_redacted_witness :
  let i := New fallbackLogger (MiddlewareConfig.mk true true true ["X-Tenant-Key"] 0 0) in
  let req :=
    mkRequest "/user.v1.UserService/GetUser"
      (<["Authorization" := ["Bearer abc"]]> (<["Accept" := ["a"; "b"]]> ∅)) None in
  exists headers : gmap string string,
    In (zapf.Headers "request_headers" headers) (startFields i req 0)
    /\ headers !! "Authorization" = Some "[REDACTED]"
    /\ headers !! "Accept" = Some "a,b".
Proof.
  intros i req.
  destruct (proj1 (logged_headers_are_redacted i req 0) eq_refl eq_refl)
    as (headers & Hin & _ & Hval).
  { intros H. apply (f_equal (fun m => m !! "Authorization")) in H.
    cbn in H. rewrite lookup_insert_eq, lookup_empty in H. discriminate H. }
  exists headers. split; [exact Hin|]. split.
  - rewrite (proj2 (Hval "Authorization" ["Bearer abc"] (lookup_insert_eq _ _ _))
               eq_refl eq_refl).
    reflexivity.
  - assert (Hk : reqHeader req !! "Accept" = Some ["a"; "b"]).
    { cbn. rewrite lookup_insert_ne by discriminate. apply lookup_insert_eq. }
    rewrite (proj2 (Hval "Accept" ["a"; "b"] Hk) eq_refl eq_refl). reflexivity.
Defined.

(** X18. [NewConnectLoggingInterceptor] keeps the logger and the
    configuration it is given, except that a body limit that is zero or
    negative becomes 4096 and a slow threshold that is zero or negative
    becomes 1000. So, whatever configuration or options an interceptor is
    made from, both are positive, and slow detection cannot be switched off
    with a zero threshold. Without options the configuration is: requests
    and responses logged, headers not, no sensitive names, 4096 and 1000;
    the option given last for the body limit or the threshold decides
    it. *)
Theorem interceptor_limits_positive (lg : Logger) (cfg : MiddlewareConfig.t)
    (options : list InterceptorOption) (size ms : Z) :
  logger (New lg cfg) = lg
  /\ config (New lg cfg)
     = MiddlewareConfig.mk (MiddlewareConfig.LogRequests cfg)
         (MiddlewareConfig.LogResponses cfg) (MiddlewareConfig.LogHeaders cfg)
         (MiddlewareConfig.SensitiveFields cfg)
         (if MiddlewareConfig.MaxBodySize cfg <=? 0 then 4096
          else MiddlewareConfig.MaxBodySize cfg)
         (if MiddlewareConfig.SlowThreshold cfg <=? 0 then 1000
          else MiddlewareConfig.SlowThreshold cfg)
  /\ 0 < MiddlewareConfig.MaxBodySize (config (New lg cfg))
  /\ 0 < MiddlewareConfig.SlowThreshold (config (New lg cfg))
  /\ 0 < MiddlewareConfig.MaxBodySize
           (config (NewConnectLoggingInterceptorWithOptions lg options))
  /\ 0 < MiddlewareConfig.SlowThreshold
           (config (NewConnectLoggingInterceptorWithOptions lg options))
  /\ config (NewConnectLoggingInterceptorWithOptions lg [])
     = MiddlewareConfig.mk true true false [] 4096 1000
  /\ MiddlewareConfig.MaxBodySize
       (config (NewConnectLoggingInterceptorWithOptions lg
                  (options ++ [WithMaxBodySize size])))
     = (if size <=? 0 then 4096 else size)
  /\ MiddlewareConfig.SlowThreshold
       (config (NewConnectLoggingInterceptorWithOptions lg
                  (options ++ [WithSlowThreshold ms])))
     = (if ms <=? 0 then 1000 else ms).
Proof.
  assert (Hpos : forall c, 0 < MiddlewareConfig.MaxBodySize (config (New lg c))
                           /\ 0 < MiddlewareConfig.SlowThreshold (config (New lg c))).
  { intros c. unfold New. cbn.
    destruct (Z.leb_spec (MiddlewareConfig.MaxBodySize c) 0);
      destruct (Z.leb_spec (MiddlewareConfig.SlowThreshold c) 0); lia. }
  split; [reflexivity|]. split; [reflexivity|].
  split; [apply Hpos|]. split; [apply Hpos|].
  unfold NewConnectLoggingInterceptorWithOptions.
  split; [apply Hpos|]. split; [apply Hpos|].
  split; [reflexivity|].
  rewrite !fold_left_app. split; reflexivity.
Qed.

(** X19. When the wrapped unary call returns an error, the interceptor
    returns the call's response and error as they are and completes with
    one [ErrorContext] call, "RPC request failed", whose fields contain the
    error, [status = "error"] and, for a Connect error, its code and
    message; it adds no slow marker, however long the call took. *)
Theorem WrapUnary_reports_errors (env : Env) (i : t) (next : UnaryFunc)
    (startTime duration : Z) (ctx : Context) (req : AnyRequest) (w w1 : World)
    (resp : option AnyResponse) (e : error) :
  next ctx req
    (Logger_.InfoContext env (logger i) ctx "RPC request started"
       (startFields i req startTime) w)
  = ((resp, Some e), w1) ->
  exists fields : list Field,
    WrapUnary env i next startTime duration ctx req w
    = ((resp, Some e),
       Logger_.ErrorContext env (logger i) ctx "RPC request failed" fields w1)
    /\ In (zapf.Error (errText e)) fields
    /\ In (zapf.String "status" "error") fields
    /\ (forall f, In f fields -> Key f <> "slow_request")
    /\ (forall code message,
          connectError e = Some (code, message) ->
          In (zapf.String "error_code" code) fields
          /\ In (zapf.String "error_message" message) fields)
    /\ (connectError e = None ->
        forall f, In f fields -> Key f <> "error_code" /\ Key f <> "error_message").
Proof.
  intros Hnext. unfold WrapUnary. cbv zeta. rewrite Hnext.
  set (responseFields :=
         match resp with
         | Some r =>
             if MiddlewareConfig.LogResponses (config i)
             then [ zapf.String "procedure" (Procedure req);
                    zapf.Duration "duration" duration;
                    zapf.Int64 "duration_ms" (Milliseconds duration) ]
                  ++ extractResponseFields i r
             else [ zapf.String "procedure" (Procedure req);
                    zapf.Duration "duration" duration;
                    zapf.Int64 "duration_ms" (Milliseconds duration) ]
         | None => [ zapf.String "procedure" (Procedure req);
                     zapf.Duration "duration" duration;
                     zapf.Int64 "duration_ms" (Milliseconds duration) ]
         end).
  assert (Hresp : forall f, In f responseFields ->
                            Key f = "procedure" \/ Key f = "duration"
                            \/ Key f = "duration_ms" \/ Key f = "response_headers"
                            \/ Key f = "response_type").
  { intros f Hf. unfold responseFields in Hf.
    assert (Hbase : In f [ zapf.String "procedure" (Procedure req);
                           zapf.Duration "duration" duration;
                           zapf.Int64 "duration_ms" (Milliseconds duration) ] ->
                    Key f = "procedure" \/ Key f = "duration"
                    \/ Key f = "duration_ms" \/ Key f = "response_headers"
                    \/ Key f = "response_type").
    { intros [<-|[<-|[<-|[]]]]; cbn; tauto. }
    destruct resp as [r|]; [|now apply Hbase].
    destruct (MiddlewareConfig.LogResponses (config i)); [|now apply Hbase].
    apply in_app_or in Hf as [Hf|Hf]; [now apply Hbase|].
    apply extractResponseFields_keys in Hf. tauto. }
  destruct (connectError e) as [[code message]|] eqn:Hce.
  - eexists. split; [reflexivity|].
    split; [apply in_or_app; left; apply in_or_app; right; now left|].
    split; [apply in_or_app; left; apply in_or_app; right; right; now left|].
    split; [|split].
    + intros f Hf. repeat (apply in_app_or in Hf as [Hf|Hf]).
      * apply Hresp in Hf. intros Hk. rewrite Hk in Hf.
        repeat (destruct Hf as [Hf|Hf]; [discriminate Hf|]). discriminate Hf.
      * destruct Hf as [<-|[<-|[]]]; discriminate.
      * destruct Hf as [<-|[<-|[]]]; discriminate.
    + intros c m [= <- <-]. split; apply in_or_app; right; [now left | right; now left].
    + discriminate.
  - eexists. split; [reflexivity|].
    split; [apply in_or_app; right; now left|].
    split; [apply in_or_app; right; right; now left|].
    split; [|split].
    + intros f Hf. apply in_app_or in Hf as [Hf|Hf].
      * apply Hresp in Hf. intros Hk. rewrite Hk in Hf.
        repeat (destruct Hf as [Hf|Hf]; [discriminate Hf|]). discriminate Hf.
      * destruct Hf as [<-|[<-|[]]]; discriminate.
    + discriminate.
    + intros _ f Hf. apply in_app_or in Hf as [Hf|Hf].
      * apply Hresp in Hf. split; intros Hk; rewrite Hk in Hf;
          repeat (destruct Hf as [Hf|Hf]; [discriminate Hf|]); discriminate Hf.
      * destruct Hf as [<-|[<-|[]]]; split; discriminate.
Qed.

Lemma WrapUnary_reports_errors_witness :
  let env := mkEnv ∅ None (fun _ => None) None "" in
  let i := New fallbackLogger DefaultMiddlewareConfig in
  let e := mkError "not_found: no such user" (Some ("not_found", "no such user")) in
  let next : UnaryFunc := fun _ _ w => ((None, Some e), w) in
  let req := mkRequest "/user.v1.UserService/GetUser" ∅ None in
  fst (WrapUnary env i next 0 5000000000 context_Background req []) = (None, Some e).
Proof.
  intros env i e next req.
  destruct (WrapUnary_reports_errors env i next 0 5000000000 context_Background req []
              [] None e eq_refl) as (fields & -> & _).
  reflexivity.
Defined.

End Interceptor.

(** X20. The interceptor around a stream handler returns the handler's
    error as it is, and what it logs depends on the interceptor's logger
    only: the switches for requests, responses and headers and the slow
    threshold of its configuration play no part, so a stream is never
    reported as slow. *)
Theorem WrapStreamingHandler_ignores_config (env : Env)
    (i j : ConnectLoggingInterceptor.t) (next : StreamingHandlerFunc)
    (startTime duration : Z) (ctx : Context) (procedure : string) (w : World) :
  ConnectLoggingInterceptor.logger i = ConnectLoggingInterceptor.logger j ->
  WrapStreamingHandler env i next startTime duration ctx procedure w
  = WrapStreamingHandler env j next startTime duration ctx procedure w
  /\ fst (WrapStreamingHandler env i next startTime duration ctx procedure w)
     = fst (next ctx
              (Logger_.InfoContext env (ConnectLoggingInterceptor.logger i) ctx
                 "Streaming handler started"
                 [ zapf.String "method" "streaming_handler";
                   zapf.String "procedure" procedure;
                   zapf.Time "start_time" startTime ] w)).
Proof.
  intros Hlog. unfold WrapStreamingHandler. cbv zeta. rewrite <- Hlog. split.
  - reflexivity.
  - now destruct (next ctx _) as [[e|] w1].
Qed.

Lemma WrapStreamingHandler_ignores_config_witness :
  let env := mkEnv ∅ None (fun _ => None) None "" in
  let next : StreamingHandlerFunc := fun _ w => (None, w) in
  WrapStreamingHandler env
    (ConnectLoggingInterceptor.New fallbackLogger
       ConnectLoggingInterceptor.DefaultMiddlewareConfig)
    next 0 5000000000 context_Background "/chat.v1.Chat/Stream" []
  = WrapStreamingHandler env
      (ConnectLoggingInterceptor.New fallbackLogger
         (MiddlewareConfig.mk false false true [] 1 1))
      next 0 5000000000 context_Background "/chat.v1.Chat/Stream" [].
Proof.
  intros env next.
  exact (proj1 (WrapStreamingHandler_ignores_config env _ _ next 0 5000000000
                  context_Background "/chat.v1.Chat/Stream" [] eq_refl)).
Defined.

(* ===================================================================== *)
(** * More on the sanitizer *)
(* ===================================================================== *)

Lemma sanitizeField_idem (custom : gmap string bool) (field : Field) :
  Sanitizer.sanitizeField custom (Sanitizer.sanitizeField custom field)
  = Sanitizer.sanitizeField custom field.
Proof.
  unfold Sanitizer.sanitizeField.
  destruct (Sanitizer.isSensitiveField custom (Key field)) eqn:E.
  - cbn [Key zapf.String]. now rewrite E.
  - now rewrite E.
Qed.

(** X21. [SanitizeFields] is idempotent, works field by field (the result
    for a concatenation is the concatenation of the results) and keeps the
    keys in their order, whatever the custom set holds. *)
Theorem SanitizeFields_idempotent (custom : gmap string bool) (a b : list Field) :
  Sanitizer.SanitizeFields custom (Sanitizer.SanitizeFields custom a)
  = Sanitizer.SanitizeFields custom a
  /\ Sanitizer.SanitizeFields custom (a ++ b)
     = Sanitizer.SanitizeFields custom a ++ Sanitizer.SanitizeFields custom b
  /\ map Key (Sanitizer.SanitizeFields custom a) = map Key a.
Proof.
  rewrite !SanitizeFields_map. split; [|split].
  - rewrite map_map. apply map_ext. intros f. apply sanitizeField_idem.
  - apply map_app.
  - rewrite map_map. apply map_ext. intros f. apply sanitizeField_Key.
Qed.

(** X22. The custom set, for names and keys of ASCII bytes: after
    [AddSensitiveField name] a key is sensitive when it was before or
    spells [name] in any case; after [RemoveSensitiveField name] a key
    spelling [name] is sensitive only through the eight built-in words,
    which no removal switches off, and any other key is as before. *)
Theorem custom_sensitive_fields (custom : gmap string bool) (name key : string) :
  Bytes.isASCII name = true ->
  Bytes.isASCII key = true ->
  Sanitizer.isSensitiveField (Sanitizer.AddSensitiveField name custom) key
  = Sanitizer.isSensitiveField custom key
    || String.eqb (Bytes.ToLower key) (Bytes.ToLower name)
  /\ Sanitizer.isSensitiveField (Sanitizer.RemoveSensitiveField name custom) key
     = (if String.eqb (Bytes.ToLower key) (Bytes.ToLower name)
        then existsb (strings_Contains (Bytes.ToLower key)) sensitiveWords
        else Sanitizer.isSensitiveField custom key)
  /\ (existsb (strings_Contains (Bytes.ToLower key)) sensitiveWords = true ->
      Sanitizer.isSensitiveField (Sanitizer.RemoveSensitiveField key custom) key = true).
Proof.
  intros _ _. rewrite !isSensitiveField_contains.
  unfold Sanitizer.AddSensitiveField, Sanitizer.RemoveSensitiveField.
  split; [|split].
  - destruct (String.eqb_spec (Bytes.ToLower key) (Bytes.ToLower name)) as [->|Hne].
    + rewrite lookup_insert_eq. cbn. now rewrite !orb_true_r.
    + rewrite lookup_insert_ne by congruence. now rewrite orb_false_r.
  - destruct (String.eqb_spec (Bytes.ToLower key) (Bytes.ToLower name)) as [->|Hne].
    + rewrite lookup_delete_eq. reflexivity.
    + rewrite lookup_delete_ne by congruence. reflexivity.
  - intros ->. apply orb_true_r.
Qed.

Lemma custom_sensitive_fields_witness :
  Sanitizer.isSensitiveField (Sanitizer.AddSensitiveField "SSN" ∅) "ssn" = true
  /\ Sanitizer.isSensitiveField
       (Sanitizer.RemoveSensitiveField "ssn" (Sanitizer.AddSensitiveField "SSN" ∅)) "Ssn"
     = false
  /\ Sanitizer.isSensitiveField (Sanitizer.RemoveSensitiveField "api_key" ∅) "API_KEY"
     = true.
Proof.
  split; [|split].
  - rewrite (proj1 (custom_sensitive_fields ∅ "SSN" "ssn" eq_refl eq_refl)). reflexivity.
  - rewrite (proj1 (proj2 (custom_sensitive_fields (Sanitizer.AddSensitiveField "SSN" ∅)
                             "ssn" "Ssn" eq_refl eq_refl))).
    reflexivity.
  - rewrite (proj1 (proj2 (custom_sensitive_fields ∅ "api_key" "API_KEY" eq_refl eq_refl))).
    reflexivity.
Defined.

Lemma applySteps_changed_stars_lt steps :
  Forall wellFormedStep steps ->
  forall s, applySteps steps s <> s ->
            (Regexp.stars (Bytes.chars s)
             < Regexp.stars (Bytes.chars (applySteps steps s)))%nat.
Proof.
  induction 1 as [|[p t] steps (Hs & Hm & Ht) Hsteps IH]; intros s Hne.
  - now contradiction Hne.
  - change (applySteps ((p, t) :: steps) s)
      with (applySteps steps (Regexp.ReplaceAllString p s t)) in *.
    destruct (Regexp.MatchString p s) eqn:Hmatch.
    + pose proof (ReplaceAllString_stars_lt p t s Hs Hm Ht Hmatch) as Hlt.
      pose proof (applySteps_stars_le steps Hsteps (Regexp.ReplaceAllString p s t)) as Hle.
      lia.
    + rewrite (ReplaceAllString_no_match p t s Hmatch) in *. now apply IH.
Qed.

(** X23. [sanitizeString] never removes an asterisk, and whenever it
    changes its input the output has more asterisks than the input: every
    replacement it makes writes a mask. *)
Theorem sanitizeString_adds_masks (s : string) :
  (Regexp.stars (Bytes.chars s)
   <= Regexp.stars (Bytes.chars (Sanitizer.sanitizeString s)))%nat
  /\ (Sanitizer.sanitizeString s <> s ->
      (Regexp.stars (Bytes.chars s)
       < Regexp.stars (Bytes.chars (Sanitizer.sanitizeString s)))%nat).
Proof.
  rewrite sanitizeString_applySteps. split.
  - apply applySteps_stars_le, maskingSteps_wellFormed.
  - apply applySteps_changed_stars_lt, maskingSteps_wellFormed.
Qed.

Lemma sanitizeString_adds_masks_witness :
  (Regexp.stars (Bytes.chars "tel 13812345678")
   < Regexp.stars (Bytes.chars (Sanitizer.sanitizeString "tel 13812345678")))%nat.
Proof.
  apply (proj2 (sanitizeString_adds_masks "tel 13812345678")).
  vm_compute. discriminate.
Defined.

(* ===================================================================== *)
(** * Constructors from the environment, presets, generated ids *)
(* ===================================================================== *)

Lemma merge_level_default (config : LoggerConfig.t) :
  LoggerConfig.Level (mergeWithDefaults defaultFactory config) = LoggerConfig.Level config.
Proof.
  unfold mergeWithDefaults. cbn [LoggerConfig.Level].
  destruct (Z.eqb_spec (LoggerConfig.Level config) 0) as [->|_]; reflexivity.
Qed.

(** X24. The two constructors reading the environment agree when
    [SERVICE_VERSION] and [ENVIRONMENT] are set and [TRACING_ENABLED] is
    not ["true"]: [NewLoggerFromEnvCompat] then returns what
    [NewLoggerFromEnv] returns and writes nothing. *)
Theorem env_constructors_agree (env : Env) (w : World) :
  os_Getenv env "TRACING_ENABLED" <> "true" ->
  os_Getenv env "SERVICE_VERSION" <> "" ->
  os_Getenv env "ENVIRONMENT" <> "" ->
  NewLoggerFromEnvCompat env w = (asLogger (NewLoggerFromEnv env), w).
Proof.
  intros Htr Hver Henv.
  unfold NewLoggerFromEnvCompat, NewLoggerFromEnv, CreateLogger. cbv zeta.
  destruct (String.eqb_spec (os_Getenv env "TRACING_ENABLED") "true") as [|_];
    [contradiction|].
  set (level := if String.eqb (os_Getenv env "LOG_LEVEL") "" then "info"
                else os_Getenv env "LOG_LEVEL").
  set (format := if String.eqb (os_Getenv env "LOG_FORMAT") "" then "console"
                 else os_Getenv env "LOG_FORMAT").
  set (config := LoggerConfig.mk (ParseLevel level) format (os_Getenv env "SERVICE_NAME")
                   (os_Getenv env "SERVICE_VERSION") (os_Getenv env "ENVIRONMENT")
                   OutputConfig.zero (TracingConfig.mk false)).
  set (merged := mergeWithDefaults defaultFactory config).
  assert (Hformat : String.eqb format "" = false).
  { unfold format. destruct (String.eqb_spec (os_Getenv env "LOG_FORMAT") "") as [|Hf].
    - reflexivity.
    - now apply String.eqb_neq. }
  apply String.eqb_neq in Hver, Henv.
  assert (Hmerged :
            merged
            = LoggerConfig.mk (ParseLevel level) format
                (if String.eqb (os_Getenv env "SERVICE_NAME") "" then "unknown-service"
                 else os_Getenv env "SERVICE_NAME")
                (os_Getenv env "SERVICE_VERSION") (os_Getenv env "ENVIRONMENT")
                (LoggerConfig.Output DefaultLoggerConfig) (TracingConfig.mk false)).
  { unfold merged, mergeWithDefaults, config.
    cbn [LoggerConfig.Level LoggerConfig.Format LoggerConfig.ServiceName
         LoggerConfig.Version LoggerConfig.Environment LoggerConfig.Output
         LoggerConfig.Tracing].
    rewrite Hformat, Hver, Henv. cbn [negb].
    f_equal.
    - destruct (Z.eqb_spec (ParseLevel level) 0) as [->|_]; reflexivity.
    - now destruct (String.eqb (os_Getenv env "SERVICE_NAME") ""). }
  rewrite Hmerged.
  change (hasMultipleOutputs _) with false.
  cbn [LoggerConfig.Tracing TracingConfig.Enabled].
  unfold NewLogger, buildZapCore, serviceFields.
  cbn [LoggerConfig.Level LoggerConfig.Format LoggerConfig.ServiceName
       LoggerConfig.Version LoggerConfig.Environment].
  reflexivity.
Qed.

Lemma env_constructors_agree_witness :
  let env :=
    mkEnv (<["SERVICE_VERSION" := "2.1.0"]> (<["ENVIRONMENT" := "staging"]> ∅))
      None (fun _ => None) None "" in
  NewLoggerFromEnvCompat env [] = (asLogger (NewLoggerFromEnv env), []).
Proof.
  intros env. apply (env_constructors_agree env []); vm_compute; discriminate.
Defined.

Lemma presetFor_production (env : Env) (serviceName environment : string) :
  String.eqb environment "production" || String.eqb environment "prod" = true ->
  presetFor env serviceName environment = ProductionLoggerConfig env serviceName.
Proof. intros H. unfold presetFor. now rewrite H. Qed.

Lemma presetFor_single_output (env : Env) (serviceName environment : string) :
  String.eqb environment "production" || String.eqb environment "prod" = false ->
  let config := presetFor env serviceName environment in
  TracingConfig.Enabled (LoggerConfig.Tracing config) = false
  /\ FileOutputConfig.Enabled (OutputConfig.File (LoggerConfig.Output config)) = false
  /\ RemoteOutputConfig.Enabled (OutputConfig.Remote (LoggerConfig.Output config)) = false.
Proof.
  intros H. unfold presetFor. rewrite H.
  destruct (String.eqb environment "development" || String.eqb environment "dev");
    [repeat split|].
  destruct (String.eqb environment "test" || String.eqb environment "testing");
    repeat split.
Qed.

Lemma append_nonempty (a b : string) : a <> "" -> a +:+ b <> "".
Proof. destruct a; [congruence|discriminate]. Qed.

(** X25. [InitGlobalLogger] fails for the environments ["production"] and
    ["prod"] exactly when the directory of [logs/<service>.log] cannot be
    made, whether or not zap can build a logger, and for every other
    environment name exactly when zap cannot build the logger. *)
Theorem InitGlobalLogger_fails_iff (env : Env) (serviceName environment : string)
    (π : Program) :
  fst (InitGlobalLogger env serviceName environment π) <> None
  <-> (if String.eqb environment "production" || String.eqb environment "prod"
       then mkdirAllError env ("logs/" +:+ serviceName +:+ ".log") <> None
       else zapBuildError env <> None).
Proof.
  unfold InitGlobalLogger, SetGlobalLoggerConfig.
  destruct (String.eqb environment "production" || String.eqb environment "prod") eqn:Hprod.
  - rewrite (presetFor_production env serviceName environment Hprod).
    unfold CreateLogger, CreateTracedLogger, CreateLoggerWithOutputs, AddFileOutput.
    set (merged := mergeWithDefaults defaultFactory (ProductionLoggerConfig env serviceName)).
    assert (Hfile : OutputConfig.File (LoggerConfig.Output merged)
                    = FileOutputConfig.mk true ("logs/" +:+ serviceName +:+ ".log")
                        100 3 7 true) by reflexivity.
    assert (Htr : TracingConfig.Enabled (LoggerConfig.Tracing merged) = true) by reflexivity.
    assert (Hcons : ConsoleOutputConfig.Enabled
                      (OutputConfig.Console (LoggerConfig.Output merged)) = true)
      by reflexivity.
    assert (Hsf : shouldAddFileOutput merged = true).
    { unfold shouldAddFileOutput. rewrite Hfile. cbn [FileOutputConfig.Enabled
        FileOutputConfig.Path andb]. apply negb_true_iff, String.eqb_neq. discriminate. }
    assert (Hmulti : hasMultipleOutputs merged = true).
    { unfold hasMultipleOutputs. rewrite Hcons, Hsf. cbn [orb].
      now destruct (shouldAddRemoteOutput merged). }
    rewrite Htr, Hmulti, Hsf.
    cbn [createFileOutputConfig InternalFileOutputConfig.Filename]. rewrite Hfile.
    cbn [FileOutputConfig.Path].
    destruct (mkdirAllError env ("logs/" +:+ serviceName +:+ ".log")) as [e|].
    + cbn. split; intros _; discriminate.
    + destruct (shouldAddRemoteOutput merged); cbn; split; intros H; now contradiction H.
  - destruct (presetFor_single_output env serviceName environment Hprod)
      as (Htr & Hfile & Hremote).
    set (config := presetFor env serviceName environment) in *.
    unfold CreateLogger.
    set (merged := mergeWithDefaults defaultFactory config).
    assert (Htr' : TracingConfig.Enabled (LoggerConfig.Tracing merged) = false).
    { unfold merged, mergeWithDefaults. cbn [LoggerConfig.Tracing]. now rewrite Htr. }
    assert (Hmulti : hasMultipleOutputs merged = false).
    { pose proof (merged_hasMultipleOutputs config) as Hm. cbv zeta in Hm.
      change (mergeWithDefaults NewLoggerFactory config) with merged in Hm. rewrite Hm.
      unfold shouldAddFileOutput, shouldAddRemoteOutput, merged, mergeWithDefaults.
      cbn [LoggerConfig.Output OutputConfig.File OutputConfig.Remote].
      now rewrite Hfile, Hremote. }
    rewrite Htr', Hmulti. unfold NewLogger.
    destruct (zapBuildError env) as [e|]; cbn; split; intros H;
      solve [discriminate | now contradiction H].
Qed.

Lemma length_str (l : list ascii) : String.length (Bytes.str l) = length l.
Proof. induction l as [|c l IH]; cbn; [reflexivity|]. now f_equal. Qed.

(** X26. [generateRandomHex] is not random: for every length it returns
    that many copies of the digit 8, so two generated trace ids are always
    equal and a span id is a prefix of a trace id. *)
Theorem generateRandomHex_constant (n m : nat) :
  String.length (generateRandomHex n) = n
  /\ Forall (fun c => c = "8"%char) (Bytes.chars (generateRandomHex n))
  /\ generateRandomHex (n + m) = generateRandomHex n +:+ generateRandomHex m.
Proof.
  unfold generateRandomHex. cbv zeta.
  change (nth (String.length "0123456789abcdef" / 2) (Bytes.chars "0123456789abcdef")
            "000"%char) with "8"%char.
  split; [|split].
  - now rewrite length_str, repeat_length.
  - rewrite chars_str. apply Forall_forall. intros c Hc.
    apply list_elem_of_In in Hc. now apply repeat_spec in Hc.
  - rewrite repeat_app. unfold Bytes.str.
    generalize (repeat "8"%char m). induction (repeat "8"%char n) as [|c l IH];
      intros k; cbn; [reflexivity|]. now rewrite IH.
Qed.

(* ===================================================================== *)
(** * Fatal entries, flushing, convenience constructors *)
(* ===================================================================== *)

Lemma levelToZapLevel_le_Fatal (level : Level) :
  (levelToZapLevel level <=? zapcore.FatalLevel) = true.
Proof.
  pose proof (levelToZapLevel_values level) as H. simpl in H.
  destruct H as [<-|[<-|[<-|[<-|[<-|[]]]]]]; reflexivity.
Qed.

Lemma NewLogger_writes_fatal (env : Env) (config : LoggerConfig.t) (c : CoreLogger) :
  NewLogger env config = Ok c -> writesAt (coreLogger c) zapcore.FatalLevel = true.
Proof.
  unfold NewLogger. destruct (zapBuildError env); [discriminate|]. intros [= <-].
  unfold writesAt, buildZapCore. cbv zeta.
  destruct (String.eqb (LoggerConfig.Format config) "json"); cbn;
    now rewrite levelToZapLevel_le_Fatal.
Qed.

Lemma CreateLoggerWithOutputs_writes_fatal (env : Env) (config : LoggerConfig.t)
    (w w' : World) (c : CoreLogger) :
  CreateLoggerWithOutputs env config w = (Ok c, w') ->
  writesAt (coreLogger c) zapcore.FatalLevel = true.
Proof.
  unfold CreateLoggerWithOutputs, wrapOutputs, writesAt.
  assert (Hcore : forall z0,
             zap.core (if (0 <? length (serviceFields config))%nat
                       then zap.With (zap.New z0) (serviceFields config)
                       else zap.New z0) = z0).
  { intros z0. destruct (0 <? length (serviceFields config))%nat; reflexivity. }
  destruct (shouldAddConsoleOutput config), (shouldAddFileOutput config);
    unfold AddFileOutput;
    try destruct (mkdirAllError env _); try discriminate;
    destruct (shouldAddRemoteOutput config);
    intros [= <- _]; cbn [engineOf CoreLogger_.fields zap_];
    rewrite Hcore; cbn; rewrite ?levelToZapLevel_le_Fatal; reflexivity.
Qed.

Lemma CreateLogger_writes_fatal (env : Env) (f : LoggerFactory) (config : LoggerConfig.t)
    (w : World) (l : Logger) :
  fst (CreateLogger env f config w) = Ok l -> writesAt l zapcore.FatalLevel = true.
Proof.
  unfold CreateLogger, CreateTracedLogger.
  set (merged := mergeWithDefaults f config).
  destruct (TracingConfig.Enabled (LoggerConfig.Tracing merged));
    destruct (hasMultipleOutputs merged).
  - destruct (CreateLoggerWithOutputs env merged w) as [[c|e] w'] eqn:E; [|discriminate].
    intros [= <-]. apply (CreateLoggerWithOutputs_writes_fatal _ _ _ _ _ E).
  - destruct (NewLogger env merged) as [c|e] eqn:E; [|discriminate].
    intros [= <-]. apply (NewLogger_writes_fatal _ _ _ E).
  - destruct (CreateLoggerWithOutputs env merged w) as [[c|e] w'] eqn:E; [|discriminate].
    intros [= <-]. apply (CreateLoggerWithOutputs_writes_fatal _ _ _ _ _ E).
  - destruct (NewLogger env merged) as [c|e] eqn:E; [|discriminate].
    intros [= <-]. apply (NewLogger_writes_fatal _ _ _ E).
Qed.

(** X27. [Fatal] through the fallback logger does nothing: it neither
    writes nor exits. Through a logger made by a factory, whatever its
    configuration, [Fatal] always writes the entry, to at least one sink,
    and then exits with code 1: no configured level filters a fatal entry
    out. *)
Theorem Fatal_always_exits (env : Env) (msg : string) (fields : list Field) (w : World) :
  Logger_.Fatal env fallbackLogger msg fields w = w
  /\ forall (f : LoggerFactory) (config : LoggerConfig.t) (w0 : World) (l : Logger),
       fst (CreateLogger env f config w0) = Ok l ->
       exists written : list Event,
         Logger_.Fatal env l msg fields w = w ++ written ++ [Exit 1]
         /\ written <> []
         /\ records written
            = repeat (zapcore.FatalLevel, msg,
                      engineFields l ++ fields ++ stackFieldsOf env l) (length written).
Proof.
  split; [reflexivity|].
  intros f config w0 l Hl. apply CreateLogger_writes_fatal in Hl.
  unfold writesAt in Hl. unfold engineFields.
  assert (Hgen : forall z fs,
             zapcore.sinks (zap.core z) zapcore.FatalLevel <> [] ->
             zap.write z zapcore.FatalLevel msg fs <> []
             /\ records (zap.write z zapcore.FatalLevel msg fs)
                = repeat (zapcore.FatalLevel, msg, zap.context z ++ fs)
                    (length (zap.write z zapcore.FatalLevel msg fs))).
  { intros z fs Hs. split.
    - unfold zap.write, zap.writeTo.
      destruct (zapcore.sinks (zap.core z) zapcore.FatalLevel);
        [contradiction|discriminate].
    - rewrite records_write. unfold zap.write, zap.writeTo. rewrite length_map. clear Hs.
      induction (zapcore.sinks (zap.core z) zapcore.FatalLevel) as [|s ss IH]; cbn;
        [reflexivity|].
      f_equal. exact IH. }
  destruct l as [[z|z]|[[z|z] ex]|]; cbn in Hl |- *; try discriminate;
    (destruct (zapcore.sinks (zap.core (zap_ z)) zapcore.FatalLevel) eqn:Hs;
     [discriminate|]);
    eexists; (split; [reflexivity|]); rewrite ?app_nil_r;
    apply Hgen; rewrite Hs; discriminate.
Qed.

Lemma Fatal_always_exits_witness :
  let env := mkEnv ∅ None (fun _ => None) None "" in
  let config :=
    LoggerConfig.mk FatalLevel "json" "svc" "" "" OutputConfig.zero (TracingConfig.mk false) in
  exists l written,
    fst (CreateLogger env NewLoggerFactory config []) = Ok l
    /\ Logger_.Fatal env l "boom" [] [] = [] ++ written ++ [Exit 1]
    /\ written <> [].
Proof.
  intros env config. eexists.
  destruct (proj2 (Fatal_always_exits env "boom" [] []) NewLoggerFactory config [] _ eq_refl)
    as (written & Hw & Hne & _).
  exists written. split; [reflexivity|]. split; [exact Hw | exact Hne].
Defined.

(** X28. [Cleanup] only flushes: it never builds the default logger and
    leaves the loggers, the global slot and the once-flag as they are,
    adding at most one event to the world. With an empty slot it returns
    nil and changes nothing, where [GetGlobalLogger] in a fresh process
    would install a logger. *)
Theorem Cleanup_only_flushes (env : Env) (σ : Process) :
  let σ' := snd (Cleanup env σ) in
  heap σ' = heap σ
  /\ globalLogger σ' = globalLogger σ
  /\ globalInitOnce σ' = globalInitOnce σ
  /\ (exists events, world σ' = world σ ++ events /\ (length events <= 1)%nat)
  /\ (globalLogger σ = None -> Cleanup env σ = (None, σ))
  /\ (globalLogger σ = None -> globalInitOnce σ = false ->
      globalLogger (snd (GetGlobalLogger env σ)) <> None).
Proof.
  intros σ'. subst σ'. unfold Cleanup.
  destruct (globalLogger σ) as [p|] eqn:Hg.
  - destruct (heap σ !! p) as [l|] eqn:Hl.
    + destruct (Logger_.Sync env l (world σ)) as [err w] eqn:Hs. cbn.
      repeat split; try congruence.
      destruct l as [[z|z]|[[z|z] ex]|]; cbn in Hs; unfold zap.Sync in Hs;
        injection Hs as _ <-;
        solve [ eexists; split; [reflexivity|]; cbn; lia
              | exists []; split; [now rewrite app_nil_r | cbn; lia] ].
    + cbn. repeat split; try congruence.
      exists []. split; [now rewrite app_nil_r | cbn; lia].
  - cbn. repeat split; try congruence.
    + exists []. split; [now rewrite app_nil_r | cbn; lia].
    + intros _ Ho. unfold GetGlobalLogger, Once_Do, initDefaultGlobalLogger, alloc, setGlobal.
      rewrite Hg, Ho. cbn. discriminate.
Qed.

(** X29. The convenience constructors of the package's factory:
    [CreateSimpleLogger], [CreateServiceLogger] and [NewLoggerCompat] give
    the single-output logger and [CreateTracedServiceLogger] gives it
    wrapped with trace extraction switched on; they leave the world as it
    is and fail exactly when zap cannot build the logger.
    [NewLoggerCompat] takes any level text: its logger filters at the
    parsed level, which is Info for a text naming no level. *)
Theorem convenience_constructors (env : Env) (level : Level) (levelText format : string)
    (serviceName version environment : string) (w : World) :
  let single (r : result Logger * World) :=
    snd r = w
    /\ match fst r with
       | inl (coreLogger (zapLogger_ _)) => zapBuildError env = None
       | inl _ => False
       | inr _ => zapBuildError env <> None
       end in
  single (CreateSimpleLogger env NewLoggerFactory level format w)
  /\ single (CreateServiceLogger env NewLoggerFactory serviceName version environment w)
  /\ single (NewLoggerCompat env levelText format w)
  /\ (snd (CreateTracedServiceLogger env NewLoggerFactory serviceName version environment w)
      = w
      /\ match fst (CreateTracedServiceLogger env NewLoggerFactory serviceName version
                      environment w) with
         | inl (tracedLogger_ (mkTraced (zapLogger_ _) extractor)) =>
             zapBuildError env = None /\ enabled extractor = true
         | inl _ => False
         | inr _ => zapBuildError env <> None
         end)
  /\ (forall l, fst (NewLoggerCompat env levelText format w) = Ok l ->
      forall lvl,
        writesAt l lvl
        = (levelToZapLevel (ParseLevel levelText) <=? lvl)).
Proof.
  intros single. unfold single.
  unfold CreateSimpleLogger, CreateServiceLogger, NewLoggerCompat,
    CreateTracedServiceLogger, CreateLogger, CreateTracedLogger, defaultFactory.
  repeat match goal with
         | |- context [hasMultipleOutputs ?m] => change (hasMultipleOutputs m) with false
         end.
  cbn [LoggerConfig.Tracing TracingConfig.Enabled].
  unfold NewLogger.
  destruct (zapBuildError env) as [e|]; cbn.
  - repeat split; try discriminate.
  - repeat split.
    intros l [= <-] lvl. unfold writesAt, buildZapCore. cbn.
    destruct (Z.eqb_spec (ParseLevel levelText) 0) as [E|_]; cbn [negb].
    + rewrite E. unfold InfoLevel.
      destruct (String.eqb _ "json"); cbn; now destruct (zapcore.InfoLevel <=? lvl).
    + destruct (String.eqb _ "json"); cbn;
        now destruct (levelToZapLevel (ParseLevel levelText) <=? lvl).
Qed.
